(** * Verification of the procurement-notice ingestion core

    A shallow embedding of the extraction, fingerprinting, scraping and
    child-splitting code of the backend, followed by the properties proved
    about it.

    Conventions of the embedding.
    - A JavaScript string is a [string] whose characters are UTF-16 code units
      below 256 (the Latin-1 range): [trim], [toLowerCase], [\s] and the UTF-8
      encoding fed to the digest are written out for that range.
    - A [Date] is its time value in milliseconds since the epoch, or an
      Invalid Date.
    - A table of the database is the list of its rows; [create] enforces the
      unique indexes declared by the migrations.
    - Asynchronous calls are sequenced as the [await]s sequence them. *)

From Stdlib Require Import ZArith List String Ascii Bool Lia Arith.
From Equations Require Import Equations.
From stdpp Require Import base option gmap strings.
Import ListNotations.

Local Open Scope string_scope.
Local Open Scope Z_scope.

(* ===================================================================== *)
(** * JavaScript strings (Latin-1 code units)                             *)
(* ===================================================================== *)

Module JsString.

Definition code (c : ascii) : Z := Z.of_N (N_of_ascii c).

Definition chr (n : Z) : ascii := ascii_of_N (Z.to_N n).

(** WhiteSpace and LineTerminator code units below 256: TAB, LF, VT, FF,
    CR, SPACE and NBSP.  [String.prototype.trim] and the class [\s] use
    the same set. *)
Definition isWhiteSpace (c : ascii) : bool :=
  let n := code c in
  ((9 <=? n) && (n <=? 13)) || (n =? 32) || (n =? 160).

Fixpoint trimStart (s : string) : string :=
  match s with
  | EmptyString => EmptyString
  | String c t => if isWhiteSpace c then trimStart t else s
  end.

Definition isEmpty (s : string) : bool :=
  match s with EmptyString => true | _ => false end.

Fixpoint trimEnd (s : string) : string :=
  match s with
  | EmptyString => EmptyString
  | String c t =>
      let t' := trimEnd t in
      if isWhiteSpace c && isEmpty t' then EmptyString else String c t'
  end.

(** [s.trim()] *)
Definition trim (s : string) : string := trimEnd (trimStart s).

Definition lowerChar (c : ascii) : ascii :=
  let n := code c in
  if ((65 <=? n) && (n <=? 90))
     || ((192 <=? n) && (n <=? 222) && negb (n =? 215))
  then chr (n + 32) else c.

(** [s.toLowerCase()] *)
Fixpoint toLowerCase (s : string) : string :=
  match s with
  | EmptyString => EmptyString
  | String c t => String (lowerChar c) (toLowerCase t)
  end.

(** [hay.includes(needle)] *)
Fixpoint includes (hay needle : string) : bool :=
  String.prefix needle hay
  || match hay with
     | EmptyString => false
     | String _ t => includes t needle
     end.

(** [parts.join(sep)] *)
Fixpoint join (sep : string) (parts : list string) : string :=
  match parts with
  | [] => EmptyString
  | [p] => p
  | p :: rest => p ++ sep ++ join sep rest
  end.

(** [parts.join('')] *)
Definition concat (parts : list string) : string :=
  fold_right String.append EmptyString parts.

(** The UTF-8 encoding of a string, as the bytes hashed by
    [hash.update(s)]. *)
Fixpoint utf8 (s : string) : list Z :=
  match s with
  | EmptyString => []
  | String c t =>
      let n := code c in
      if n <? 128 then n :: utf8 t
      else Z.lor 192 (Z.shiftr n 6) :: Z.lor 128 (Z.land n 63) :: utf8 t
  end.

Definition isDigit (c : ascii) : bool :=
  let n := code c in (48 <=? n) && (n <=? 57).

(** [parseInt(s)] on a string of decimal digits (the only use the
    embedded code makes of it); [None] is NaN. *)
Fixpoint parseDigits (acc : Z) (s : string) : Z :=
  match s with
  | String c t =>
      if isDigit c then parseDigits (10 * acc + (code c - 48)) t else acc
  | EmptyString => acc
  end.

Definition parseInt (s : string) : option Z :=
  match s with
  | String c _ => if isDigit c then Some (parseDigits 0 s) else None
  | EmptyString => None
  end.

Definition digitChar (n : Z) : ascii := chr (48 + n).

Fixpoint natToDigits (fuel : nat) (n : Z) (acc : string) : string :=
  match fuel with
  | O => acc
  | S fuel' =>
      let acc' := String (digitChar (n mod 10)) acc in
      if n <? 10 then acc' else natToDigits fuel' (n / 10) acc'
  end.

(** [String(n)] for a non-negative integer. *)
Definition ofInt (n : Z) : string :=
  natToDigits (S (Z.to_nat (Z.log2 n))) n EmptyString.

End JsString.

(* ===================================================================== *)
(** * SHA-256 (FIPS 180-4), the digest behind [crypto.createHash]         *)
(* ===================================================================== *)

Module Sha256.

Definition mask32 (x : Z) : Z := x mod 4294967296.
Definition add32 (x y : Z) : Z := mask32 (x + y).
Definition rotr (n x : Z) : Z :=
  mask32 (Z.lor (Z.shiftr x n) (Z.shiftl x (32 - n))).
Definition not32 (x : Z) : Z := Z.lxor x 4294967295.

Definition Ch (x y z : Z) : Z := Z.lxor (Z.land x y) (Z.land (not32 x) z).
Definition Maj (x y z : Z) : Z :=
  Z.lxor (Z.lxor (Z.land x y) (Z.land x z)) (Z.land y z).
Definition Sigma0 (x : Z) : Z :=
  Z.lxor (Z.lxor (rotr 2 x) (rotr 13 x)) (rotr 22 x).
Definition Sigma1 (x : Z) : Z :=
  Z.lxor (Z.lxor (rotr 6 x) (rotr 11 x)) (rotr 25 x).
Definition sigma0 (x : Z) : Z :=
  Z.lxor (Z.lxor (rotr 7 x) (rotr 18 x)) (Z.shiftr x 3).
Definition sigma1 (x : Z) : Z :=
  Z.lxor (Z.lxor (rotr 17 x) (rotr 19 x)) (Z.shiftr x 10).

(** Primality, by trial division. *)
Definition isPrime (n : Z) : bool :=
  (1 <? n)
  && forallb (fun d => negb (n mod Z.of_nat d =? 0))
             (seq 2 (Z.to_nat (Z.sqrt n) - 1)).

(** The primes up to 311, the first 64. *)
Definition primes : list Z :=
  List.filter isPrime (map Z.of_nat (seq 2 310)).

(** The integer part of a cube root, found bit by bit from the top. *)
Definition cubeRoot (n : Z) : Z :=
  fold_left
    (fun x b =>
       let y := x + Z.shiftl 1 (Z.of_nat b) in
       if y * y * y <=? n then y else x)
    (rev (seq 0 40)) 0.

(** The round constants: the first 32 bits of the fractional parts of the
    cube roots of the first 64 primes. *)
Definition K : list Z :=
  map (fun p => mask32 (cubeRoot (Z.shiftl p 96))) primes.

Record state : Type := State
  { ha : Z; hb : Z; hc : Z; hd : Z; he : Z; hf : Z; hg : Z; hh : Z }.

(** The initial hash value: the first 32 bits of the fractional parts of
    the square roots of the first 8 primes. *)
Definition fracSqrt (i : nat) : Z :=
  mask32 (Z.sqrt (Z.shiftl (nth i primes 0) 64)).

Definition H0 : state :=
  State (fracSqrt 0) (fracSqrt 1) (fracSqrt 2) (fracSqrt 3)
        (fracSqrt 4) (fracSqrt 5) (fracSqrt 6) (fracSqrt 7).

(** Padding: a 1 bit, zeros up to 56 mod 64 bytes, then the bit length
    as a 64-bit big-endian integer. *)
Definition be_bytes (count : nat) (x : Z) : list Z :=
  map (fun i => Z.land (Z.shiftr x (8 * Z.of_nat i)) 255)
      (rev (seq 0 count)).

Definition pad (msg : list Z) : list Z :=
  let len := Z.of_nat (List.length msg) in
  let zeros := Z.to_nat ((55 - len) mod 64) in
  msg ++ [128] ++ repeat 0 zeros ++ be_bytes 8 (8 * len).

Fixpoint words (fuel : nat) (bytes : list Z) : list Z :=
  match fuel, bytes with
  | S fuel', b0 :: b1 :: b2 :: b3 :: rest =>
      (Z.shiftl b0 24 + Z.shiftl b1 16 + Z.shiftl b2 8 + b3)
        :: words fuel' rest
  | _, _ => []
  end.

Fixpoint blocks (fuel : nat) (ws : list Z) : list (list Z) :=
  match fuel, ws with
  | S fuel', _ :: _ => firstn 16 ws :: blocks fuel' (skipn 16 ws)
  | _, _ => []
  end.

(** The message schedule, kept newest-first while it grows. *)
Fixpoint extend (count : nat) (rev_w : list Z) : list Z :=
  match count with
  | O => rev_w
  | S count' =>
      let w2 := nth 1 rev_w 0 in
      let w7 := nth 6 rev_w 0 in
      let w15 := nth 14 rev_w 0 in
      let w16 := nth 15 rev_w 0 in
      extend count'
        (add32 (add32 (sigma1 w2) w7) (add32 (sigma0 w15) w16) :: rev_w)
  end.

Definition schedule (block : list Z) : list Z :=
  rev (extend 48 (rev block)).

Definition round (s : state) (kw : Z * Z) : state :=
  let t1 :=
    add32 (add32 (add32 (hh s) (Sigma1 (he s)))
                 (add32 (Ch (he s) (hf s) (hg s)) (fst kw))) (snd kw) in
  let t2 := add32 (Sigma0 (ha s)) (Maj (ha s) (hb s) (hc s)) in
  State (add32 t1 t2) (ha s) (hb s) (hc s)
        (add32 (hd s) t1) (he s) (hf s) (hg s).

Definition compress (s : state) (block : list Z) : state :=
  let r := fold_left round (combine K (schedule block)) s in
  State (add32 (ha s) (ha r)) (add32 (hb s) (hb r))
        (add32 (hc s) (hc r)) (add32 (hd s) (hd r))
        (add32 (he s) (he r)) (add32 (hf s) (hf r))
        (add32 (hg s) (hg r)) (add32 (hh s) (hh r)).

Definition digest (msg : list Z) : state :=
  let p := pad msg in
  let ws := words (List.length p) p in
  fold_left compress (blocks (List.length ws) ws) H0.

Definition hexDigit (n : Z) : ascii :=
  if n <? 10 then JsString.chr (48 + n) else JsString.chr (87 + n).

Definition nibble (w : Z) (i : Z) : ascii :=
  hexDigit (Z.land (Z.shiftr w (4 * i)) 15).

Definition hex8 (w : Z) (tail : string) : string :=
  String (nibble w 7) (String (nibble w 6) (String (nibble w 5)
 (String (nibble w 4) (String (nibble w 3) (String (nibble w 2)
 (String (nibble w 1) (String (nibble w 0) tail))))))).

(** [.digest('hex')] *)
Definition hex (s : state) : string :=
  hex8 (ha s) (hex8 (hb s) (hex8 (hc s) (hex8 (hd s)
 (hex8 (he s) (hex8 (hf s) (hex8 (hg s) (hex8 (hh s) EmptyString))))))).

(** [crypto.createHash('sha256').update(s).digest('hex')] *)
Definition sha256_hex (s : string) : string :=
  hex (digest (JsString.utf8 s)).

End Sha256.

(* ===================================================================== *)
(** * Regular expressions: a backtracking matcher                         *)
(* ===================================================================== *)

Module Regex.

(** The fragment of the pattern language the embedded code uses:
    character classes, concatenation, alternation, greedy bounded
    repetition, numbered capture groups, [^], [$] and lookahead. *)
Inductive re : Type :=
| Eps
| Chr (p : ascii -> bool)
| Cat (r1 r2 : re)
| Alt (r1 r2 : re)
| Rep (lo : nat) (hi : option nat) (r : re)
| Grp (i : nat) (r : re)
| Bol
| Eol
| Ahead (r : re).

Record cursor : Type := Cursor
  { pos : nat; rest : string; caps : list (nat * string) }.

(** Continuation-passing matcher.  A repetition first tries one more
    iteration (greedy) and gives up an iteration that consumed nothing
    once its lower bound is met, as the language standard prescribes. *)
Fixpoint run (r : re) (c : cursor) (k : cursor -> option cursor)
  {struct r} : option cursor :=
  match r with
  | Eps => k c
  | Chr p =>
      match rest c with
      | String a t => if p a then k (Cursor (S (pos c)) t (caps c)) else None
      | EmptyString => None
      end
  | Cat r1 r2 => run r1 c (fun c' => run r2 c' k)
  | Alt r1 r2 =>
      match run r1 c k with
      | Some c' => Some c'
      | None => run r2 c k
      end
  | Rep lo hi r1 =>
      (fix iter (fuel lo : nat) (hi : option nat) (c : cursor)
         {struct fuel} : option cursor :=
         match fuel with
         | O => None
         | S fuel' =>
             let more :=
               match hi with
               | Some O => None
               | _ =>
                   run r1 c
                     (fun c' =>
                        if Nat.eqb lo 0 && Nat.eqb (pos c') (pos c)
                        then None
                        else iter fuel' (Nat.pred lo)
                                  (option_map Nat.pred hi) c')
               end in
             match more with
             | Some c' => Some c'
             | None => if Nat.eqb lo 0 then k c else None
             end
         end) (S (lo + String.length (rest c))) lo hi c
  | Grp i r1 =>
      run r1 c
        (fun c' =>
           k (Cursor (pos c') (rest c')
                ((i, String.substring 0 (pos c' - pos c) (rest c))
                   :: caps c')))
  | Bol => if Nat.eqb (pos c) 0 then k c else None
  | Eol => if JsString.isEmpty (rest c) then k c else None
  | Ahead r1 =>
      match run r1 c Some with
      | Some c' => k (Cursor (pos c) (rest c) (caps c'))
      | None => None
      end
  end.

Record MatchResult : Type := Match
  { index : nat; matched : string; groups : list (nat * string) }.

(** [m[i]]: the text captured by group [i], [None] when the group took
    no part in the match. *)
Fixpoint lookupGroup (i : nat) (gs : list (nat * string)) : option string :=
  match gs with
  | [] => None
  | (j, s) :: gs' => if Nat.eqb i j then Some s else lookupGroup i gs'
  end.

Definition group (m : MatchResult) (i : nat) : option string :=
  lookupGroup i (groups m).

(** An attempt anchored at the position where [suffix] starts. *)
Definition matchHere (r : re) (p : nat) (suffix : string)
  : option MatchResult :=
  match run r (Cursor p suffix []) Some with
  | Some c => Some (Match p (String.substring 0 (pos c - p) suffix) (caps c))
  | None => None
  end.

Fixpoint searchFrom (r : re) (p : nat) (suffix : string)
  : option MatchResult :=
  match matchHere r p suffix with
  | Some m => Some m
  | None =>
      match suffix with
      | String _ t => searchFrom r (S p) t
      | EmptyString => None
      end
  end.

(** [s.match(r)] and [r.exec(s)] for a pattern without the [g] flag: the
    leftmost match. *)
Definition exec (r : re) (s : string) : option MatchResult :=
  searchFrom r 0 s.

(** Pattern syntax. *)
Definition lit1 (a : ascii) : re := Chr (Ascii.eqb a).

Definition foldCase (a : ascii) : ascii :=
  let n := JsString.code a in
  if (97 <=? n) && (n <=? 122) then JsString.chr (n - 32) else a.

(** A literal character under the [i] flag. *)
Definition lit1i (a : ascii) : re :=
  Chr (fun b => Ascii.eqb (foldCase a) (foldCase b)).

Fixpoint seqOf (f : ascii -> re) (s : string) : re :=
  match s with
  | EmptyString => Eps
  | String a EmptyString => f a
  | String a t => Cat (f a) (seqOf f t)
  end.

Definition lit : string -> re := seqOf lit1.
Definition liti : string -> re := seqOf lit1i.

Definition isWordChar (a : ascii) : bool :=
  let n := JsString.code a in
  ((48 <=? n) && (n <=? 57)) || ((65 <=? n) && (n <=? 90))
  || ((97 <=? n) && (n <=? 122)) || (n =? 95).

Definition isAlpha (a : ascii) : bool :=
  let n := JsString.code a in
  ((65 <=? n) && (n <=? 90)) || ((97 <=? n) && (n <=? 122)).

Definition digit : re := Chr JsString.isDigit.            (* \d *)
Definition word : re := Chr isWordChar.                   (* \w *)
Definition space : re := Chr JsString.isWhiteSpace.       (* \s *)
Definition nonspace : re :=                               (* \S *)
  Chr (fun a => negb (JsString.isWhiteSpace a)).
Definition alpha : re := Chr isAlpha.                     (* [A-Za-z] *)
Definition oneOf (s : string) (extra : ascii -> bool) : re :=
  Chr (fun a => JsString.includes s (String a EmptyString) || extra a).

Definition star (r : re) : re := Rep 0 None r.
Definition plus (r : re) : re := Rep 1 None r.
Definition opt (r : re) : re := Rep 0 (Some 1%nat) r.
Definition times (lo hi : nat) (r : re) : re := Rep lo (Some hi) r.

Fixpoint cat (rs : list re) : re :=
  match rs with
  | [] => Eps
  | [r] => r
  | r :: rs' => Cat r (cat rs')
  end.

End Regex.

(* ===================================================================== *)
(** * Dates: time values, calendar arithmetic and the platform parser     *)
(* ===================================================================== *)

Module JsDate.

(** A [Date] object: its time value in milliseconds since the epoch,
    or an Invalid Date. *)
Inductive Date : Type :=
| Invalid
| Time (ms : Z).

Definition msPerDay : Z := 86400000.
Definition msPerMinute : Z := 60000.

(** Days since the epoch of a proleptic Gregorian date ([m] in 1..12). *)
Definition daysFromCivil (y m d : Z) : Z :=
  let y' := if m <=? 2 then y - 1 else y in
  let era := y' / 400 in
  let yoe := y' - era * 400 in
  let mp := if m <=? 2 then m + 9 else m - 3 in
  let doy := (153 * mp + 2) / 5 + d - 1 in
  let doe := yoe * 365 + yoe / 4 - yoe / 100 + doy in
  era * 146097 + doe - 719468.

(** The Gregorian date of a day number: (year, month in 1..12, day). *)
Definition civilFromDays (z : Z) : Z * Z * Z :=
  let z' := z + 719468 in
  let era := z' / 146097 in
  let doe := z' - era * 146097 in
  let yoe := (doe - doe / 1460 + doe / 36524 - doe / 146096) / 365 in
  let doy := doe - (365 * yoe + yoe / 4 - yoe / 100) in
  let mp := (5 * doy + 2) / 153 in
  let d := doy - (153 * mp + 2) / 5 + 1 in
  let m := if mp <? 10 then mp + 3 else mp - 9 in
  let y := yoe + era * 400 in
  (if m <=? 2 then y + 1 else y, m, d).

(** MakeDay(year, month, date) with a zero-based, possibly overflowing
    month and a possibly overflowing date. *)
Definition MakeDay (year month date : Z) : Z :=
  daysFromCivil (year + month / 12) (month mod 12 + 1) 1 + date - 1.

(** TimeClip *)
Definition TimeClip (t : Z) : Date :=
  if Z.abs t <=? 8640000000000000 then Time t else Invalid.

(** [new Date(Date.UTC(year, month, date))] *)
Definition UTC (year month date : Z) : Date :=
  let yr := if (0 <=? year) && (year <=? 99) then 1900 + year else year in
  TimeClip (MakeDay yr month date * msPerDay).

Section LocalTime.
(** The offset of the server's local time from UTC, in minutes. *)
Variable tz : Z.

Definition localFields (t : Z) : Z * Z * Z :=
  civilFromDays ((t + tz * msPerMinute) / msPerDay).

Definition getFullYear (t : Z) : Z := fst (fst (localFields t)).
Definition getMonth (t : Z) : Z := snd (fst (localFields t)) - 1.
Definition getDate (t : Z) : Z := snd (localFields t).
End LocalTime.

(** What a date string denotes before the time zone is applied. *)
Inductive Parsed : Type :=
| UtcTime (ms : Z)      (* an instant *)
| LocalTime (ms : Z).   (* a wall-clock time of the server's zone *)

Definition toDate (tz : Z) (p : option Parsed) : Date :=
  match p with
  | None => Invalid
  | Some (UtcTime t) => TimeClip t
  | Some (LocalTime w) => TimeClip (w - tz * msPerMinute)
  end.

(** Reading fixed-width decimal fields. *)
Fixpoint digits (n : nat) (s : string) (acc : Z) : option (Z * string) :=
  match n with
  | O => Some (acc, s)
  | S n' =>
      match s with
      | String c t =>
          if JsString.isDigit c
          then digits n' t (10 * acc + (JsString.code c - 48))
          else None
      | EmptyString => None
      end
  end.

Definition expect (a : ascii) (s : string) : option string :=
  match s with
  | String c t => if Ascii.eqb a c then Some t else None
  | EmptyString => None
  end.

Fixpoint fraction (s : string) (scale acc : Z) : Z * string :=
  match s with
  | String c t =>
      if JsString.isDigit c
      then fraction t (scale / 10) (acc + scale * (JsString.code c - 48))
      else (acc, s)
  | EmptyString => (acc, s)
  end.

(** The zone designator after a time: [Z], [+HH:mm], [-HH:mm], or
    nothing (local time). *)
Definition isoZone (wall : Z) (s : string) : option Parsed :=
  match s with
  | EmptyString => Some (LocalTime wall)
  | String "Z" EmptyString => Some (UtcTime wall)
  | String sign t =>
      if Ascii.eqb sign "+" || Ascii.eqb sign "-" then
        match digits 2 t 0 with
        | Some (h, t1) =>
            match expect ":" t1 with
            | Some t2 =>
                match digits 2 t2 0 with
                | Some (m, EmptyString) =>
                    if (h <=? 23) && (m <=? 59) then
                      let off := (h * 60 + m) * msPerMinute in
                      Some (UtcTime (if Ascii.eqb sign "+"
                                     then wall - off else wall + off))
                    else None
                | _ => None
                end
            | None => None
            end
        | None => None
        end
      else None
  end.

(** The optional [:ss] and [.sss] of a time: seconds, milliseconds and
    what follows. *)
Definition isoSeconds (s : string) : option (Z * Z * string) :=
  match expect ":" s with
  | None => Some (0, 0, s)
  | Some s1 =>
      match digits 2 s1 0 with
      | Some (sec, s2) =>
          match expect "." s2 with
          | None => Some (sec, 0, s2)
          | Some (String c _ as s3) =>
              if JsString.isDigit c
              then let '(ms, s4) := fraction s3 100 0 in Some (sec, ms, s4)
              else None
          | Some EmptyString => None
          end
      | None => None
      end
  end.

Definition isoTime (day : Z) (s : string) : option Parsed :=
  match digits 2 s 0 with
  | Some (h, s1) =>
      match expect ":" s1 with
      | Some s2 =>
          match digits 2 s2 0 with
          | Some (mi, s3) =>
              match isoSeconds s3 with
              | Some (sec, ms, s4) =>
                  if ((h <=? 23) || ((h =? 24) && (mi =? 0) && (sec =? 0)
                                     && (ms =? 0)))
                     && (mi <=? 59) && (sec <=? 59)
                  then isoZone (day * msPerDay + h * 3600000 + mi * 60000
                                + sec * 1000 + ms) s4
                  else None
              | None => None
              end
          | None => None
          end
      | None => None
      end
  | None => None
  end.

Definition isoAfterDate (y m d : Z) (s : string) : option Parsed :=
  if (1 <=? m) && (m <=? 12) && (1 <=? d) && (d <=? 31) then
    let day := MakeDay y (m - 1) d in
    match s with
    | EmptyString => Some (UtcTime (day * msPerDay))
    | String "T" t => isoTime day t
    | _ => None
    end
  else None.

(** The date-time string format of the language standard:
    [YYYY], [YYYY-MM], [YYYY-MM-DD], each optionally followed by
    [THH:mm], [THH:mm:ss] or [THH:mm:ss.sss] and a zone designator.
    A date-only form is UTC; a date-time form without a zone is local. *)
Definition parseISO (s : string) : option Parsed :=
  match digits 4 s 0 with
  | Some (y, s1) =>
      match expect "-" s1 with
      | Some s2 =>
          match digits 2 s2 0 with
          | Some (m, s3) =>
              match expect "-" s3 with
              | Some s4 =>
                  match digits 2 s4 0 with
                  | Some (d, s5) => isoAfterDate y m d s5
                  | None => None
                  end
              | None => isoAfterDate y m 1 s3
              end
          | None => None
          end
      | None => isoAfterDate y 1 1 s1
      end
  | None => None
  end.

Definition monthNames : list string :=
  ["jan"; "feb"; "mar"; "apr"; "may"; "jun";
   "jul"; "aug"; "sep"; "oct"; "nov"; "dec"].

Fixpoint findIndex (x : string) (l : list string) (i : Z) : option Z :=
  match l with
  | [] => None
  | y :: l' => if String.eqb x y then Some i else findIndex x l' (i + 1)
  end.

(** A month word is recognised by its first three letters, whatever
    their case and whatever follows them. *)
Definition monthOfWord (w : string) : option Z :=
  findIndex (JsString.toLowerCase (String.substring 0 3 w)) monthNames 0.

Definition legacyPattern : Regex.re :=
  Regex.cat
    [Regex.Bol; Regex.Grp 1 (Regex.plus Regex.alpha); Regex.lit " ";
     Regex.Grp 2 (Regex.plus Regex.digit); Regex.lit ", ";
     Regex.Grp 3 (Regex.plus Regex.digit); Regex.Eol].

(** The form [Month D, YYYY] of the engine's fallback parser: midnight,
    local time, of that day.  A day above the month's length carries
    into the next month; a year below 50 is in the 2000s and one below
    100 in the 1900s. *)
Definition parseLegacy (s : string) : option Parsed :=
  match Regex.exec legacyPattern s with
  | Some m =>
      match Regex.group m 1, Regex.group m 2, Regex.group m 3 with
      | Some w, Some ds, Some ys =>
          match monthOfWord w, JsString.parseInt ds, JsString.parseInt ys with
          | Some mon, Some d, Some y =>
              if (1 <=? d) && (d <=? 31) then
                let yr := if y <? 50 then 2000 + y
                          else if y <? 100 then 1900 + y else y in
                Some (LocalTime (MakeDay yr mon d * msPerDay))
              else None
          | _, _, _ => None
          end
      | _, _, _ => None
      end
  | None => None
  end.

Definition parseString (s : string) : option Parsed :=
  match parseISO s with
  | Some p => Some p
  | None => parseLegacy s
  end.

(** [new Date(s)] on a server whose local time is [tz] minutes ahead of
    UTC.  The model covers the standard date-time format and the form
    [Month D, YYYY]; any other text is an Invalid Date. *)
Definition newDate (tz : Z) (s : string) : Date :=
  toDate tz (parseString s).

End JsDate.

(* ===================================================================== *)
(** * Extracted values                                                    *)
(* ===================================================================== *)

(** The scalars an extracted field map holds.  Numbers are the integral
    ones. *)
Inductive JsVal : Type :=
| VUndefined
| VNull
| VString (s : string)
| VNumber (n : Z)
| VDate (d : JsDate.Date).

Module JsValue.

(** [v != null] *)
Definition notNullish (v : JsVal) : bool :=
  match v with
  | VUndefined | VNull => false
  | _ => true
  end.

(** Truthiness, as tested by [if (v)]. *)
Definition truthy (v : JsVal) : bool :=
  match v with
  | VUndefined | VNull => false
  | VString s => negb (JsString.isEmpty s)
  | VNumber n => negb (n =? 0)
  | VDate _ => true
  end.

(** [obj[key]] on a plain record. *)
Definition get (obj : gmap string JsVal) (key : string) : JsVal :=
  default VUndefined (obj !! key).

Definition numberToString (n : Z) : string :=
  if n <? 0 then "-" ++ JsString.ofInt (- n) else JsString.ofInt n.

Section ToString.
(** [Date.prototype.toString], which renders local time. *)
Variable dateToString : JsDate.Date -> string.

(** [String(v)] *)
Definition String_ (v : JsVal) : string :=
  match v with
  | VUndefined => "undefined"
  | VNull => "null"
  | VString s => s
  | VNumber n => numberToString n
  | VDate d => dateToString d
  end.
End ToString.

End JsValue.

(* ===================================================================== *)
(** * parsing.service.ts                                                  *)
(* ===================================================================== *)

Module ParsingService.
Import Regex.

(** ** splitEmailIntoItems *)

(** The number of capture groups of a pattern: a split inserts that many
    entries after every separator. *)
Fixpoint groupCount (r : re) : nat :=
  match r with
  | Eps | Chr _ | Bol | Eol => 0
  | Cat r1 r2 | Alt r1 r2 => groupCount r1 + groupCount r2
  | Rep _ _ r1 | Ahead r1 => groupCount r1
  | Grp _ r1 => S (groupCount r1)
  end.

Definition captures (r : re) (m : MatchResult) : list (option string) :=
  map (fun i => group m i) (seq 1 (groupCount r)).

(** [body.split(sep)] for a separator [sep] that only matches the empty
    string: the scan is at position [q] of the body, [suffix] is what
    remains and [frag] the fragment gathered since the last cut.  A
    match at the position of the last cut does not cut again. *)
Fixpoint splitFrom (sep : re) (q : nat) (suffix frag : string)
  : list (option string) :=
  match suffix with
  | EmptyString => [Some frag]
  | String c t =>
      match (if JsString.isEmpty frag then None
             else matchHere sep q suffix) with
      | Some m =>
          Some frag :: captures sep m
            ++ splitFrom sep (S q) t (String c EmptyString)
      | None => splitFrom sep (S q) t (frag ++ String c EmptyString)
      end
  end.

Definition split (sep : re) (body : string) : list (option string) :=
  match body with
  | EmptyString =>
      match matchHere sep 0 EmptyString with
      | Some _ => []
      | None => [Some EmptyString]
      end
  | _ => splitFrom sep 0 body EmptyString
  end.

(** [parts.filter((p) => p.trim().length > 0)]; an [undefined] entry
    makes [p.trim()] raise a TypeError, rendered as [None]. *)
Fixpoint filterNonBlank (parts : list (option string))
  : option (list string) :=
  match parts with
  | [] => Some []
  | None :: _ => None
  | Some p :: rest =>
      match filterNonBlank rest with
      | Some kept =>
          Some (if JsString.isEmpty (JsString.trim p) then kept
                else p :: kept)
      | None => None
      end
  end.

(** [ParsingService.splitEmailIntoItems] (parsing.service.ts, 170-180).
    [delimiter] is the compiled [itemDelimiter], [None] when the
    delimiter string is empty.  The result is [None] when the call
    raises. *)
Definition splitEmailIntoItems (body : string) (delimiter : option re)
  : option (list string) :=
  match delimiter with
  | None => Some [body]
  | Some d => filterNonBlank (split (Ahead d) body)
  end.

(** ** parseDate *)

(** /^(\d{1,2})-([A-Z]{3})-(\d{2})$/i *)
Definition ddMmmYyPattern : re :=
  cat [Bol; Grp 1 (times 1 2 digit); lit "-"; Grp 2 (times 3 3 alpha);
       lit "-"; Grp 3 (times 2 2 digit); Eol].

(** /([A-Za-z]+)\s+(\d{1,2}),?\s+(\d{4})/ *)
Definition monthDayYearPattern : re :=
  cat [Grp 1 (plus alpha); plus space; Grp 2 (times 1 2 digit);
       opt (lit ","); plus space; Grp 3 (times 4 4 digit)].

(** /^(\d{4})-(\d{2})-(\d{2})/ *)
Definition isoDatePattern : re :=
  cat [Bol; Grp 1 (times 4 4 digit); lit "-"; Grp 2 (times 2 2 digit);
       lit "-"; Grp 3 (times 2 2 digit)].

Section ParseDate.
(** The platform: [new Date(string)] and the offset of local time. *)
Variable newDate : string -> JsDate.Date.
Variable tz : Z.

(** [new Date(Date.UTC(d.getFullYear(), d.getMonth(), d.getDate()))] *)
Definition utcMidnightOfLocalDate (t : Z) : JsDate.Date :=
  JsDate.UTC (JsDate.getFullYear tz t) (JsDate.getMonth tz t)
             (JsDate.getDate tz t).

(** [ParsingService.toUTCDate] (parsing.service.ts, 303-307); [None] is
    [null]. *)
Definition toUTCDate (month : string) (day year : Z)
  : option JsDate.Date :=
  match newDate (month ++ " " ++ JsString.ofInt day ++ ", "
                   ++ JsString.ofInt year) with
  | JsDate.Invalid => None
  | JsDate.Time t => Some (utcMidnightOfLocalDate t)
  end.

(** The groups below are digit strings by their patterns, so
    [parseInt] never yields NaN on them. *)
Definition int (s : string) : Z := default 0 (JsString.parseInt s).

Definition parseDateFallback (cleaned : string) : option JsDate.Date :=
  match newDate cleaned with
  | JsDate.Time t => Some (utcMidnightOfLocalDate t)
  | JsDate.Invalid => None
  end.

Definition parseDateIso (cleaned : string) : option JsDate.Date :=
  match exec isoDatePattern cleaned with
  | Some _ =>
      match newDate (cleaned ++ (if JsString.includes cleaned "T"
                                 then "" else "T00:00:00Z")) with
      | JsDate.Time t => Some (JsDate.Time t)
      | JsDate.Invalid => parseDateFallback cleaned
      end
  | None => parseDateFallback cleaned
  end.

(** [ParsingService.parseDate] (parsing.service.ts, 257-298); [None] is
    [null]. *)
Definition parseDate (dateStr : string) : option JsDate.Date :=
  let cleaned := JsString.trim dateStr in
  match exec ddMmmYyPattern cleaned with
  | Some m =>
      let day := default "" (group m 1) in
      let month := default "" (group m 2) in
      let yearShort := default "" (group m 3) in
      let yearNum := int yearShort in
      let fullYear :=
        if yearNum <? 50 then "20" ++ yearShort else "19" ++ yearShort in
      toUTCDate month (int day) (int fullYear)
  | None =>
      match exec monthDayYearPattern cleaned with
      | Some m =>
          let month := default "" (group m 1) in
          let day := default "" (group m 2) in
          let year := default "" (group m 3) in
          toUTCDate month (int day) (int year)
      | None => parseDateIso cleaned
      end
  end.
End ParseDate.

(** ** generateFingerprint *)

Section Fingerprint.
Variable dateToString : JsDate.Date -> string.

Definition fingerprintValue (data : gmap string JsVal) (field : string)
  : string :=
  let value := JsValue.get data field in
  if JsValue.notNullish value
  then JsString.toLowerCase
         (JsString.trim (JsValue.String_ dateToString value))
  else "".

Definition fingerprintValues (data : gmap string JsVal)
  (fingerprintFields : list string) : string :=
  JsString.join "|"
    (List.filter (fun v => negb (JsString.isEmpty v))
       (map (fingerprintValue data) fingerprintFields)).

(** [ParsingService.generateFingerprint] (parsing.service.ts, 313-345);
    an absent [fallbackText] is [None]. *)
Definition generateFingerprint (data : gmap string JsVal)
  (fingerprintFields : list string) (fallbackText : option string)
  : string :=
  let values := fingerprintValues data fingerprintFields in
  match fallbackText with
  | Some text =>
      if JsString.isEmpty values && negb (JsString.isEmpty text)
      then Sha256.sha256_hex (JsString.trim text)
      else Sha256.sha256_hex values
  | None => Sha256.sha256_hex values
  end.
End Fingerprint.

End ParsingService.

(* ===================================================================== *)
(** * neco-extractor.ts: vendor fields                                    *)
(* ===================================================================== *)

Module NecoExtractor.
Import Regex.

(** The fields of a line item that vendor validation and child creation
    read or write. *)
Record NecoLineItem : Type := LineItem
  { lineItem : string;
    nsn : option string;
    nomenclature : option string;
    vendorCode : option string;
    vendorPartNumber : option string;
    quantity : option Z;
    unit : option string;
    sowText : option string;
    cageRefNo : option string;
    subLineItems : list string }.

(** The document-level fields read by child creation, the line items and
    the totals. *)
Record NecoExtractedData : Type := ExtractedData
  { lineItems : list NecoLineItem;
    itemCondition : option string;
    buyerName : option string;
    buyerEmail : option string;
    buyerPhone : option string;
    contractType : option string;
    setAside : option string;
    leadTimeDays : option Z;
    fobPoint : option string;
    isCancellation : bool;
    totalLineItems : Z;
    totalSubLineItems : Z }.

(** The denylist and [isGarbageVendorValue] (neco-extractor.ts, 178-188). *)
Definition GARBAGE_VENDOR_VALUES : list string :=
  ["number"; "and"; "code/reference"; "code"; "ref. no."; "ref no";
   "vendor"; "seller"; "part"; "vendor's"; "seller's";
   "cage"; "cage code"; "n/a"; "na"; "none"; "see sow"].

Definition isGarbageVendorValue (value : option string) : bool :=
  match value with
  | None => true
  | Some v =>
      if JsString.isEmpty v then true
      else
        let normalized := JsString.toLowerCase (JsString.trim v) in
        (String.length normalized <? 2)%nat
        || existsb (String.eqb normalized) GARBAGE_VENDOR_VALUES
  end.

(** /;(\w{4,5})\s+(\S+);/ *)
Definition semiPattern : re :=
  cat [lit ";"; Grp 1 (times 4 5 word); plus space;
       Grp 2 (plus nonspace); lit ";"].

(** /CAGE[_\s]*(?:Ref\.?\s*No\.?)?[:\s]*;?\s*(\w{4,5})\s+(\S+)/i *)
Definition cageRefPattern : re :=
  cat [liti "CAGE"; star (oneOf "_" JsString.isWhiteSpace);
       opt (cat [liti "Ref"; opt (lit "."); star space; liti "No";
                 opt (lit ".")]);
       star (oneOf ":" JsString.isWhiteSpace); opt (lit ";"); star space;
       Grp 1 (times 4 5 word); plus space; Grp 2 (plus nonspace)].

(** /CAGE[:\s]+(\w{4,5})/i *)
Definition cageOnlyPattern : re :=
  cat [liti "CAGE"; plus (oneOf ":" JsString.isWhiteSpace);
       Grp 1 (times 4 5 word)].

(** /(?:P\/N|Part\s*(?:No|Number|#))[:\s]+(\S+)/i *)
Definition pnOnlyPattern : re :=
  cat [Alt (liti "P/N")
           (cat [liti "Part"; star space;
                 Alt (liti "No") (Alt (liti "Number") (lit "#"))]);
       plus (oneOf ":" JsString.isWhiteSpace); Grp 1 (plus nonspace)].

(** [s.replace(/[;]/g, '')] *)
Fixpoint removeSemicolons (s : string) : string :=
  match s with
  | EmptyString => EmptyString
  | String c t =>
      if Ascii.eqb c ";" then removeSemicolons t
      else String c (removeSemicolons t)
  end.

Record CagePart : Type := CageAndPart { cage : string; partNumber : string }.

Definition grp (m : MatchResult) (i : nat) : string :=
  default "" (group m i).

(** [NecoExtractor.extractCageFromSow] (neco-extractor.ts, 667-690). *)
Definition extractCageFromSow (sowText : option string) : option CagePart :=
  match sowText with
  | None => None
  | Some sow =>
      if JsString.isEmpty sow then None
      else
        match exec semiPattern sow with
        | Some m => Some (CageAndPart (grp m 1) (grp m 2))
        | None =>
            match exec cageRefPattern sow with
            | Some m =>
                Some (CageAndPart (removeSemicolons (grp m 1))
                                  (removeSemicolons (grp m 2)))
            | None =>
                match exec cageOnlyPattern sow, exec pnOnlyPattern sow with
                | Some c, Some p => Some (CageAndPart (grp c 1) (grp p 1))
                | _, _ => None
                end
            end
        end
  end.

Definition isFalsy (s : option string) : bool :=
  match s with
  | None => true
  | Some v => JsString.isEmpty v
  end.

(** The body of the loop of [validateAndFixVendorFields], on one line
    item. *)
Definition fixVendorFields (li : NecoLineItem) : NecoLineItem :=
  let vendorCodeBad := isGarbageVendorValue (vendorCode li) in
  let vendorPartBad := isGarbageVendorValue (vendorPartNumber li) in
  if vendorCodeBad || vendorPartBad then
    match extractCageFromSow (sowText li) with
    | Some sowExtracted =>
        LineItem (lineItem li) (nsn li) (nomenclature li)
          (if vendorCodeBad then Some (cage sowExtracted)
           else vendorCode li)
          (if vendorPartBad then Some (partNumber sowExtracted)
           else vendorPartNumber li)
          (quantity li) (unit li) (sowText li)
          (if isFalsy (cageRefNo li)
           then Some (cage sowExtracted ++ " " ++ partNumber sowExtracted)
           else cageRefNo li)
          (subLineItems li)
    | None =>
        LineItem (lineItem li) (nsn li) (nomenclature li)
          (if vendorCodeBad then None else vendorCode li)
          (if vendorPartBad then None else vendorPartNumber li)
          (quantity li) (unit li) (sowText li) (cageRefNo li)
          (subLineItems li)
    end
  else li.

Definition withLineItems (d : NecoExtractedData) (l : list NecoLineItem)
  : NecoExtractedData :=
  ExtractedData l (itemCondition d) (buyerName d) (buyerEmail d)
    (buyerPhone d) (contractType d) (setAside d) (leadTimeDays d)
    (fobPoint d) (isCancellation d) (totalLineItems d)
    (totalSubLineItems d).

(** [NecoExtractor.validateAndFixVendorFields] (neco-extractor.ts,
    646-665): the loop visits every line item. *)
Definition validateAndFixVendorFields (result : NecoExtractedData)
  : NecoExtractedData :=
  withLineItems result (map fixVendorFields (lineItems result)).

(** Step 10 of [extract]: the totals. *)
Definition computeTotals (result : NecoExtractedData) : NecoExtractedData :=
  ExtractedData (lineItems result) (itemCondition result)
    (buyerName result) (buyerEmail result) (buyerPhone result)
    (contractType result) (setAside result) (leadTimeDays result)
    (fobPoint result) (isCancellation result)
    (Z.of_nat (List.length (lineItems result)))
    (fold_left (fun sum li => sum + Z.of_nat (List.length (subLineItems li)))
               (lineItems result) 0).

End NecoExtractor.

(* ===================================================================== *)
(** * The record store                                                    *)
(* ===================================================================== *)

Module Store.

(** A call either returns or raises. *)
Inductive Outcome (A : Type) : Type :=
| Returned (a : A)
| Raised (error : string).
Arguments Returned {A} a.
Arguments Raised {A} error.

Inductive FingerprintAction : Type :=
| deleted
| hidden
| not_interested.

(** A row of [opportunity_fingerprints]. *)
Record FingerprintRow : Type := FpRow
  { fpUserId : string;
    fpFingerprint : string;
    fpOpportunityId : option string;
    fpAction : option FingerprintAction;
    fpCreatedAt : Z }.

(** The document-level context copied into a child. *)
Record DocContext : Type := Context
  { ctxBuyerName : option string;
    ctxBuyerEmail : option string;
    ctxBuyerPhone : option string;
    ctxContractType : option string;
    ctxSetAside : option string;
    ctxLeadTimeDays : option Z;
    ctxFobPoint : option string }.

(** The [extractedData] column: the field map parsed from an email, or
    the snapshot of a line item stored in a child. *)
Inductive ExtractedData : Type :=
| EmailFields (data : gmap string JsVal)
| LineItemSnapshot (fromParent : string)
    (item : NecoExtractor.NecoLineItem) (context : DocContext).

(** A row of [opportunities] (the columns the embedded code touches). *)
Record Opportunity : Type := Opp
  { id : string;
    userId : string;
    templateId : string;
    gmailAccountId : string;
    emailMessageId : string;
    emailThreadId : option string;
    emailDate : Z;
    fingerprint : string;
    parentOpportunityId : option string;
    childrenCount : nat;
    solicitationNumber : option string;
    site : option string;
    sourceUrl : option string;
    closingDate : option Z;
    deliveryDate : option Z;
    status : string;
    partNumber : option string;
    manufacturer : option string;
    description : option string;
    nsn : option string;
    condition : option string;
    unit : option string;
    quantity : option Z;
    scrapingStatus : option string;
    extractedData : ExtractedData }.

(** The writes a call performs, in order. *)
Inductive Write : Type :=
| CreatedOpportunity (oppId : string)
| RecordedFingerprint (fp : string)
| UpdatedChildrenCount (oppId : string) (count : nat).

Record Db : Type := Database
  { opportunities : list Opportunity;
    fingerprints : list FingerprintRow;
    idSeed : Z;          (* the identifier generator *)
    clock : Z;           (* the current time, in milliseconds *)
    writes : list Write }.

(** The identifier the store gives the next created row. *)
Definition newId (seed : Z) : string := "opp_" ++ JsString.ofInt seed.

Definition findUnique (db : Db) (oppId : string) : option Opportunity :=
  List.find (fun o => String.eqb (id o) oppId) (opportunities db).

Definition withChildrenCount (o : Opportunity) (n : nat) : Opportunity :=
  Opp (id o) (userId o) (templateId o) (gmailAccountId o)
    (emailMessageId o) (emailThreadId o) (emailDate o) (fingerprint o)
    (parentOpportunityId o) n (solicitationNumber o) (site o)
    (sourceUrl o) (closingDate o) (deliveryDate o) (status o)
    (partNumber o) (manufacturer o) (description o) (nsn o) (condition o)
    (unit o) (quantity o) (scrapingStatus o) (extractedData o).

(** Unique index (user_id, email_message_id, fingerprint). *)
Definition sameOpportunityKey (a b : Opportunity) : bool :=
  String.eqb (userId a) (userId b)
  && String.eqb (emailMessageId a) (emailMessageId b)
  && String.eqb (fingerprint a) (fingerprint b).

(** [prisma.opportunity.create]: [mk] builds the row from its new id. *)
Definition createOpportunity (db : Db) (mk : string -> Opportunity)
  : Outcome Opportunity * Db :=
  let row := mk (newId (idSeed db)) in
  if existsb (sameOpportunityKey row) (opportunities db)
  then (Raised "Unique constraint failed", db)
  else (Returned row,
        Database (opportunities db ++ [row]) (fingerprints db)
          (idSeed db + 1) (clock db)
          (writes db ++ [CreatedOpportunity (id row)])).

(** [prisma.opportunity.update({ where: { id }, data: { childrenCount } })] *)
Definition updateChildrenCount (db : Db) (oppId : string) (n : nat)
  : Outcome Datatypes.unit * Db :=
  match findUnique db oppId with
  | None => (Raised "Record to update not found", db)
  | Some _ =>
      (Returned tt,
       Database
         (map (fun o => if String.eqb (id o) oppId
                        then withChildrenCount o n else o)
              (opportunities db))
         (fingerprints db) (idSeed db) (clock db)
         (writes db ++ [UpdatedChildrenCount oppId n]))
  end.

End Store.

(* ===================================================================== *)
(** * fingerprinting.service.ts                                           *)
(* ===================================================================== *)

Module FingerprintingService.
Import Store.

Record FingerprintCheckResult : Type := CheckResult
  { exists_ : bool;
    action : option FingerprintAction;
    recordedAt : option Z;
    opportunityId : option string }.

Definition matchesKey (user fp : string) (r : FingerprintRow) : bool :=
  String.eqb (fpUserId r) user && String.eqb (fpFingerprint r) fp.

(** [findFirst({ where, orderBy: { createdAt: 'desc' } })] *)
Definition latest (rows : list FingerprintRow) : option FingerprintRow :=
  fold_left
    (fun best r =>
       match best with
       | None => Some r
       | Some b => if fpCreatedAt b <? fpCreatedAt r then Some r else Some b
       end)
    rows None.

(** [x || undefined] on a nullable string. *)
Definition orUndefined (x : option string) : option string :=
  match x with
  | Some s => if JsString.isEmpty s then None else Some s
  | None => None
  end.

(** [FingerprintingService.checkFingerprint] (fingerprinting.service.ts,
    23-47). *)
Definition checkFingerprint (db : Db) (user fp : string)
  : FingerprintCheckResult :=
  match latest (List.filter (matchesKey user fp) (fingerprints db)) with
  | None => CheckResult false None None None
  | Some record =>
      CheckResult true (fpAction record) (Some (fpCreatedAt record))
        (orUndefined (fpOpportunityId record))
  end.

(** [FingerprintingService.recordFingerprint] (fingerprinting.service.ts,
    91-108): [prisma.opportunityFingerprint.create], under the unique
    index (user_id, fingerprint) of the migrations. *)
Definition recordFingerprint (db : Db) (user oppId fp : string)
  : Outcome Datatypes.unit * Db :=
  if existsb (matchesKey user fp) (fingerprints db)
  then (Raised "Unique constraint failed", db)
  else (Returned tt,
        Database (opportunities db)
          (fingerprints db
             ++ [FpRow user fp (Some oppId) (Some deleted) (clock db)])
          (idSeed db) (clock db)
          (writes db ++ [RecordedFingerprint fp])).

(** [FingerprintingService.updateFingerprintAction]
    (fingerprinting.service.ts, 113-131). *)
Definition updateFingerprintAction (db : Db) (user oppId : string)
  (a : FingerprintAction) : Db :=
  Database (opportunities db)
    (map (fun r =>
            if String.eqb (fpUserId r) user
               && match fpOpportunityId r with
                  | Some o => String.eqb o oppId
                  | None => false
                  end
            then FpRow (fpUserId r) (fpFingerprint r) (fpOpportunityId r)
                       (Some a) (fpCreatedAt r)
            else r)
         (fingerprints db))
    (idSeed db) (clock db) (writes db).

End FingerprintingService.

(* ===================================================================== *)
(** * child-opportunities.service.ts                                      *)
(* ===================================================================== *)

Module ChildOpportunitiesService.
Import Store.
Import NecoExtractor.

Definition NAO_ANALISADA : string := "nao_analisada".

(** [s || ''] *)
Definition orEmpty (s : option string) : string := default "" s.

(** [s || null] *)
Definition orNull (s : option string) : option string :=
  FingerprintingService.orUndefined s.

(** [ChildOpportunitiesService.generateChildFingerprint]
    (child-opportunities.service.ts, 156-168). *)
Definition generateChildFingerprint (solicitationNumber : option string)
  (li : NecoLineItem) : string :=
  Sha256.sha256_hex
    (JsString.join "|"
       [orEmpty solicitationNumber; lineItem li; orEmpty (nsn li);
        orEmpty (vendorCode li); orEmpty (vendorPartNumber li)]).

Definition docContext (d : NecoExtractedData) : DocContext :=
  Context (buyerName d) (buyerEmail d) (buyerPhone d) (contractType d)
    (setAside d) (leadTimeDays d) (fobPoint d).

(** The [data] of the child's [create]. *)
Definition childRow (parent : Opportunity) (necoData : NecoExtractedData)
  (li : NecoLineItem) (fp : string) (newId : string) : Opportunity :=
  Opp newId (Store.userId parent) (templateId parent)
    (gmailAccountId parent) (emailMessageId parent) (emailThreadId parent)
    (emailDate parent) fp (Some (Store.id parent)) 0
    (solicitationNumber parent) (site parent) (sourceUrl parent)
    (closingDate parent) (deliveryDate parent)
    (if JsString.isEmpty (status parent) then NAO_ANALISADA
     else status parent)
    (orNull (vendorPartNumber li)) (orNull (vendorCode li))
    (orNull (nomenclature li)) (orNull (NecoExtractor.nsn li))
    (orNull (itemCondition necoData)) (orNull (NecoExtractor.unit li))
    (match NecoExtractor.quantity li with
     | Some q => if q =? 0 then None else Some q
     | None => None
     end)
    None
    (LineItemSnapshot (Store.id parent) li (docContext necoData)).

(** One turn of the [for] loop: the store and the counter after it, or
    the error that ends the call. *)
Definition createChild (parent : Opportunity) (necoData : NecoExtractedData)
  (acc : Outcome nat * Db) (li : NecoLineItem) : Outcome nat * Db :=
  match acc with
  | (Raised e, db) => (Raised e, db)
  | (Returned created, db) =>
      let fp := generateChildFingerprint (solicitationNumber parent) li in
      let fpCheck :=
        FingerprintingService.checkFingerprint db (Store.userId parent) fp in
      if FingerprintingService.exists_ fpCheck then (Returned created, db)
      else
        match createOpportunity db (childRow parent necoData li fp) with
        | (Raised e, db1) => (Raised e, db1)
        | (Returned child, db1) =>
            match FingerprintingService.recordFingerprint db1
                    (Store.userId parent) (Store.id child) fp with
            | (Raised e, db2) => (Raised e, db2)
            | (Returned _, db2) => (Returned (S created), db2)
            end
        end
  end.

(** [ChildOpportunitiesService.createChildrenFromScraping]
    (child-opportunities.service.ts, 25-138). *)
Definition createChildrenFromScraping (db : Db) (parentId : string)
  (necoData : NecoExtractedData) : Outcome nat * Db :=
  if (List.length (lineItems necoData) <=? 1)%nat then (Returned 0%nat, db)
  else
    match findUnique db parentId with
    | None => (Returned 0%nat, db)
    | Some parent =>
        if negb (isFalsy (parentOpportunityId parent))
        then (Returned 0%nat, db)
        else if (0 <? childrenCount parent)%nat then (Returned 0%nat, db)
        else
          match fold_left (createChild parent necoData)
                  (lineItems necoData) (Returned 0%nat, db) with
          | (Raised e, db1) => (Raised e, db1)
          | (Returned created, db1) =>
              if (0 <? created)%nat then
                match updateChildrenCount db1 parentId created with
                | (Raised e, db2) => (Raised e, db2)
                | (Returned _, db2) => (Returned created, db2)
                end
              else (Returned created, db1)
          end
    end.

End ChildOpportunitiesService.

(* ===================================================================== *)
(** * scraping.service.ts and the scraping queue processor                *)
(* ===================================================================== *)

Module ScrapingService.
Local Open Scope list_scope.

Inductive ScrapingStatus : Type :=
| PENDING | SUCCESS | FAILED | BLOCKED | TIMEOUT | NECO_ERROR
| REQUIRES_AUTH | DISABLED | EXPIRED.

(** The enum's string values. *)
Definition statusValue (s : ScrapingStatus) : string :=
  match s with
  | PENDING => "pending"
  | SUCCESS => "success"
  | FAILED => "failed"
  | BLOCKED => "blocked"
  | TIMEOUT => "timeout"
  | NECO_ERROR => "neco_error"
  | REQUIRES_AUTH => "requires_auth"
  | DISABLED => "disabled"
  | EXPIRED => "expired"
  end.

Record ScrapingResult : Type := Result
  { success : bool;
    status : string;
    data : option NecoExtractor.NecoExtractedData;   (* [data.neco] *)
    error : option string;
    isCancellation : option bool }.

(** What a [catch] clause reads of the value thrown. *)
Record ErrorObject : Type := Error
  { code : option string;
    isNecoError : bool;
    responseStatus : option Z;
    message : option string }.

(** One [axiosInstance.get]: the response, seen through the title text,
    the body text and the extractor's result, or the rejection. *)
Inductive AttemptOutcome : Type :=
| Page (title body : string)
    (neco : option NecoExtractor.NecoExtractedData)
| Rejected (e : ErrorObject).

Record DomainConfig : Type := Domain
  { enabled : bool;
    requiresAuth : bool;
    hasCredentials : bool;
    reason : option string }.

(** What one scraping job finds: the template's scraping switch, the
    opportunity's source URL ([None] when the opportunity is missing),
    the resolved domain policy, the user's settings, and the outcome of
    the fetch made at each attempt number. *)
Record Env : Type := Environment
  { webScrapingEnabled : bool;
    sourceUrlOf : option (option string);
    domainConfig : DomainConfig;
    maxRetries : nat;
    retryDelay : Z;
    fetch : nat -> AttemptOutcome }.

Inductive Event : Type :=
| Fetched (attempt : nat)
| Delayed (ms : Z)
| StatusWritten (status : string)
| Persisted
| CancellationHandled
| AlertEmitted (status : string).

Definition necoErrorObject : ErrorObject :=
  Error None true (Some 200)
    (Some "NECO retornou pagina de erro - possivel bloqueio de IP ou pagina indisponivel").

(** The error-page test of [scrapeWithRetry] (scraping.service.ts,
    294-301), on the texts of the title and of the body. *)
Definition isErrorPage (title body : string) : bool :=
  let pageTitle := JsString.toLowerCase (JsString.trim title) in
  let bodyText := JsString.trim body in
  JsString.includes pageTitle "error page"
  || JsString.includes bodyText "An Error Has Occured"
  || JsString.includes bodyText "An Error Has Occurred".

Definition codeIs (e : ErrorObject) (c : string) : bool :=
  match code e with
  | Some c' => String.eqb c' c
  | None => false
  end.

Definition statusIs (e : ErrorObject) (n : Z) : bool :=
  match responseStatus e with
  | Some n' => n' =? n
  | None => false
  end.

(** [error.message || 'Unknown error'] *)
Definition errorMessage (e : ErrorObject) : string :=
  match message e with
  | Some m => if JsString.isEmpty m then "Unknown error" else m
  | None => "Unknown error"
  end.

(** The branches of the [catch] clause, in the order it tests them. *)
Inductive Caught : Type :=
| CaughtTimeout
| CaughtNecoError
| CaughtBlocked
| CaughtNotFound
| CaughtOther.

Definition classify (e : ErrorObject) : Caught :=
  if codeIs e "ECONNABORTED" || codeIs e "ETIMEDOUT" then CaughtTimeout
  else if isNecoError e then CaughtNecoError
  else if statusIs e 403 || statusIs e 401 then CaughtBlocked
  else if statusIs e 404 then CaughtNotFound
  else CaughtOther.

(** What the [try] block does at one attempt: it ends in a value thrown
    or in the extracted data. *)
Definition attemptBody (o : AttemptOutcome)
  : ErrorObject + option NecoExtractor.NecoExtractedData :=
  match o with
  | Rejected e => inl e
  | Page title body neco =>
      if isErrorPage title body then inl necoErrorObject else inr neco
  end.

Definition failure (s : ScrapingStatus) (msg : string)
  : ScrapingResult * list Event :=
  (Result false (statusValue s) None (Some msg) None,
   [StatusWritten (statusValue s); AlertEmitted (statusValue s)]).

Definition succeeded (neco : option NecoExtractor.NecoExtractedData)
  : ScrapingResult * list Event :=
  let cancelled :=
    match neco with
    | Some d => NecoExtractor.isCancellation d
    | None => false
    end in
  (Result true (statusValue SUCCESS) neco None (Some cancelled),
   Persisted :: (if cancelled then [CancellationHandled] else [])).

Definition started (attempt : nat) : list Event :=
  (if Nat.eqb attempt 1 then [StatusWritten (statusValue PENDING)] else [])
  ++ [Fetched attempt].

Definition after (evs : list Event) (r : ScrapingResult * list Event)
  : ScrapingResult * list Event :=
  (fst r, evs ++ snd r).

(** [ScrapingService.scrapeWithRetry] (scraping.service.ts, 264-417): the
    result and the events of the call, those of its retries included. *)
Equations scrapeWithRetry (env : Env) (attempt : nat)
  : ScrapingResult * list Event
  by wf (maxRetries env - attempt)%nat lt :=
  scrapeWithRetry env attempt with attemptBody (fetch env attempt) := {
    | inr neco => after (started attempt) (succeeded neco)
    | inl e with classify e := {
        | CaughtTimeout with lt_dec attempt (maxRetries env) := {
            | left _ =>
                after (started attempt ++ [Delayed (retryDelay env)])
                      (scrapeWithRetry env (S attempt))
            | right _ =>
                after (started attempt) (failure TIMEOUT (errorMessage e)) }
        | CaughtNecoError =>
            after (started attempt) (failure NECO_ERROR (errorMessage e))
        | CaughtBlocked =>
            after (started attempt) (failure BLOCKED (errorMessage e))
        | CaughtNotFound =>
            after (started attempt) (failure FAILED "Page not found (404)")
        | CaughtOther with lt_dec attempt (maxRetries env) := {
            | left _ =>
                after (started attempt ++ [Delayed (retryDelay env)])
                      (scrapeWithRetry env (S attempt))
            | right _ =>
                after (started attempt) (failure FAILED (errorMessage e)) } } }.
Next Obligation. lia. Qed.
Next Obligation. lia. Qed.

Definition refused (s : ScrapingStatus) (msg : string) (written : bool)
  : ScrapingResult * list Event :=
  (Result false (statusValue s) None (Some msg) None,
   if written then [StatusWritten (statusValue s)] else []).

(** [ScrapingService.scrapeOpportunity] (scraping.service.ts, 137-230),
    from the resolved domain policy on. *)
Definition scrapeOpportunity (env : Env) : ScrapingResult * list Event :=
  match sourceUrlOf env with
  | None => refused FAILED "Opportunity not found" false
  | Some url =>
      if NecoExtractor.isFalsy url
      then refused FAILED "No source URL available" false
      else if negb (enabled (domainConfig env))
      then refused BLOCKED
             (match reason (domainConfig env) with
              | Some r => if JsString.isEmpty r
                          then "Scraping disabled for this domain" else r
              | None => "Scraping disabled for this domain"
              end) true
      else if requiresAuth (domainConfig env)
              && negb (hasCredentials (domainConfig env))
      then refused REQUIRES_AUTH
             "Authentication required but not configured" true
      else scrapeWithRetry env 1
  end.

(** [ScrapingService.scrapeOpportunityAuto] (scraping.service.ts,
    236-259). *)
Definition scrapeOpportunityAuto (env : Env) : ScrapingResult * list Event :=
  if webScrapingEnabled env then scrapeOpportunity env
  else refused DISABLED "Scraping not enabled for this template" false.

End ScrapingService.

Module ScrapingProcessorQueue.
Import ScrapingService.
Local Open Scope list_scope.

Record ScrapingJob : Type := JobData
  { opportunityId : string;
    userId : string;
    templateId : string;
    sourceUrl : string }.

Record Job : Type := QueuedJob { jobId : Z; jobData : ScrapingJob }.

(** The jobs of the scraping queue that have not started. *)
Record Queue : Type := ScrapingQueue
  { waiting : list Job; delayed : list Job }.

(** [getWaiting(start, end)] and [getDelayed(start, end)]: the jobs at
    positions [start] to [end], both included. *)
Definition range (start stop : Z) (jobs : list Job) : list Job :=
  firstn (Z.to_nat (stop + 1 - start)) (skipn (Z.to_nat start) jobs).

Definition getWaiting (q : Queue) (start stop : Z) : list Job :=
  range start stop (waiting q).

Definition getDelayed (q : Queue) (start stop : Z) : list Job :=
  range start stop (delayed q).

(** [job.remove()] *)
Definition remove (q : Queue) (j : Job) : Queue :=
  let others := List.filter (fun j' => negb (jobId j' =? jobId j)) in
  ScrapingQueue (others (waiting q)) (others (delayed q)).

(** [ScrapingProcessorQueue.drainQueue]: every job listed is removed. *)
Definition drainQueue (q : Queue) : Queue :=
  let allJobs := getWaiting q 0 99999 ++ getDelayed q 0 99999 in
  fold_left remove allJobs q.

(** The columns the handler selects before scraping. *)
Record Selected : Type := Select
  { closingDate : option Z; status : string; deletedAt : option Z }.

Inductive Step : Type :=
| Scraping (e : Event)
| ChildrenRequested
| QueueDrained
| PolitenessDelay.

Definition skipped (msg : string) : ScrapingResult :=
  Result false "skipped" None (Some msg) None.

(** [ScrapingProcessorQueue.handleScraping]: [found] is the opportunity
    of the job, [today] the local midnight of the current day.  The call
    that creates the children is recorded as a step; it changes neither
    the result nor the queue. *)
Definition handleScraping (env : Env) (found : option Selected) (today : Z)
  (q : Queue) : ScrapingResult * Queue * list Step :=
  match found with
  | None => (skipped "Opportunity cancelled or deleted", q, [])
  | Some opp =>
      if (match deletedAt opp with Some _ => true | None => false end)
         || String.eqb (status opp) "cancelada"
      then (skipped "Opportunity cancelled or deleted", q, [])
      else if match closingDate opp with
              | Some d => d <? today
              | None => false
              end
      then (skipped "Closing date expired", q, [])
      else
        let '(result, events) := scrapeOpportunityAuto env in
        let children :=
          if success result then
            match data result with
            | Some necoData =>
                if 1 <? NecoExtractor.totalLineItems necoData
                then [ChildrenRequested] else []
            | None => []
            end
          else [] in
        if String.eqb (ScrapingService.status result)
                      (statusValue NECO_ERROR)
        then (result, drainQueue q,
              map Scraping events ++ children ++ [QueueDrained])
        else (result, q,
              map Scraping events ++ children ++ [PolitenessDelay])
  end.

End ScrapingProcessorQueue.

(* ===================================================================== *)
(** * opportunity.processor.ts: updating an existing opportunity          *)
(* ===================================================================== *)

Module OpportunityProcessorQueue.
Import Store.

(** The [data] of the update: an absent key is [None]. *)
Record UpdateData : Type := Update
  { setExtractedData : gmap string JsVal;
    setSolicitationNumber : option JsVal;
    setSite : option JsVal;
    setSourceUrl : option JsVal;
    setClosingDate : option JsDate.Date;
    setDeliveryDate : option JsDate.Date;
    setPartNumber : option JsVal;
    setManufacturer : option JsVal;
    setDescription : option JsVal;
    setNsn : option JsVal;
    setCondition : option JsVal;
    setUnit : option JsVal;
    setQuantity : option (option Z) }.

Section Processor.
(** The platform: [new Date(string)], and [Number(v)] as the integer
    an Int column accepts ([None] when it is not one). *)
Variable newDate : string -> JsDate.Date.
Variable toInteger : JsVal -> option Z.

(** [v instanceof Date ? v : new Date(v)] *)
Definition asDate (v : JsVal) : JsDate.Date :=
  match v with
  | VDate d => d
  | VString s => newDate s
  | VNumber n => JsDate.TimeClip n
  | VNull => JsDate.TimeClip 0
  | VUndefined => JsDate.Invalid
  end.

(** [if (mapped.f) updateData.f = g(mapped.f)] *)
Definition whenTruthy {A : Type} (mapped : gmap string JsVal)
  (field : string) (g : JsVal -> A) : option A :=
  let v := JsValue.get mapped field in
  if JsValue.truthy v then Some (g v) else None.

(** The [updateData] built by [handleOpportunityProcessing] for an
    existing opportunity (opportunity.processor.ts, 206-241). *)
Definition buildUpdateData (existingOpportunity : Opportunity)
  (mapped data : gmap string JsVal) : UpdateData :=
  let wasScraped :=
    match scrapingStatus existingOpportunity with
    | Some s => String.eqb s "success"
    | None => false
    end in
  let unlessScraped {A : Type} (x : option A) : option A :=
    if wasScraped then None else x in
  Update data
    (whenTruthy mapped "solicitationNumber" (fun v => v))
    (whenTruthy mapped "site" (fun v => v))
    (whenTruthy mapped "sourceUrl" (fun v => v))
    (whenTruthy mapped "closingDate" asDate)
    (whenTruthy mapped "deliveryDate" asDate)
    (unlessScraped (whenTruthy mapped "partNumber" (fun v => v)))
    (unlessScraped (whenTruthy mapped "manufacturer" (fun v => v)))
    (unlessScraped (whenTruthy mapped "description" (fun v => v)))
    (unlessScraped (whenTruthy mapped "nsn" (fun v => v)))
    (unlessScraped (whenTruthy mapped "condition" (fun v => v)))
    (unlessScraped (whenTruthy mapped "unit" (fun v => v)))
    (unlessScraped (whenTruthy mapped "quantity" toInteger)).

(** A column written by the update: [None] when the store rejects the
    value, [Some] of the column's new content otherwise. *)
Definition stringColumn (old : option string) (new : option JsVal)
  : option (option string) :=
  match new with
  | None => Some old
  | Some (VString s) => Some (Some s)
  | Some _ => None
  end.

Definition dateColumn (old : option Z) (new : option JsDate.Date)
  : option (option Z) :=
  match new with
  | None => Some old
  | Some (JsDate.Time t) => Some (Some t)
  | Some JsDate.Invalid => None
  end.

Definition intColumn (old : option Z) (new : option (option Z))
  : option (option Z) :=
  match new with
  | None => Some old
  | Some (Some n) => Some (Some n)
  | Some None => None
  end.

(** [prisma.opportunity.update({ where: { id }, data: updateData })]:
    the row after the update, or the error of a rejected value. *)
Definition update (o : Opportunity) (u : UpdateData)
  : Outcome Opportunity :=
  match stringColumn (solicitationNumber o) (setSolicitationNumber u),
        stringColumn (site o) (setSite u),
        stringColumn (sourceUrl o) (setSourceUrl u),
        dateColumn (closingDate o) (setClosingDate u),
        dateColumn (deliveryDate o) (setDeliveryDate u),
        stringColumn (partNumber o) (setPartNumber u),
        stringColumn (manufacturer o) (setManufacturer u),
        stringColumn (description o) (setDescription u),
        stringColumn (nsn o) (setNsn u),
        stringColumn (condition o) (setCondition u),
        stringColumn (unit o) (setUnit u),
        intColumn (quantity o) (setQuantity u) with
  | Some sol, Some si, Some url, Some closing, Some delivery, Some part,
    Some manu, Some descr, Some n, Some cond, Some un, Some qty =>
      Returned
        (Opp (id o) (userId o) (templateId o) (gmailAccountId o)
           (emailMessageId o) (emailThreadId o) (emailDate o)
           (fingerprint o) (parentOpportunityId o) (childrenCount o)
           sol si url closing delivery (status o) part manu descr n cond
           un qty (scrapingStatus o) (EmailFields (setExtractedData u)))
  | _, _, _, _, _, _, _, _, _, _, _, _ =>
      Raised "Invalid value provided"
  end.

(** The branch [if (existingOpportunity)] of the handler: the row as
    the store holds it afterwards. *)
Definition updateExisting (existingOpportunity : Opportunity)
  (mapped data : gmap string JsVal) : Opportunity :=
  match update existingOpportunity
          (buildUpdateData existingOpportunity mapped data) with
  | Returned o => o
  | Raised _ => existingOpportunity
  end.
End Processor.

End OpportunityProcessorQueue.

(* ===================================================================== *)
(** * fingerprinting.service.ts: batch check, removal, statistics         *)
(* ===================================================================== *)

Module FingerprintingMaintenance.
Import Store FingerprintingService.

Definition notRecorded : FingerprintCheckResult :=
  CheckResult false None None None.

Definition recorded (record : FingerprintRow) : FingerprintCheckResult :=
  CheckResult true (fpAction record) (Some (fpCreatedAt record))
    (orUndefined (fpOpportunityId record)).

(** [FingerprintingService.checkMultipleFingerprints]
    (fingerprinting.service.ts, 53-85): the [Map] returned, read through
    [get]. *)
Definition checkMultipleFingerprints (db : Db) (user : string)
  (fps : list string) : gmap string FingerprintCheckResult :=
  let records :=
    List.filter
      (fun r => String.eqb (fpUserId r) user
                && existsb (String.eqb (fpFingerprint r)) fps)
      (fingerprints db) in
  let resultsMap :=
    fold_left (fun m fp => <[fp := notRecorded]> m) fps ∅ in
  fold_left (fun m record => <[fpFingerprint record := recorded record]> m)
    records resultsMap.

(** The [where] clause [{ userId, opportunityId }]. *)
Definition ofOpportunity (user oppId : string) (r : FingerprintRow) : bool :=
  String.eqb (fpUserId r) user
  && match fpOpportunityId r with
     | Some o => String.eqb o oppId
     | None => false
     end.

(** [FingerprintingService.removeFingerprintRecord]
    (fingerprinting.service.ts, 137-151). *)
Definition removeFingerprintRecord (db : Db) (user oppId : string) : Db :=
  Database (opportunities db)
    (List.filter (fun r => negb (ofOpportunity user oppId r))
       (fingerprints db))
    (idSeed db) (clock db) (writes db).

Definition actionValue (a : FingerprintAction) : string :=
  match a with
  | deleted => "deleted"
  | hidden => "hidden"
  | not_interested => "not_interested"
  end.

(** [groupBy({ by: ['action'], where: { userId }, _count: { action: true } })]:
    one group for each value of the column, the rows without a value
    forming a group of their own whose count of values is zero. *)
Definition countAction (a : option FingerprintAction)
  (rows : list FingerprintRow) : Z :=
  match a with
  | Some _ =>
      Z.of_nat (List.length
        (List.filter
           (fun r => match fpAction r, a with
                     | Some x, Some y => String.eqb (actionValue x) (actionValue y)
                     | _, _ => false
                     end) rows))
  | None => 0
  end.

Definition groupByAction (rows : list FingerprintRow)
  : list (option FingerprintAction * Z) :=
  map (fun a => (a, countAction a rows))
    (List.filter
       (fun a => existsb
                   (fun r => match fpAction r, a with
                             | Some x, Some y =>
                                 String.eqb (actionValue x) (actionValue y)
                             | None, None => true
                             | _, _ => false
                             end) rows)
       [None; Some deleted; Some hidden; Some not_interested]).

(** [FingerprintingService.getStatistics] (fingerprinting.service.ts,
    156-181): [total] and [byAction]. *)
Definition getStatistics (db : Db) (user : string) : Z * gmap string Z :=
  let mine := List.filter (fun r => String.eqb (fpUserId r) user)
                (fingerprints db) in
  (Z.of_nat (List.length mine),
   fold_left
     (fun acc item =>
        match fst item with
        | Some a => <[actionValue a := snd item]> acc
        | None => acc
        end)
     (groupByAction mine) ∅).

End FingerprintingMaintenance.

(* ===================================================================== *)
(** * opportunities.service.ts and the cancellations                      *)
(* ===================================================================== *)

(** The columns of [opportunities] that [Store.Opportunity] leaves out
    (deletion, viewing, history, cancellation, urgency) are kept beside
    the store, by opportunity id, with the alerts and what the gateway
    sent. *)

Module OpportunitiesService.
Import Store.
Local Open Scope list_scope.

(** ** opportunity.constants.ts *)

Inductive OpportunityStatus : Type :=
| NAO_ANALISADA | ANALISADA | EM_COTACAO | LANCADA_BID
| VENCEDORA_BID | NAO_VENCEDORA | CANCELADA | DESCARTADA.

Definition statusValue (s : OpportunityStatus) : string :=
  match s with
  | NAO_ANALISADA => "nao_analisada"
  | ANALISADA => "analisada"
  | EM_COTACAO => "em_cotacao"
  | LANCADA_BID => "lancada_bid"
  | VENCEDORA_BID => "vencedora_bid"
  | NAO_VENCEDORA => "nao_vencedora"
  | CANCELADA => "cancelada"
  | DESCARTADA => "descartada"
  end.

(** [Object.values(OpportunityStatus)] *)
Definition statusValues : list string :=
  map statusValue
    [NAO_ANALISADA; ANALISADA; EM_COTACAO; LANCADA_BID;
     VENCEDORA_BID; NAO_VENCEDORA; CANCELADA; DESCARTADA].

(** [VALID_TRANSITIONS] (opportunity.constants.ts, 45-74). *)
Definition VALID_TRANSITIONS (s : OpportunityStatus)
  : list OpportunityStatus :=
  match s with
  | NAO_ANALISADA => [ANALISADA; DESCARTADA; CANCELADA]
  | ANALISADA => [EM_COTACAO; DESCARTADA; CANCELADA]
  | EM_COTACAO => [LANCADA_BID; ANALISADA; CANCELADA]
  | LANCADA_BID => [VENCEDORA_BID; NAO_VENCEDORA; CANCELADA]
  | VENCEDORA_BID => [CANCELADA]
  | NAO_VENCEDORA => [ANALISADA; CANCELADA]
  | CANCELADA => []
  | DESCARTADA => [NAO_ANALISADA]
  end.

(** The member of the enum a stored status names, if any. *)
Definition statusOf (value : string) : option OpportunityStatus :=
  List.find (fun s => String.eqb (statusValue s) value)
    [NAO_ANALISADA; ANALISADA; EM_COTACAO; LANCADA_BID;
     VENCEDORA_BID; NAO_VENCEDORA; CANCELADA; DESCARTADA].

(** [VALID_TRANSITIONS[currentStatus] || []], the table being read by
    its own keys. *)
Definition allowedTransitions (currentStatus : string) : list string :=
  match statusOf currentStatus with
  | Some s => map statusValue (VALID_TRANSITIONS s)
  | None => []
  end.

Inductive UrgencyLevel : Type := EXPIRED | CRITICAL | HIGH | MEDIUM | LOW.

Definition urgencyValue (u : UrgencyLevel) : string :=
  match u with
  | EXPIRED => "expired"
  | CRITICAL => "critical"
  | HIGH => "high"
  | MEDIUM => "medium"
  | LOW => "low"
  end.

(** [URGENCY_THRESHOLDS] *)
Definition critical : Z := 3.
Definition high : Z := 7.
Definition medium : Z := 14.

(** ** status-history.helper.ts *)

Record StatusHistoryEntry : Type := HistoryEntry
  { entryFrom : string;
    entryTo : string;
    entryAt : Z;            (* the instant whose ISO text the entry holds *)
    entryBy : string;
    entryReason : option string }.

(** [appendStatusHistory]: a stored history that is not an array counts
    as empty ([None]). *)
Definition appendStatusHistory
  (currentHistory : option (list StatusHistoryEntry))
  (entry : StatusHistoryEntry) : list StatusHistoryEntry :=
  default [] currentHistory ++ [entry].

(** [createHistoryEntry]; [now] is the clock read by [new Date()]. *)
Definition createHistoryEntry (now : Z) (fromStatus toStatus userId : string)
  (why : option string) : StatusHistoryEntry :=
  HistoryEntry fromStatus toStatus now userId
    (FingerprintingService.orUndefined why).

(** ** The store of the service *)

(** The columns of [opportunities] beside those of [Store.Opportunity]
    that the service reads or writes. *)
Record Workflow : Type := Flow
  { deletedAt : option Z;
    isViewed : bool;
    viewedAt : option Z;
    statusHistory : option (list StatusHistoryEntry);
    quotationPhase : option string;
    purchaseStatus : option string;
    cancelledAt : option Z;
    cancellationSource : option string;
    daysUntilClosing : option Z;
    urgencyLevel : option string }.

(** The defaults of these columns. *)
Definition newWorkflow : Workflow :=
  Flow None false None None None None None None None None.

(** The [metadata] of an alert. *)
Inductive AlertMetadata : Type :=
| OfTransition (entry : StatusHistoryEntry)
| OfDetection (detectedBy previousStatus : string)
| OfEmail (emailMessageId previousStatus : string)
    (transPurpose quoteType : JsVal).

(** A row of [opportunity_alerts]; of the two texts written for the
    reader, the title is kept. *)
Record Alert : Type := AlertRow
  { alertUserId : string;
    alertOpportunityId : string;
    alertType : string;
    alertTitle : string;
    alertMetadata : AlertMetadata }.

(** What the gateway sent to the room of a user. *)
Inductive Emission : Type :=
| OpportunityUpdate (userId opportunityId action : string)
| CountsUpdate (userId : string) (counts : gmap string Z)
| Cancellation (userId opportunityId solicitationNumber : string)
| AlertSent (userId : string) (alert : Alert).

Record State : Type := ServiceState
  { db : Db;
    flows : gmap string Workflow;      (* by opportunity id *)
    alerts : list Alert;
    emitted : list Emission }.

Definition flowOf (st : State) (oppId : string) : Workflow :=
  default newWorkflow (flows st !! oppId).

Definition isNull {A : Type} (x : option A) : bool :=
  match x with Some _ => false | None => true end.

(** [findFirst({ where: { id, userId, deletedAt: null } })] *)
Definition findActive (st : State) (oppId user : string)
  : option Opportunity :=
  List.find
    (fun o => String.eqb (id o) oppId && String.eqb (userId o) user
              && isNull (deletedAt (flowOf st (id o))))
    (opportunities (db st)).

Definition withDb (st : State) (d : Db) : State :=
  ServiceState d (flows st) (alerts st) (emitted st).

Definition withFlow (st : State) (oppId : string) (w : Workflow) : State :=
  ServiceState (db st) (<[oppId := w]> (flows st)) (alerts st) (emitted st).

Definition withStatus (o : Opportunity) (s : string) : Opportunity :=
  Opp (id o) (userId o) (templateId o) (gmailAccountId o)
    (emailMessageId o) (emailThreadId o) (emailDate o) (fingerprint o)
    (parentOpportunityId o) (childrenCount o) (solicitationNumber o)
    (site o) (sourceUrl o) (closingDate o) (deliveryDate o) s
    (partNumber o) (manufacturer o) (description o) (nsn o) (condition o)
    (unit o) (quantity o) (scrapingStatus o) (extractedData o).

(** [prisma.opportunity.update({ where: { id }, data: { status } })] *)
Definition setStatus (d : Db) (oppId s : string) : Db :=
  Database
    (map (fun o => if String.eqb (id o) oppId then withStatus o s else o)
         (opportunities d))
    (fingerprints d) (idSeed d) (clock d) (writes d).

(** ** opportunities.service.ts *)

(** [calculateDaysUntilClosing] (756-760): the ceiling of the
    difference in days (the floating-point quotient rounds to the same
    integer while the two instants are less than 2^26 days apart). *)
Definition calculateDaysUntilClosing (now closingDate : Z) : Z :=
  - ((now - closingDate) / 86400000).

(** [calculateUrgency] (762-768). *)
Definition calculateUrgency (days : Z) : UrgencyLevel :=
  if days <? 0 then EXPIRED
  else if days <=? critical then CRITICAL
  else if days <=? high then HIGH
  else if days <=? medium then MEDIUM
  else LOW.

(** The fields of [CreateOpportunityDto]; a date is the [Date] its text
    denotes. *)
Record CreateOpportunityDto : Type := CreateDto
  { dtoEmailMessageId : string;
    dtoEmailThreadId : option string;
    dtoEmailDate : Z;
    dtoFingerprint : string;
    dtoTemplateId : string;
    dtoGmailAccountId : string;
    dtoSolicitationNumber : option string;
    dtoSite : option string;
    dtoSourceUrl : option string;
    dtoPartNumber : option string;
    dtoManufacturer : option string;
    dtoDescription : option string;
    dtoNsn : option string;
    dtoCondition : option string;
    dtoUnit : option string;
    dtoQuantity : option Z;
    dtoClosingDate : option JsDate.Date;
    dtoDeliveryDate : option JsDate.Date;
    dtoExtractedData : gmap string JsVal }.

(** A date column: [None] when the value is an Invalid Date, which the
    store rejects. *)
Definition dateValue (d : option JsDate.Date) : option (option Z) :=
  match d with
  | None => Some None
  | Some (JsDate.Time t) => Some (Some t)
  | Some JsDate.Invalid => None
  end.

Definition newRow (user : string) (dto : CreateOpportunityDto)
  (closing delivery : option Z) (newId : string) : Opportunity :=
  Opp newId user (dtoTemplateId dto) (dtoGmailAccountId dto)
    (dtoEmailMessageId dto) (dtoEmailThreadId dto) (dtoEmailDate dto)
    (dtoFingerprint dto) None 0 (dtoSolicitationNumber dto) (dtoSite dto)
    (dtoSourceUrl dto) closing delivery (statusValue NAO_ANALISADA)
    (dtoPartNumber dto) (dtoManufacturer dto) (dtoDescription dto)
    (dtoNsn dto) (dtoCondition dto) (dtoUnit dto) (dtoQuantity dto) None
    (EmailFields (dtoExtractedData dto)).

(** [OpportunitiesService.create] (64-129). *)
Definition create (st : State) (user : string) (dto : CreateOpportunityDto)
  : Outcome Opportunity * State :=
  let fingerprintCheck :=
    FingerprintingService.checkFingerprint (db st) user (dtoFingerprint dto) in
  if FingerprintingService.exists_ fingerprintCheck
  then (Raised "ConflictException", st)
  else
    match dateValue (dtoClosingDate dto), dateValue (dtoDeliveryDate dto) with
    | Some closing, Some delivery =>
        let days :=
          option_map (calculateDaysUntilClosing (clock (db st))) closing in
        let urgency :=
          match days with
          | Some d => if d =? 0 then None
                      else Some (urgencyValue (calculateUrgency d))
          | None => None
          end in
        match createOpportunity (db st) (newRow user dto closing delivery) with
        | (Raised e, _) => (Raised e, st)
        | (Returned opportunity, db1) =>
            let st1 :=
              withFlow (withDb st db1) (id opportunity)
                (Flow None false None None None None None None days urgency) in
            match FingerprintingService.recordFingerprint db1 user
                    (id opportunity) (dtoFingerprint dto) with
            | (Raised e, db2) => (Raised e, withDb st1 db2)
            | (Returned _, db2) => (Returned opportunity, withDb st1 db2)
            end
        end
    | _, _ => (Raised "PrismaClientValidationError", st)
    end.

(** [OpportunitiesService.findOne] (252-285): the opportunity found,
    marked as viewed. *)
Definition findOne (st : State) (oppId user : string)
  : Outcome Opportunity * State :=
  match findActive st oppId user with
  | None => (Raised "NotFoundException", st)
  | Some opportunity =>
      let w := flowOf st oppId in
      if isViewed w then (Returned opportunity, st)
      else
        (Returned opportunity,
         withFlow st oppId
           (Flow (deletedAt w) true (Some (clock (db st))) (statusHistory w)
              (quotationPhase w) (purchaseStatus w) (cancelledAt w)
              (cancellationSource w) (daysUntilClosing w) (urgencyLevel w)))
  end.

Definition withDeletedAt (w : Workflow) (d : option Z) : Workflow :=
  Flow d (isViewed w) (viewedAt w) (statusHistory w) (quotationPhase w)
    (purchaseStatus w) (cancelledAt w) (cancellationSource w)
    (daysUntilClosing w) (urgencyLevel w).

(** [OpportunitiesService.softDelete] (693-706). *)
Definition softDelete (st : State) (oppId user : string)
  : Outcome Datatypes.unit * State :=
  match findOne st oppId user with
  | (Raised e, st1) => (Raised e, st1)
  | (Returned _, st1) =>
      let st2 :=
        withDb st1
          (FingerprintingService.updateFingerprintAction (db st1) user oppId
             deleted) in
      (Returned tt,
       withFlow st2 oppId
         (withDeletedAt (flowOf st2 oppId) (Some (clock (db st2)))))
  end.

(** [OpportunitiesService.restore] (708-718). *)
Definition restore (st : State) (oppId user : string)
  : Outcome Datatypes.unit * State :=
  match List.find (fun o => String.eqb (id o) oppId
                            && String.eqb (userId o) user)
          (opportunities (db st)) with
  | None => (Raised "NotFoundException", st)
  | Some _ =>
      (Returned tt, withFlow st oppId (withDeletedAt (flowOf st oppId) None))
  end.

(** [x || fallback] on a nullable string. *)
Definition orElse (x : option string) (fallback : string) : string :=
  default fallback (FingerprintingService.orUndefined x).

Definition inIds (ids : list string) (x : string) : bool :=
  existsb (String.eqb x) ids.

(** The rows a delete takes with it: the foreign key of
    [parent_opportunity_id] cascades, so the children of a deleted row
    go, and theirs. *)
Fixpoint cascade (fuel : nat) (rows : list Opportunity) (gone : list string)
  : list string :=
  match fuel with
  | O => gone
  | S fuel' =>
      cascade fuel' rows
        (gone
           ++ map id
                (List.filter
                   (fun o => negb (inIds gone (id o))
                             && match parentOpportunityId o with
                                | Some p => inIds gone p
                                | None => false
                                end) rows))
  end.

(** [prisma.opportunity.delete({ where: { id } })] with the foreign keys
    of the migrations: children and alerts are deleted with the row, and
    the ledger rows that named a deleted row name none. *)
Definition deleteOpportunity (st : State) (oppId : string) : State :=
  let rows := opportunities (db st) in
  let gone := cascade (List.length rows) rows [oppId] in
  ServiceState
    (Database
       (List.filter (fun o => negb (inIds gone (id o))) rows)
       (map (fun r =>
               match fpOpportunityId r with
               | Some o =>
                   if inIds gone o
                   then FpRow (fpUserId r) (fpFingerprint r) None
                          (fpAction r) (fpCreatedAt r)
                   else r
               | None => r
               end) (fingerprints (db st)))
       (idSeed (db st)) (clock (db st)) (writes (db st)))
    (filter (fun kv => negb (inIds gone (fst kv))) (flows st))
    (List.filter (fun a => negb (inIds gone (alertOpportunityId a)))
       (alerts st))
    (emitted st).

(** [OpportunitiesService.hardDelete] (720-730). *)
Definition hardDelete (st : State) (oppId user : string)
  : Outcome Datatypes.unit * State :=
  match findOne st oppId user with
  | (Raised e, st1) => (Raised e, st1)
  | (Returned _, st1) =>
      let st2 :=
        withDb st1
          (FingerprintingMaintenance.removeFingerprintRecord (db st1) user
             oppId) in
      (Returned tt, deleteOpportunity st2 oppId)
  end.

(** [groupBy({ by: ['status'], where, _count: { status: true } })] on the
    rows selected. *)
Definition countStatus (s : string) (rows : list Opportunity) : Z :=
  Z.of_nat (List.length
              (List.filter (fun o => String.eqb (status o) s) rows)).

Fixpoint distinct (l : list string) : list string :=
  match l with
  | [] => []
  | x :: t => x :: List.filter (fun y => negb (String.eqb y x)) (distinct t)
  end.

Definition groupByStatus (rows : list Opportunity) : list (string * Z) :=
  map (fun s => (s, countStatus s rows)) (distinct (map status rows)).

(** The [where] clauses of [countsByStatus], without the test on the
    closing date. *)
Definition isListed (st : State) (user : string) (o : Opportunity) : bool :=
  String.eqb (userId o) user
  && isNull (deletedAt (flowOf st (id o)))
  && isNull (parentOpportunityId o).

Definition isExpired (today : Z) (o : Opportunity) : bool :=
  match closingDate o with
  | Some d => d <? today
  | None => false
  end.

(** [OpportunitiesService.countsByStatus] (648-687); [today] is the
    local midnight of the current day. *)
Definition countsByStatus (st : State) (today : Z) (user : string)
  : gmap string Z :=
  let counts :=
    groupByStatus
      (List.filter (fun o => isListed st user o && negb (isExpired today o))
         (opportunities (db st))) in
  let expiredCount :=
    Z.of_nat (List.length
                (List.filter
                   (fun o => isListed st user o && isExpired today o)
                   (opportunities (db st)))) in
  let result : gmap string Z :=
    fold_left (fun acc s => <[s := 0]> acc) statusValues ∅ in
  let result :=
    fold_left (fun acc item => <[fst item := snd item]> acc) counts result in
  <["expirada" := expiredCount]> result.

(** [OpportunitiesService.transitionStatus] (339-415). *)
Definition transitionStatus (st : State) (today : Z) (oppId user : string)
  (toStatus : string) (why : option string)
  : Outcome Opportunity * State :=
  match findActive st oppId user with
  | None => (Raised "NotFoundException", st)
  | Some opportunity =>
      let currentStatus := status opportunity in
      if negb (inIds (allowedTransitions currentStatus) toStatus)
      then (Raised "BadRequestException", st)
      else
        let now := clock (db st) in
        let historyEntry :=
          createHistoryEntry now currentStatus toStatus user why in
        let w := flowOf st oppId in
        let cancelled := String.eqb toStatus (statusValue CANCELADA) in
        let w' :=
          Flow (deletedAt w) (isViewed w) (viewedAt w)
            (Some (appendStatusHistory (statusHistory w) historyEntry))
            (if String.eqb toStatus (statusValue EM_COTACAO)
                && NecoExtractor.isFalsy (quotationPhase w)
             then Some "enviada" else quotationPhase w)
            (if String.eqb toStatus (statusValue VENCEDORA_BID)
                && NecoExtractor.isFalsy (purchaseStatus w)
             then Some "pendente" else purchaseStatus w)
            (if cancelled then Some now else cancelledAt w)
            (if cancelled then Some "manual" else cancellationSource w)
            (daysUntilClosing w) (urgencyLevel w) in
        let st1 := withFlow (withDb st (setStatus (db st) oppId toStatus))
                     oppId w' in
        let updated := withStatus opportunity toStatus in
        let label := orElse (solicitationNumber opportunity) oppId in
        let alert :=
          AlertRow (userId opportunity) oppId
            (if cancelled then "cancellation" else "status_change")
            (if cancelled then "Proposta cancelada: " ++ label
             else "Status alterado: " ++ label)%string
            (OfTransition historyEntry) in
        let st2 :=
          ServiceState (db st1) (flows st1) (alerts st1 ++ [alert])
            (emitted st1
               ++ [OpportunityUpdate (userId opportunity) oppId
                     "status_changed"]) in
        let counts := countsByStatus st2 today (userId opportunity) in
        (Returned updated,
         ServiceState (db st2) (flows st2) (alerts st2)
           (emitted st2 ++ [CountsUpdate (userId opportunity) counts]))
  end.

End OpportunitiesService.

(** ** scraping.service.ts: a cancellation found on the page *)

Module ScrapingCancellation.
Import Store OpportunitiesService.
Local Open Scope list_scope.

(** [ScrapingService.handleScrapingCancellation] (scraping.service.ts,
    549-604), the call recorded as [CancellationHandled] in the events
    of [scrapeWithRetry]. *)
Definition handleScrapingCancellation (st : State) (oppId : string)
  : State :=
  match findUnique (db st) oppId with
  | None => st
  | Some opportunity =>
      if String.eqb (status opportunity) "cancelada" then st
      else
        let now := clock (db st) in
        let w := flowOf st oppId in
        let historyEntry :=
          HistoryEntry (status opportunity) "cancelada" now "system"
            (Some "Cancelamento detectado automaticamente via scraping da pagina NECO") in
        let w' :=
          Flow (deletedAt w) (isViewed w) (viewedAt w)
            (Some (default [] (statusHistory w) ++ [historyEntry]))
            (quotationPhase w) (purchaseStatus w) (Some now)
            (Some "scraping_auto") (daysUntilClosing w) (urgencyLevel w) in
        let solNum := orElse (solicitationNumber opportunity) oppId in
        let alert :=
          AlertRow (userId opportunity) oppId "cancellation"
            ("CANCELAMENTO: " ++ solNum)%string
            (OfDetection "scraping_auto" (status opportunity)) in
        ServiceState (setStatus (db st) oppId "cancelada")
          (<[oppId := w']> (flows st))
          (alerts st ++ [alert])
          (emitted st
             ++ [Cancellation (userId opportunity) oppId solNum;
                 AlertSent (userId opportunity) alert;
                 OpportunityUpdate (userId opportunity) oppId
                   "status_changed"])
  end.

End ScrapingCancellation.

(** ** opportunity.processor.ts: a cancellation announced by email *)

Module EmailCancellation.
Import Store OpportunitiesService.
Local Open Scope list_scope.

(** The [where] clause of [handleCancellation]: the solicitation number,
    not deleted, not cancelled. *)
Definition isLive (st : State) (number : string) (o : Opportunity) : bool :=
  match solicitationNumber o with
  | Some n => String.eqb n number
  | None => false
  end
  && isNull (deletedAt (flowOf st (id o)))
  && negb (String.eqb (status o) "cancelada").

(** [OpportunityProcessorQueue.handleCancellation]
    (opportunity.processor.ts, 354-429); [parsed] is the data of the
    parsed item. *)
Definition handleCancellation (st : State) (user number : string)
    (parsed : gmap string JsVal) (emailMessageId : string) : State :=
  match List.find (isLive st number) (opportunities (db st)) with
  | None => st
  | Some existingOpportunity =>
      let oppId := id existingOpportunity in
      let now := clock (db st) in
      let w := flowOf st oppId in
      let historyEntry :=
        HistoryEntry (status existingOpportunity) "cancelada" now "system"
          (Some ("Cancelamento detectado automaticamente via email NECO ("
                 ++ emailMessageId ++ ")")%string) in
      let w' :=
        Flow (deletedAt w) (isViewed w) (viewedAt w)
          (Some (default [] (statusHistory w) ++ [historyEntry]))
          (quotationPhase w) (purchaseStatus w) (Some now)
          (Some "email_auto") (daysUntilClosing w) (urgencyLevel w) in
      let alert :=
        AlertRow user oppId "cancellation"
          ("CANCELAMENTO: " ++ number)%string
          (OfEmail emailMessageId (status existingOpportunity)
             (JsValue.get parsed "transPurpose")
             (JsValue.get parsed "quoteType")) in
      ServiceState (setStatus (db st) oppId "cancelada")
        (<[oppId := w']> (flows st))
        (alerts st ++ [alert])
        (emitted st
           ++ [Cancellation user oppId number;
               AlertSent user alert;
               OpportunityUpdate user oppId "status_changed"])
  end.

End EmailCancellation.

(* ===================================================================== *)
(** * scraping.service.ts: enrichment and domain policy                   *)
(* ===================================================================== *)

Module JsText.

(** [s.endsWith(suffix)] *)
Definition endsWith (s suffix : string) : bool :=
  let n := String.length s in
  let m := String.length suffix in
  (m <=? n)%nat && String.eqb (String.substring (n - m) m s) suffix.

End JsText.

Module ScrapingEnrichment.

(** A sub-line item as [buildEnrichmentData] reads it. *)
Record NecoSubLineItem : Type := SubLineItem
  { subQuantity : option Z;
    subUnit : option string }.

(** The object [buildEnrichmentData] returns: a key that is absent is
    [None]. *)
Record Enrichment : Type := Enrich
  { enQuantity : option Z;
    enUnit : option string;
    enPartNumber : option string;
    enManufacturer : option string;
    enCondition : option string;
    enDescription : option string }.

(** A number read as a condition: absent and zero are false. *)
Definition nonZero (q : option Z) : option Z :=
  match q with
  | Some n => if n =? 0 then None else Some n
  | None => None
  end.

Definition nonEmpty (s : option string) : option string :=
  FingerprintingService.orUndefined s.

(** [/^LINE ITEM/i.test(s)] *)
Definition isLineItemText (s : string) : bool :=
  String.prefix "line item" (JsString.toLowerCase s).

Definition quantityOfSubs (subs : list NecoSubLineItem) : Z :=
  fold_left (fun sum sub => sum + default 0 (nonZero (subQuantity sub)))
    subs 0.

Definition unitOfSubs (subs : list NecoSubLineItem) : option string :=
  match find (fun s => negb (NecoExtractor.isFalsy (subUnit s))) subs with
  | Some s => nonEmpty (subUnit s)
  | None => None
  end.

(** [ScrapingService.buildEnrichmentData] (scraping.service.ts, 505-543).
    [subsOf] gives the quantities and units of the sub-line items of a
    line item, in the order of its [subLineItems]. *)
Definition buildEnrichmentData
    (subsOf : NecoExtractor.NecoLineItem -> list NecoSubLineItem)
    (neco : option NecoExtractor.NecoExtractedData)
    (currentDescription : option string) : Enrichment :=
  match neco with
  | None => Enrich None None None None None None
  | Some doc =>
      match NecoExtractor.lineItems doc with
      | [] => Enrich None None None None None None
      | first :: _ =>
          let measure :=
            match nonZero (NecoExtractor.quantity first) with
            | Some q => (Some q, nonEmpty (NecoExtractor.unit first))
            | None =>
                let totalQty := quantityOfSubs (subsOf first) in
                if 0 <? totalQty
                then (Some totalQty, unitOfSubs (subsOf first))
                else (None, None)
            end in
          Enrich (fst measure) (snd measure)
            (nonEmpty (NecoExtractor.vendorPartNumber first))
            (nonEmpty (NecoExtractor.vendorCode first))
            (nonEmpty (NecoExtractor.itemCondition doc))
            (match nonEmpty (NecoExtractor.nomenclature first) with
             | Some name =>
                 match nonEmpty currentDescription with
                 | None => Some name
                 | Some current =>
                     if isLineItemText current then Some name else None
                 end
             | None => None
             end)
      end
  end.

(** The columns an enrichment writes in the update of [scrapeWithRetry]
    (scraping.service.ts, 321-331): a key of the object replaces the
    column, an absent key leaves it. *)
Definition orKeep {A : Type} (written old : option A) : option A :=
  match written with
  | Some v => Some v
  | None => old
  end.

Definition enrich (o : Store.Opportunity) (e : Enrichment)
  : Store.Opportunity :=
  Store.Opp (Store.id o) (Store.userId o) (Store.templateId o)
    (Store.gmailAccountId o) (Store.emailMessageId o)
    (Store.emailThreadId o) (Store.emailDate o) (Store.fingerprint o)
    (Store.parentOpportunityId o) (Store.childrenCount o)
    (Store.solicitationNumber o) (Store.site o) (Store.sourceUrl o)
    (Store.closingDate o) (Store.deliveryDate o) (Store.status o)
    (orKeep (enPartNumber e) (Store.partNumber o))
    (orKeep (enManufacturer e) (Store.manufacturer o))
    (orKeep (enDescription e) (Store.description o))
    (Store.nsn o)
    (orKeep (enCondition e) (Store.condition o))
    (orKeep (enUnit e) (Store.unit o))
    (orKeep (enQuantity e) (Store.quantity o))
    (Some "success") (Store.extractedData o).

(** The update of a successful scrape, on the row read just before it. *)
Definition enrichFromScrape
    (subsOf : NecoExtractor.NecoLineItem -> list NecoSubLineItem)
    (neco : option NecoExtractor.NecoExtractedData)
    (o : Store.Opportunity) : Store.Opportunity :=
  enrich o (buildEnrichmentData subsOf neco (Store.description o)).

End ScrapingEnrichment.

Module ScrapingDomains.

(** A row of [scraping_domain_configs]; the pair (user, domain) is
    unique. Host names and identifiers are lower-case texts, compared as
    they are stored. *)
Record DomainRow : Type := Row
  { rowId : string;
    rowUserId : string;
    rowDomain : string;
    rowEnabled : bool;
    rowRequiresAuth : bool;
    rowReason : option string;
    rowTimeoutMs : Z }.

(** An entry of the template's [templateDomains]. *)
Record TemplateDomain : Type := TDomain
  { tdDomain : string;
    tdEnabled : bool;
    tdReason : option string }.

(** The configuration a lookup answers: the policy read by
    [scrapeOpportunity] and the request timeout. *)
Record Resolved : Type := Answer
  { policy : ScrapingService.DomainConfig;
    timeout : option Z }.

(** [s.split('.')] *)
Fixpoint splitDots (s : string) : list string :=
  match s with
  | EmptyString => [EmptyString]
  | String c rest =>
      if Ascii.eqb c "."%char then EmptyString :: splitDots rest
      else match splitDots rest with
           | part :: parts => String c part :: parts
           | [] => [String c EmptyString]
           end
  end.

(** [parts.slice(-2).join('.')] when [parts.length > 2]. *)
Definition parentDomain (domain : string) : option string :=
  let parts := splitDots domain in
  if (2 <? List.length parts)%nat
  then Some (JsString.join "." (skipn (List.length parts - 2) parts))
  else None.

(** [domain.replace(/^www\./, '')] *)
Definition withoutWww (domain : string) : string :=
  if String.prefix "www." domain
  then String.substring 4 (String.length domain - 4) domain
  else domain.

Definition ofRow (r : DomainRow) : Resolved :=
  Answer
    (ScrapingService.Domain (rowEnabled r) (rowRequiresAuth r) false
       (FingerprintingService.orUndefined (rowReason r)))
    (Some (rowTimeoutMs r)).

Definition isRowOf (userId domain : string) (r : DomainRow) : bool :=
  String.eqb (rowUserId r) userId && String.eqb (rowDomain r) domain.

Definition findFirst (rows : list DomainRow) (userId domain : string)
  : option DomainRow :=
  find (isRowOf userId domain) rows.

Definition defaultDomainConfigs : list (string * Resolved) :=
  [("neco.navy.mil",
    Answer (ScrapingService.Domain true false false None) (Some 30000))].

Definition getDefault (domain : string) : option Resolved :=
  option_map snd
    (find (fun entry => String.eqb (fst entry) domain) defaultDomainConfigs).

Definition unknownDomain : Resolved :=
  Answer
    (ScrapingService.Domain false false false
       (Some "Unknown domain - not configured"))
    None.

Definition orElse {A : Type} (x : option A) (y : option A) : option A :=
  match x with
  | Some a => Some a
  | None => y
  end.

(** [ScrapingService.getDomainConfig] (scraping.service.ts, 684-754). *)
Definition getDomainConfig (rows : list DomainRow) (domain : string)
    (userId : option string) : Resolved :=
  let fromDb :=
    match FingerprintingService.orUndefined userId with
    | Some user =>
        orElse (findFirst rows user domain)
          (match parentDomain domain with
           | Some parent => findFirst rows user parent
           | None => None
           end)
    | None => None
    end in
  match fromDb with
  | Some r => ofRow r
  | None =>
      match
        orElse (getDefault domain)
          (orElse
             (match parentDomain domain with
              | Some parent => getDefault parent
              | None => None
              end)
             (option_map snd
                (find
                   (fun entry =>
                      JsString.includes domain (fst entry)
                      && negb (ScrapingService.enabled
                                 (policy (snd entry))))
                   defaultDomainConfigs)))
      with
      | Some c => c
      | None => unknownDomain
      end
  end.

(** The test of [templateDomains.find] in [scrapeOpportunity]
    (scraping.service.ts, 174-181). *)
Definition namesDomain (domain : string) (d : TemplateDomain) : bool :=
  let domainNorm := withoutWww domain in
  String.eqb (tdDomain d) domain
  || String.eqb (tdDomain d) domainNorm
  || String.eqb (tdDomain d) ("www." ++ domainNorm)
  || JsText.endsWith domain ("." ++ tdDomain d)
  || String.eqb domain ("www." ++ tdDomain d).

(** The domain policy [scrapeOpportunity] resolves (scraping.service.ts,
    164-193) for the host name of the source URL. *)
Definition resolveDomainConfig (templateDomains : list TemplateDomain)
    (rows : list DomainRow) (domain userId : string) : Resolved :=
  match find (namesDomain domain) templateDomains with
  | Some d =>
      Answer (ScrapingService.Domain (tdEnabled d) false false (tdReason d))
        (Some 30000)
  | None => getDomainConfig rows domain (Some userId)
  end.

(** What [upsertDomainConfig] is given. *)
Record DomainSettings : Type := Settings
  { setEnabled : bool;
    setRequiresAuth : option bool;
    setReason : option string;
    setTimeoutMs : option Z }.

Definition written (r : DomainRow) (config : DomainSettings) : DomainRow :=
  Row (rowId r) (rowUserId r) (rowDomain r) (setEnabled config)
    (default false (setRequiresAuth config))
    (FingerprintingService.orUndefined (setReason config))
    (default 30000 (setTimeoutMs config)).

(** [ScrapingService.upsertDomainConfig] (scraping.service.ts, 771-800):
    [freshId] is the identifier a created row receives. *)
Definition upsertDomainConfig (rows : list DomainRow) (freshId : string)
    (userId domain : string) (config : DomainSettings)
  : list DomainRow :=
  if existsb (isRowOf userId domain) rows
  then map (fun r => if isRowOf userId domain r then written r config
                     else r) rows
  else rows ++ [written (Row freshId userId domain true false None 30000)
                  config].

(** [ScrapingService.removeDomainConfig] (scraping.service.ts, 805-809). *)
Definition removeDomainConfig (rows : list DomainRow)
    (userId domainId : string) : list DomainRow :=
  filter (fun r => negb (String.eqb (rowId r) domainId
                         && String.eqb (rowUserId r) userId)) rows.

(** [ScrapingService.initializeDefaultDomains] (scraping.service.ts,
    814-836). *)
Definition initializeDefaultDomains (rows : list DomainRow)
    (freshId userId : string) : list DomainRow :=
  if (0 <? List.length
             (filter (fun r => String.eqb (rowUserId r) userId) rows))%nat
  then rows
  else rows ++ [Row freshId userId "neco.navy.mil" true false None 30000].

(** The job [scrapeOpportunity] runs once the policy is resolved. *)
Definition withPolicy (env : ScrapingService.Env) (c : Resolved)
  : ScrapingService.Env :=
  ScrapingService.Environment (ScrapingService.webScrapingEnabled env)
    (ScrapingService.sourceUrlOf env) (policy c)
    (ScrapingService.maxRetries env) (ScrapingService.retryDelay env)
    (ScrapingService.fetch env).

End ScrapingDomains.

(* ===================================================================== *)
(** * opportunity.processor.ts: mapping the extracted fields              *)
(* ===================================================================== *)

Module FieldMapping.

(** [Object.entries(obj)] of a plain record: its keys, each once, in the
    order of insertion. *)
Definition Entries (A : Type) : Type := list (string * A).

(** [obj[key]] *)
Definition valueOf (data : Entries JsVal) (key : string) : JsVal :=
  match find (fun entry => String.eqb (fst entry) key) data with
  | Some entry => snd entry
  | None => VUndefined
  end.

Definition knownDtoFields : list string :=
  ["solicitationNumber"; "site"; "sourceUrl"; "partNumber"; "manufacturer";
   "description"; "nsn"; "condition"; "unit"; "quantity"; "closingDate";
   "deliveryDate"; "transPurpose"; "quoteType"].

(** The test of the inner loop on a key of the data. *)
Definition namesField (dtoLower extractedKey : string) : bool :=
  let keyLower := JsString.toLowerCase extractedKey in
  String.eqb keyLower dtoLower
  || JsText.endsWith keyLower dtoLower
  || JsString.includes keyLower dtoLower.

(** The first loop: the fields the template maps. *)
Definition mapListed (data : Entries JsVal) (mapped : gmap string JsVal)
    (item : string * string) : gmap string JsVal :=
  let v := valueOf data (snd item) in
  if JsValue.notNullish v then <[fst item := v]> mapped else mapped.

(** The second loop, for one known field: the first entry of the data
    that holds a value under a key naming the field. *)
Definition mapKnown (data : Entries JsVal) (mapped : gmap string JsVal)
    (dtoField : string) : gmap string JsVal :=
  if JsValue.notNullish (JsValue.get mapped dtoField) then mapped
  else
    match
      find (fun entry =>
              JsValue.notNullish (snd entry)
              && namesField (JsString.toLowerCase dtoField) (fst entry))
        data
    with
    | Some entry => <[dtoField := snd entry]> mapped
    | None => mapped
    end.

(** [OpportunityProcessor.mapExtractedFields] (opportunity.processor.ts,
    435-483). *)
Definition mapExtractedFields (data : Entries JsVal)
    (fieldMapping : Entries string) : gmap string JsVal :=
  fold_left (mapKnown data) knownDtoFields
    (fold_left (mapListed data) fieldMapping ∅).

End FieldMapping.

(* ===================================================================== *)
(** * parsing.service.ts: parseEmail                                      *)
(* ===================================================================== *)

Module EmailParsing.
Import Regex.

Definition CR : ascii := JsString.chr 13.
Definition LF : ascii := JsString.chr 10.

(** [s.replace(/\r\n/g, '\n')] *)
Fixpoint replaceCrLf (s : string) : string :=
  match s with
  | EmptyString => EmptyString
  | String c t =>
      if Ascii.eqb c CR
      then match t with
           | String d t' =>
               if Ascii.eqb d LF then String LF (replaceCrLf t')
               else String c (replaceCrLf t)
           | EmptyString => String c EmptyString
           end
      else String c (replaceCrLf t)
  end.

(** [s.replace(/\r/g, '\n')] *)
Fixpoint replaceCr (s : string) : string :=
  match s with
  | EmptyString => EmptyString
  | String c t => String (if Ascii.eqb c CR then LF else c) (replaceCr t)
  end.

(** The body [parseEmail] works on (parsing.service.ts, 52-54). *)
Definition normalizeLineEndings (body : string) : string :=
  replaceCr (replaceCrLf body).

(** A field definition of a template; [fieldPattern] is the compiled
    pattern, [None] when the text of the pattern does not compile. *)
Record FieldExtraction : Type := Field
  { fieldName : string;
    fieldPattern : option re;
    fieldGroup : option nat;
    fieldTransform : option string;
    fieldRequired : bool;
    fieldDefaultValue : JsVal }.

Record ParsedEmail : Type := Email
  { subject : string;
    from : string;
    date : JsDate.Date;
    body : string }.

Record ParsedOpportunity : Type := Parsed
  { data : gmap string JsVal;
    fingerprint : string;
    raw : string }.

(** The parts of a template [parseEmail] reads; [itemDelimiter] is the
    compiled lookahead's pattern, [None] when the delimiter is empty. *)
Record ParsingTemplate : Type := Template
  { mode : string;
    itemDelimiter : option re;
    fields : list FieldExtraction;
    fingerprintFields : list string }.

Section Parsing.
(** The platform and the parts embedded apart: the rendering of a date,
    [transformValue] (parsing.service.ts, 226-251) and [parseTabular]
    (111-165) on a normalized body. *)
Variable dateToString : JsDate.Date -> string.
Variable transformValue : string -> string -> JsVal.
Variable parseTabular : string -> ParsingTemplate -> list ParsedOpportunity.

(** [field.defaultValue || null] *)
Definition defaultOrNull (field : FieldExtraction) : JsVal :=
  if JsValue.truthy (fieldDefaultValue field) then fieldDefaultValue field
  else VNull.

(** The value [extractFields] gives one field. *)
Definition extractField (text : string) (field : FieldExtraction) : JsVal :=
  match fieldPattern field with
  | None => defaultOrNull field
  | Some regex =>
      match exec regex text with
      | Some m =>
          let group :=
            match fieldGroup field with
            | Some (S g) => S g
            | _ => 1%nat
            end in
          match Regex.group m group with
          | Some rawValue =>
              if negb (JsString.isEmpty rawValue)
                 && negb (NecoExtractor.isFalsy (fieldTransform field))
              then transformValue rawValue (default "" (fieldTransform field))
              else VString rawValue
          | None => VUndefined
          end
      | None => defaultOrNull field
      end
  end.

(** [ParsingService.extractFields] (parsing.service.ts, 185-221). *)
Definition extractFields (text : string)
    (fieldDefinitions : list FieldExtraction) : gmap string JsVal :=
  fold_left
    (fun result field => <[fieldName field := extractField text field]> result)
    fieldDefinitions ∅.

Definition parseItem (template : ParsingTemplate) (itemText : string)
  : ParsedOpportunity :=
  let data := extractFields itemText (fields template) in
  Parsed data
    (ParsingService.generateFingerprint dateToString data
       (fingerprintFields template) (Some itemText))
    itemText.

(** [ParsingService.parseEmail] (parsing.service.ts, 45-104). *)
Definition parseEmail (email : ParsedEmail) (template : ParsingTemplate)
  : Store.Outcome (list ParsedOpportunity) :=
  let body := normalizeLineEndings (body email) in
  if String.eqb (mode template) "single"
  then Store.Returned [parseItem template body]
  else if String.eqb (mode template) "multiline"
  then match ParsingService.splitEmailIntoItems body (itemDelimiter template)
       with
       | Some items => Store.Returned (map (parseItem template) items)
       | None => Store.Raised "TypeError"
       end
  else if String.eqb (mode template) "tabular"
  then Store.Returned (parseTabular body template)
  else Store.Raised "BadRequestException".

End Parsing.

End EmailParsing.


(* ===================================================================== *)
(** * Notions used to state the properties                                *)
(* ===================================================================== *)

Module DigestSpec.

Definition isLowerHex (c : ascii) : bool :=
  let n := JsString.code c in
  ((48 <=? n) && (n <=? 57)) || ((97 <=? n) && (n <=? 102)).

Fixpoint allChars (p : ascii -> bool) (s : string) : bool :=
  match s with
  | EmptyString => true
  | String c t => p c && allChars p t
  end.

End DigestSpec.

Module ScrapingSpec.
Import ScrapingService.
Local Open Scope list_scope.

(** The attempt numbers fetched, in order. *)
Definition fetches (evs : list Event) : list nat :=
  flat_map (fun e => match e with Fetched a => [a] | _ => [] end) evs.

Definition isTransportTimeout (o : AttemptOutcome) : bool :=
  match o with
  | Rejected e => codeIs e "ECONNABORTED" || codeIs e "ETIMEDOUT"
  | Page _ _ _ => false
  end.

End ScrapingSpec.

Module QueueSpec.
Import ScrapingService ScrapingProcessorQueue.
Local Open Scope list_scope.

(** The gates a job passes before its URL is fetched. *)
Definition reachesFetch (env : Env) (found : option Selected) (today : Z)
  : bool :=
  match found with
  | None => false
  | Some opp =>
      match deletedAt opp with Some _ => false | None => true end
      && negb (String.eqb (ScrapingProcessorQueue.status opp) "cancelada")
      && negb (match closingDate opp with
               | Some d => d <? today
               | None => false
               end)
      && webScrapingEnabled env
      && match sourceUrlOf env with
         | Some url => negb (NecoExtractor.isFalsy url)
         | None => false
         end
      && enabled (domainConfig env)
      && negb (requiresAuth (domainConfig env)
               && negb (hasCredentials (domainConfig env)))
  end.

Definition scrapingEvents (steps : list Step) : list Event :=
  flat_map (fun s => match s with Scraping e => [e] | _ => [] end) steps.

Definition notRemovedBy (removed : list Job) (j : Job) : bool :=
  forallb (fun r => negb (jobId j =? jobId r)) removed.

Definition sampleJob (n : nat) : Job :=
  QueuedJob (Z.of_nat n)
    (JobData ("opp_" ++ JsString.ofInt (Z.of_nat n))%string "user_1" "tpl_1"
       "https://www.neco.navy.mil/x").

End QueueSpec.

Module ChildSpec.
Import Store NecoExtractor ChildOpportunitiesService.
Local Open Scope list_scope.

Definition isCountWrite (w : Write) : bool :=
  match w with
  | UpdatedChildrenCount _ _ => true
  | _ => false
  end.

(** [db'] extends [db]: rows were appended, and no write touched a
    [childrenCount]. *)
Definition extends (db db' : Db) : Prop :=
  exists ws new,
    writes db' = writes db ++ ws
    /\ forallb (fun w => negb (isCountWrite w)) ws = true
    /\ opportunities db' = opportunities db ++ new.

(** The guard of [createChildrenFromScraping]. *)
Definition mayCreateChildren (db : Db) (parentId : string)
  (necoData : NecoExtractedData) : Prop :=
  1 < totalLineItems necoData
  /\ exists parent,
       findUnique db parentId = Some parent
       /\ isFalsy (parentOpportunityId parent) = true
       /\ childrenCount parent = 0%nat.

Definition countWriteOf (parentId : string) (outcome : Outcome nat)
  : list Write :=
  match outcome with
  | Returned n => if (0 <? n)%nat then [UpdatedChildrenCount parentId n] else []
  | Raised _ => []
  end.

End ChildSpec.

Module SplitSpec.
Import Regex ParsingService.

(** The separator matches, from position [q] on, only where the text
    starts with a character that is not white space. *)
Fixpoint cutsAtText (sep : re) (q : nat) (suffix : string) : bool :=
  match suffix with
  | EmptyString => true
  | String c t =>
      match matchHere sep q suffix with
      | Some _ => negb (JsString.isWhiteSpace c)
      | None => true
      end
      && cutsAtText sep (S q) t
  end.

(** The same, for the positions of [body] where a split may cut: all but
    the first. *)
Definition delimiterCutsAtText (sep : re) (body : string) : bool :=
  match body with
  | EmptyString => true
  | String _ t => cutsAtText sep 1 t
  end.

Definition nonBlank (p : string) : bool :=
  negb (JsString.isEmpty (JsString.trim p)).

Definition startsWithText (s : string) : bool :=
  match s with
  | EmptyString => false
  | String c _ => negb (JsString.isWhiteSpace c)
  end.

Definition LF : string := String "010" EmptyString.

End SplitSpec.

Module DateSpec.
Import JsDate ParsingService.

(** [count] consecutive day numbers from [start]. *)
Fixpoint consecutive (start : Z) (count : nat) : list Z :=
  match count with
  | O => []
  | S count' => start :: consecutive (start + 1) count'
  end.

(** A two-digit rendering of a number below 100. *)
Definition twoDigits (n : Z) : string :=
  if n <? 10 then "0" ++ JsString.ofInt n else JsString.ofInt n.

(** [parseDate] evaluated without a time zone: [Some r] when [parseDate]
    returns [r] in every zone within a day of UTC, [None] when the result
    depends on the zone or is not decided by this evaluation. *)
Definition toUTCDateLocal (month : string) (day year : Z)
  : option (option Date) :=
  match parseString (month ++ " " ++ JsString.ofInt day ++ ", "
                       ++ JsString.ofInt year) with
  | None => Some None
  | Some (LocalTime w) =>
      if Z.abs w <=? 8639999913600000
      then Some (Some (JsDate.UTC (getFullYear 0 w) (getMonth 0 w)
                                  (getDate 0 w)))
      else None
  | Some (UtcTime _) => None
  end.

Definition parseDateIsoLocal (cleaned : string) : option (option Date) :=
  match Regex.exec isoDatePattern cleaned with
  | Some _ =>
      match parseString (cleaned ++ (if JsString.includes cleaned "T"
                                     then "" else "T00:00:00Z")) with
      | Some (UtcTime t) =>
          if Z.abs t <=? 8640000000000000 then Some (Some (Time t)) else None
      | _ => None
      end
  | None => None
  end.

Definition parseDateLocal (dateStr : string) : option (option Date) :=
  let cleaned := JsString.trim dateStr in
  match Regex.exec ddMmmYyPattern cleaned with
  | Some m =>
      let day := default "" (Regex.group m 1) in
      let month := default "" (Regex.group m 2) in
      let yearShort := default "" (Regex.group m 3) in
      let yearNum := int yearShort in
      let fullYear :=
        if yearNum <? 50 then "20" ++ yearShort else "19" ++ yearShort in
      toUTCDateLocal month (int day) (int fullYear)
  | None =>
      match Regex.exec monthDayYearPattern cleaned with
      | Some m =>
          let month := default "" (Regex.group m 1) in
          let day := default "" (Regex.group m 2) in
          let year := default "" (Regex.group m 3) in
          toUTCDateLocal month (int day) (int year)
      | None => parseDateIsoLocal cleaned
      end
  end.

Definition isMidnightUTC (d : Date) : Prop :=
  match d with
  | Time t => t mod msPerDay = 0
  | Invalid => True
  end.

Definition pivotYear (yy : Z) : Z := if yy <? 50 then 2000 + yy else 1900 + yy.

Definition pivotCheck (yy : Z) : bool :=
  match parseDateLocal ("10-FEB-" ++ twoDigits yy) with
  | Some (Some (Time t)) => t =? daysFromCivil (pivotYear yy) 2 10 * msPerDay
  | _ => false
  end.

(** The month tokens of the DD-MMM-YY form, with the month's number. *)
Definition monthTokens : list (string * Z) :=
  [("JAN", 1); ("FEB", 2); ("MAR", 3); ("APR", 4); ("MAY", 5); ("JUN", 6);
   ("JUL", 7); ("AUG", 8); ("SEP", 9); ("OCT", 10); ("NOV", 11); ("DEC", 12)].

Definition dayMonthCheck (mon : string * Z) (day : Z) : bool :=
  match parseDateLocal (twoDigits day ++ "-" ++ fst mon ++ "-26") with
  | Some (Some (Time t)) => t =? daysFromCivil 2026 (snd mon) day * msPerDay
  | _ => false
  end.

End DateSpec.

(** Sample data for the worked examples. *)
Module Samples.
Definition parent : Store.Opportunity :=
  Store.Opp "opp_1" "user_1" "tpl_1" "gmail_1" "msg_1" None 1770000000000
    "f00d" None 0 (Some "N0010426QAB12") (Some "NECO")
    (Some "https://www.neco.navy.mil/x") (Some 1771286400000) None
    "nao_analisada" (Some "PN-1") (Some "1ABC2") (Some "VALVE,GATE")
    (Some "4820-01-111-2222") (Some "A") (Some "EA") (Some 4)
    (Some "success") (Store.EmailFields ∅).

Definition item (n : string) (part : string) : NecoExtractor.NecoLineItem :=
  NecoExtractor.LineItem n (Some "4820-01-111-2222") (Some "VALVE,GATE")
    (Some "1ABC2") (Some part) (Some 2) (Some "EA") None None [].

Definition document : NecoExtractor.NecoExtractedData :=
  NecoExtractor.computeTotals
    (NecoExtractor.ExtractedData [item "0001" "PN-1"; item "0002" "PN-2"]
       (Some "A") (Some "J. Doe") None None None None None None false 0 0).

Definition db : Store.Db := Store.Database [parent] [] 2 1770000000000 [].

Definition mapped : gmap string JsVal :=
  {[ "site" := VString "NAVSUP"; "partNumber" := VString "EMAIL-PN";
     "quantity" := VNumber 9; "closingDate" := VDate (JsDate.Time 1771372800000) ]}.
End Samples.

Module TraceSpec.
Import ScrapingService.
Local Open Scope list_scope.

(** The waits between attempts, in order. *)
Definition delays (evs : list Event) : list Z :=
  flat_map (fun e => match e with Delayed ms => [ms] | _ => [] end) evs.

(** The statuses of the alerts emitted, in order. *)
Definition alerts (evs : list Event) : list string :=
  flat_map (fun e => match e with AlertEmitted s => [s] | _ => [] end) evs.

(** The statuses written to the opportunity, in order. *)
Definition statusWrites (evs : list Event) : list string :=
  flat_map (fun e => match e with StatusWritten s => [s] | _ => [] end) evs.

Definition persists (evs : list Event) : bool :=
  existsb (fun e => match e with Persisted => true | _ => false end) evs.

(** The gates of [scrapeOpportunityAuto] and [scrapeOpportunity]. *)
Definition gatesOpen (env : Env) : bool :=
  webScrapingEnabled env
  && match sourceUrlOf env with
     | Some url => negb (NecoExtractor.isFalsy url)
     | None => false
     end
  && enabled (domainConfig env)
  && negb (requiresAuth (domainConfig env)
           && negb (hasCredentials (domainConfig env))).

(** An attempt that ends in a rejection the [catch] clause retries. *)
Definition isRetryable (o : AttemptOutcome) : bool :=
  match attemptBody o with
  | inl e =>
      match classify e with
      | CaughtTimeout | CaughtOther => true
      | _ => false
      end
  | inr _ => false
  end.

Definition isGoodPage (o : AttemptOutcome) : bool :=
  match attemptBody o with
  | inr _ => true
  | inl _ => false
  end.

(** A run from [attempt]: [n] attempts that were retried, each followed
    by the configured wait, then a last attempt. *)
Definition retriedThenLast (env : Env) (attempt : nat) (evs : list Event)
  : Prop :=
  exists n,
    (attempt + n <= Nat.max attempt (maxRetries env))%nat
    /\ ScrapingSpec.fetches evs = seq attempt (S n)
    /\ delays evs = repeat (retryDelay env) n.

(** The two ways a call ends. *)
Definition endsInSuccess (r : ScrapingResult * list Event) : Prop :=
  success (fst r) = true /\ status (fst r) = statusValue SUCCESS
  /\ error (fst r) = None /\ alerts (snd r) = []
  /\ persists (snd r) = true.

Definition endsInFailure (r : ScrapingResult * list Event) : Prop :=
  success (fst r) = false /\ data (fst r) = None /\ error (fst r) <> None
  /\ alerts (snd r) = [status (fst r)] /\ persists (snd r) = false
  /\ In (status (fst r))
        (map statusValue [TIMEOUT; NECO_ERROR; BLOCKED; FAILED])
  /\ exists before,
       snd r = before ++ [StatusWritten (status (fst r));
                          AlertEmitted (status (fst r))].

End TraceSpec.

Module LedgerSpec.
Import Store FingerprintingService.

(** The unique index (user_id, fingerprint) of [opportunity_fingerprints]. *)
Definition ledgerKey (r : FingerprintRow) : string * string :=
  (fpUserId r, fpFingerprint r).

Definition ledgerUnique (db : Db) : Prop :=
  List.NoDup (map ledgerKey (fingerprints db)).

(** The result of a check names the opportunity [oppId]. *)
Definition namesOpportunity (c : FingerprintCheckResult) (oppId : string)
  : bool :=
  match opportunityId c with
  | Some o => String.eqb o oppId
  | None => false
  end.

Definition withAction (c : FingerprintCheckResult)
  (a : option FingerprintAction) : FingerprintCheckResult :=
  CheckResult (exists_ c) a (recordedAt c) (opportunityId c).

End LedgerSpec.

Module LedgerSamples.
(** A ledger with rows of two users. *)
Definition db : Store.Db :=
  Store.Database [Samples.parent]
    [Store.FpRow "user_1" "f00d" (Some "opp_1") (Some Store.deleted)
       1770000000000;
     Store.FpRow "user_2" "f00d" (Some "opp_9") (Some Store.hidden)
       1770000000500;
     Store.FpRow "user_1" "beef" None (Some Store.deleted) 1770000001000]
    2 1770000002000 [].
End LedgerSamples.

Module ChildRowsSpec.
Import Store NecoExtractor ChildOpportunitiesService.
Local Open Scope list_scope.

(** The ledger of [db] has a row for the fingerprint [fp] of [user]. *)
Definition known (db : Db) (user fp : string) : bool :=
  existsb (FingerprintingService.matchesKey user fp) (fingerprints db).

(** [row] is a child of [parent]: it points to the parent and carries the
    parent's tenant, email and solicitation. *)
Definition isChildOf (parent row : Opportunity) : Prop :=
  parentOpportunityId row = Some (Store.id parent)
  /\ Store.userId row = Store.userId parent
  /\ emailMessageId row = emailMessageId parent
  /\ templateId row = templateId parent
  /\ solicitationNumber row = solicitationNumber parent
  /\ closingDate row = closingDate parent
  /\ childrenCount row = 0%nat.

(** [row] was made from one of the line items [items]. *)
Definition madeFrom (parent : Opportunity) (items : list NecoLineItem)
  (row : Opportunity) : Prop :=
  exists li,
    In li items
    /\ fingerprint row
       = generateChildFingerprint (solicitationNumber parent) li
    /\ Store.nsn row = orNull (NecoExtractor.nsn li)
    /\ Store.partNumber row = orNull (vendorPartNumber li)
    /\ manufacturer row = orNull (vendorCode li).

(** The rows after the count of the parent was written, if it was. *)
Definition withCountWritten (parentId : string) (n : nat)
  (rows : list Opportunity) : list Opportunity :=
  if (0 <? n)%nat
  then map (fun o => if String.eqb (Store.id o) parentId
                     then withChildrenCount o n else o) rows
  else rows.

(** What the loop leaves when it returns. *)
Definition LoopResult (parent : Opportunity) (necoData : NecoExtractedData)
    (items : list NecoLineItem) (c : nat) (db : Db) (c' : nat) (db' : Db)
  : Prop :=
  exists children,
    opportunities db' = opportunities db ++ children
    /\ c' = (c + List.length children)%nat
    /\ (List.length children <= List.length items)%nat
    /\ Forall (isChildOf parent) children
    /\ Forall (madeFrom parent items) children
    /\ Forall (fun ch => known db (Store.userId parent) (fingerprint ch)
                         = false) children
    /\ Forall (fun ch => known db' (Store.userId parent) (fingerprint ch)
                         = true) children
    /\ List.NoDup (map fingerprint children)
    /\ (forall u k, known db u k = true -> known db' u k = true)
    /\ Forall (fun li =>
                 known db' (Store.userId parent)
                   (generateChildFingerprint (solicitationNumber parent) li)
                 = true) items.

End ChildRowsSpec.

Module OpportunitySpec.
Import Store OpportunitiesService.
Local Open Scope list_scope.

(** The rank of an urgency level: the higher, the more urgent. *)
Definition urgencyRank (u : UrgencyLevel) : Z :=
  match u with
  | LOW => 0
  | MEDIUM => 1
  | HIGH => 2
  | CRITICAL => 3
  | EXPIRED => 4
  end.

(** A status history that links [start] to [current]: every entry starts
    from the status the previous one led to. *)
Fixpoint linked (start : string) (history : list StatusHistoryEntry)
  (current : string) : Prop :=
  match history with
  | [] => start = current
  | e :: rest => entryFrom e = start /\ linked (entryTo e) rest current
  end.

(** The history stored for a row agrees with the status of the row. *)
Definition historyAgrees (w : Workflow) (current : string) : Prop :=
  match statusHistory w with
  | Some history => exists start, linked start history current
  | None => True
  end.

(** The rows with the id [oppId] (the id being the primary key, at most
    one) have the status [current], and the history stored under that id
    agrees with it. *)
Definition statusRecorded (st : State) (oppId : string) : Prop :=
  exists current,
    (forall o, In o (opportunities (db st)) -> id o = oppId ->
               status o = current)
    /\ historyAgrees (flowOf st oppId) current.

(** A change of status: by a user through [transitionStatus], or by the
    scraper through [handleScrapingCancellation]. *)
Inductive StatusChange : Type :=
| ByUser (today : Z) (oppId user toStatus : string) (why : option string)
| ByScraper (oppId : string).

Definition applyChange (st : State) (c : StatusChange) : State :=
  match c with
  | ByUser today oppId user toStatus why =>
      snd (transitionStatus st today oppId user toStatus why)
  | ByScraper oppId =>
      ScrapingCancellation.handleScrapingCancellation st oppId
  end.

(** The urgency [create] computes for a closing date at a given time. *)
Definition urgencyAt (now closingDate : Z) : UrgencyLevel :=
  calculateUrgency (calculateDaysUntilClosing now closingDate).

Definition sampleDto : CreateOpportunityDto :=
  CreateDto "msg_7" None 1770000000000 "c0ffee" "tpl_1" "gmail_1"
    (Some "N0010426QZZ99") (Some "NECO") (Some "https://www.neco.navy.mil/y")
    None None (Some "PUMP") None None None (Some 3)
    (Some (JsDate.Time 1771286400000)) None ∅.

Definition sampleState : State :=
  ServiceState LedgerSamples.db ∅ [] [].

End OpportunitySpec.

Module CountsSpec.
Import Store OpportunitiesService.

(** The number of rows of [user] that are neither deleted nor children
    and that satisfy [p]. *)
Definition listedCount (st : State) (user : string)
    (p : Opportunity -> bool) : Z :=
  Z.of_nat (List.length
              (List.filter (fun o => isListed st user o && p o)
                 (opportunities (db st)))).

End CountsSpec.

Module FamilySpec.
Import Store OpportunitiesService.

(** The sample parent with the two children made from its document. *)
Definition familyState : State :=
  ServiceState
    (snd (ChildOpportunitiesService.createChildrenFromScraping Samples.db
            "opp_1" Samples.document))
    ∅ [] [].

Definition firstChild : Opportunity :=
  nth 1 (opportunities (db familyState)) Samples.parent.

Definition firstChildRecord : FingerprintRow :=
  nth 0 (fingerprints (db familyState)) (FpRow "" "" None None 0).

End FamilySpec.

Module CancellationSpec.
Import Store OpportunitiesService.

(** The rows a cancellation of [number] can still reach. *)
Definition live (st : State) (number : string) : list Opportunity :=
  List.filter (EmailCancellation.isLive st number) (opportunities (db st)).

End CancellationSpec.

Module EnrichmentSpec.
Import ScrapingEnrichment.

(** A text column after an update: left as it was, or given a text that
    is not empty. *)
Definition keptOrFilled (old new : option string) : Prop :=
  new = old \/ exists s, s <> "" /\ new = Some s.

Definition keptOrCounted (old new : option Z) : Prop :=
  new = old \/ exists q, q <> 0 /\ new = Some q.

(** The columns no enrichment writes. *)
Definition sameIdentity (o o' : Store.Opportunity) : Prop :=
  Store.id o' = Store.id o
  /\ Store.userId o' = Store.userId o
  /\ Store.fingerprint o' = Store.fingerprint o
  /\ Store.parentOpportunityId o' = Store.parentOpportunityId o
  /\ Store.childrenCount o' = Store.childrenCount o
  /\ Store.solicitationNumber o' = Store.solicitationNumber o
  /\ Store.nsn o' = Store.nsn o
  /\ Store.status o' = Store.status o
  /\ Store.closingDate o' = Store.closingDate o
  /\ Store.extractedData o' = Store.extractedData o.

Definition firstItem (neco : option NecoExtractor.NecoExtractedData)
  : option NecoExtractor.NecoLineItem :=
  match neco with
  | Some doc => head (NecoExtractor.lineItems doc)
  | None => None
  end.

End EnrichmentSpec.

Module DomainSpec.
Import ScrapingDomains.

(** What allows a host name to be fetched for a user: an enabled entry of
    the template that names it, an enabled row of the user, without
    authentication, for the host or for its last two labels, or the
    built-in host. *)
Definition permitted (templateDomains : list TemplateDomain)
    (rows : list DomainRow) (domain userId : string) : Prop :=
  (exists d, In d templateDomains
             /\ namesDomain domain d = true /\ tdEnabled d = true)
  \/ (exists r, In r rows
                /\ rowUserId r = userId
                /\ rowEnabled r = true
                /\ rowRequiresAuth r = false
                /\ (rowDomain r = domain
                    \/ parentDomain domain = Some (rowDomain r)))
  \/ domain = "neco.navy.mil".

Fixpoint dots (s : string) : nat :=
  match s with
  | EmptyString => 0
  | String c rest => (if Ascii.eqb c "."%char then 1 else 0) + dots rest
  end.

Definition keyOf (r : DomainRow) : string * string :=
  (rowUserId r, rowDomain r).

(** The unique index (user_id, domain). *)
Definition keysUnique (rows : list DomainRow) : Prop :=
  List.NoDup (map keyOf rows).

(** A lookup for [userId] and [domain] reads the rows of two keys. *)
Definition reads (userId domain : string) (key : string * string) : Prop :=
  fst key = userId
  /\ (snd key = domain \/ parentDomain domain = Some (snd key)).

Definition sampleRows : list DomainRow :=
  [Row "dom_1" "user_1" "neco.navy.mil" true false None 30000;
   Row "dom_2" "user_1" "sam.gov" false false (Some "manual only") 30000;
   Row "dom_3" "user_2" "navy.mil" true true None 15000].

Definition sampleEnv : ScrapingService.Env :=
  ScrapingService.Environment true
    (Some (Some "https://www.example.com/notice/1"))
    (ScrapingService.Domain true false false None) 3 2000
    (fun _ => ScrapingService.Page "Notice" "text" None).

End DomainSpec.

Module MappingSpec.
Import FieldMapping.

(** The key of the data contains the name of the field, letter case
    apart. *)
Definition contains (extractedKey dtoField : string) : bool :=
  JsString.includes (JsString.toLowerCase extractedKey)
    (JsString.toLowerCase dtoField).

(** The value the template's mapping gives a field. *)
Definition listedValue (data : Entries JsVal) (fieldMapping : Entries string)
    (dtoField : string) : option JsVal :=
  match find (fun item => String.eqb (fst item) dtoField) fieldMapping with
  | Some item =>
      let v := valueOf data (snd item) in
      if JsValue.notNullish v then Some v else None
  | None => None
  end.

(** The first value of the data under a key that contains the name. *)
Definition containedValue (data : Entries JsVal) (dtoField : string)
  : option JsVal :=
  option_map snd
    (find (fun entry =>
             JsValue.notNullish (snd entry) && contains (fst entry) dtoField)
       data).

Definition isKnown (dtoField : string) : bool :=
  existsb (String.eqb dtoField) knownDtoFields.

Definition sampleData : Entries JsVal :=
  [("Solicitation", VString "N0010426QAB12");
   ("unitPrice", VNumber 12);
   ("NSN", VNull);
   ("qty", VNumber 4);
   ("Closing Date", VString "10-FEB-26")].

Definition sampleMapping : Entries string :=
  [("quantity", "qty"); ("nsn", "NSN"); ("closingDate", "Closing Date")].

(** Every entry of the map is a value of the data that is neither
    [null] nor [undefined], under a key the mapping lists for the field
    or that contains the name of a known field. *)
Definition justified (data : Entries JsVal) (fieldMapping : Entries string)
    (m : gmap string JsVal) : Prop :=
  forall f v, m !! f = Some v ->
    JsValue.notNullish v = true
    /\ exists key, In (key, v) data
         /\ (In (f, key) fieldMapping
             \/ (In f knownDtoFields /\ contains key f = true)).

End MappingSpec.

Module LineEndingSpec.
Import EmailParsing.

(** The text with every line feed sent as carriage return and line
    feed. *)
Fixpoint withCrLf (s : string) : string :=
  match s with
  | EmptyString => EmptyString
  | String c t =>
      if Ascii.eqb c LF then String CR (String LF (withCrLf t))
      else String c (withCrLf t)
  end.

(** The text with every line feed sent as a lone carriage return. *)
Fixpoint withCr (s : string) : string :=
  match s with
  | EmptyString => EmptyString
  | String c t => String (if Ascii.eqb c LF then CR else c) (withCr t)
  end.

Fixpoint crFree (s : string) : bool :=
  match s with
  | EmptyString => true
  | String c t => negb (Ascii.eqb c CR) && crFree t
  end.

Definition withBody (email : ParsedEmail) (text : string) : ParsedEmail :=
  Email (subject email) (from email) (date email) text.

End LineEndingSpec.


(* ===================================================================== *)
(** * Properties                                                          *)
(* ===================================================================== *)

Import DigestSpec.

(** ** Strings and digests *)

(* ---------- strings ---------- *)
Lemma toLowerCase_length (s : string) :
  String.length (JsString.toLowerCase s) = String.length s.
Proof. induction s as [|c t IH]; simpl; [reflexivity | now rewrite IH]. Qed.

Lemma existsb_eqb_In (x : string) (l : list string) :
  existsb (String.eqb x) l = true <-> In x l.
Proof.
  rewrite existsb_exists. split.
  - intros (y & Hin & Heq). apply String.eqb_eq in Heq. now subst.
  - intros Hin. exists x. split; [assumption | apply String.eqb_refl].
Qed.

Lemma isEmpty_true (s : string) : JsString.isEmpty s = true <-> s = "".
Proof. destruct s; simpl; split; congruence. Qed.

Lemma hexDigit_hex (n : Z) :
  0 <= n < 16 -> isLowerHex (Sha256.hexDigit n) = true.
Proof.
  intros Hn.
  assert (Hall : forallb (fun k => isLowerHex (Sha256.hexDigit (Z.of_nat k)))
                         (seq 0 16) = true) by reflexivity.
  rewrite forallb_forall in Hall.
  rewrite <- (Z2Nat.id n) by lia. apply Hall, in_seq. lia.
Qed.

Lemma nibble_hex (w i : Z) : isLowerHex (Sha256.nibble w i) = true.
Proof.
  unfold Sha256.nibble. apply hexDigit_hex.
  change 15 with (Z.ones 4). rewrite Z.land_ones by lia.
  apply Z.mod_pos_bound. reflexivity.
Qed.

Lemma hex8_length (w : Z) (t : string) :
  String.length (Sha256.hex8 w t) = (8 + String.length t)%nat.
Proof. reflexivity. Qed.

Lemma hex8_allHex (w : Z) (t : string) :
  allChars isLowerHex (Sha256.hex8 w t) = allChars isLowerHex t.
Proof.
  unfold Sha256.hex8. cbn [allChars].
  now rewrite !nibble_hex.
Qed.

Lemma sha256_hex_length (s : string) :
  String.length (Sha256.sha256_hex s) = 64%nat.
Proof.
  unfold Sha256.sha256_hex, Sha256.hex. now rewrite !hex8_length.
Qed.

Lemma sha256_hex_allHex (s : string) :
  allChars isLowerHex (Sha256.sha256_hex s) = true.
Proof.
  unfold Sha256.sha256_hex, Sha256.hex. now rewrite !hex8_allHex.
Qed.

Section FingerprintFacts.
Import ParsingService.
Variable dateToString : JsDate.Date -> string.

Lemma fingerprintValues_agree (data1 data2 : gmap string JsVal)
    (fields : list string) :
  (forall f, In f fields -> data1 !! f = data2 !! f) ->
  fingerprintValues dateToString data1 fields
  = fingerprintValues dateToString data2 fields.
Proof.
  intros H. unfold fingerprintValues. do 2 f_equal.
  apply map_ext_in. intros f Hf.
  unfold fingerprintValue, JsValue.get. now rewrite (H f Hf).
Qed.

Lemma generateFingerprint_length data fields fallback :
  String.length (generateFingerprint dateToString data fields fallback)
  = 64%nat.
Proof.
  unfold generateFingerprint.
  destruct fallback as [text|]; [destruct (_ && _) |];
    apply sha256_hex_length.
Qed.

Lemma generateFingerprint_allHex data fields fallback :
  allChars isLowerHex
    (generateFingerprint dateToString data fields fallback) = true.
Proof.
  unfold generateFingerprint.
  destruct fallback as [text|]; [destruct (_ && _) |];
    apply sha256_hex_allHex.
Qed.
End FingerprintFacts.


(** ** Checks of the platform models against known values *)

Example sha256_constants :
  firstn 3 Sha256.K = [0x428a2f98; 0x71374491; 0xb5c0fbcf]
  /\ List.length Sha256.K = 64%nat
  /\ Sha256.ha Sha256.H0 = 0x6a09e667 /\ Sha256.hh Sha256.H0 = 0x5be0cd19.
Proof. vm_compute. repeat split. Qed.

Example sha256_of_abc :
  Sha256.sha256_hex "abc"
  = "ba7816bf8f01cfea414140de5dae2223b00361a396177a9cb410ff61f20015ad".
Proof. vm_compute. reflexivity. Qed.

Example sha256_of_empty :
  Sha256.sha256_hex ""
  = "e3b0c44298fc1c149afbf4c8996fb92427ae41e4649b934ca495991b7852b855".
Proof. vm_compute. reflexivity. Qed.

Example sha256_of_two_blocks :
  Sha256.sha256_hex
    "The quick brown fox jumps over the lazy dog. The quick brown fox jumps over the lazy dog!!"
  = "8002bd71d02e6de0ee5fb85a228cd95de0701d4cc843369e9aafa7af5d09266e".
Proof. vm_compute. reflexivity. Qed.

(** Day numbers and calendar dates agree from 1900 to 2100. *)
Example calendar_round_trip :
  forallb
    (fun z =>
       let '(y, m, d) := JsDate.civilFromDays z in
       (JsDate.daysFromCivil y m d =? z)
       && (1 <=? m) && (m <=? 12) && (1 <=? d) && (d <=? 31))
    (DateSpec.consecutive (-25567) (Z.to_nat 73414)) = true.
Proof. vm_compute. reflexivity. Qed.

Example epoch_is_day_zero :
  JsDate.civilFromDays 0 = (1970, 1, 1)
  /\ JsDate.daysFromCivil 2026 2 10 * JsDate.msPerDay = 1770681600000.
Proof. split; reflexivity. Qed.

Example regex_backtracks :
  Regex.exec NecoExtractor.semiPattern "see ;K4D70 AB-123; end"
  = Some (Regex.Match 4 ";K4D70 AB-123;" [(2%nat, "AB-123"); (1%nat, "K4D70")]).
Proof. vm_compute. reflexivity. Qed.

Example split_keeps_delimiter :
  ParsingService.splitEmailIntoItems "xAyAz" (Some (Regex.lit "A"))
  = Some ["x"; "Ay"; "Az"].
Proof. vm_compute. reflexivity. Qed.

(** A delimiter with a capture group inserts the captured text. *)
Example split_with_capture_group :
  ParsingService.splitEmailIntoItems "aNECOb"
    (Some (Regex.Grp 1 (Regex.lit "NECO")))
  = Some ["a"; "NECO"; "NECOb"].
Proof. vm_compute. reflexivity. Qed.

Example cage_from_labelled_block :
  NecoExtractor.extractCageFromSow (Some "CAGE___Ref. No.  12345 PN-77X;")
  = Some (NecoExtractor.CageAndPart "12345" "PN-77X")
  /\ NecoExtractor.extractCageFromSow (Some "Cage: 1AB23, Part Number: ZZ-9")
     = Some (NecoExtractor.CageAndPart "1AB23" "ZZ-9")
  /\ NecoExtractor.extractCageFromSow (Some "no vendor data") = None.
Proof. vm_compute. repeat split. Qed.

(** The extractor's totals: [totalLineItems] is the number of line items. *)
Lemma computeTotals_totalLineItems (d : NecoExtractor.NecoExtractedData) :
  NecoExtractor.totalLineItems (NecoExtractor.computeTotals d)
  = Z.of_nat
      (List.length (NecoExtractor.lineItems (NecoExtractor.computeTotals d))).
Proof. reflexivity. Qed.


(** ** The fingerprint ledger *)

Section LedgerFacts.
Import Store FingerprintingService.

Lemma filter_none_matches (user fp : string) (rows : list FingerprintRow) :
  existsb (matchesKey user fp) rows = false ->
  List.filter (matchesKey user fp) rows = [].
Proof.
  induction rows as [|r rows IH]; simpl; [reflexivity |].
  destruct (matchesKey user fp r); simpl; [discriminate | exact IH].
Qed.

Lemma matchesKey_refl user fp oppId a t :
  matchesKey user fp (FpRow user fp oppId a t) = true.
Proof. unfold matchesKey; simpl. now rewrite !String.eqb_refl. Qed.

Lemma orUndefined_nonempty (s : string) :
  s <> "" -> orUndefined (Some s) = Some s.
Proof. destruct s; simpl; congruence. Qed.
End LedgerFacts.


(** ** Updating an existing opportunity *)

Section ProcessorFacts.
Import Store OpportunityProcessorQueue.
Variable newDate : string -> JsDate.Date.
Variable toInteger : JsVal -> option Z.

Lemma stringColumn_absent old : stringColumn old None = Some old.
Proof. reflexivity. Qed.

(** The columns of the row an accepted update returns. *)
Lemma update_returned (o o' : Opportunity) (u : UpdateData) :
  update o u = Returned o' ->
  stringColumn (solicitationNumber o) (setSolicitationNumber u)
    = Some (solicitationNumber o')
  /\ stringColumn (site o) (setSite u) = Some (site o')
  /\ stringColumn (sourceUrl o) (setSourceUrl u) = Some (sourceUrl o')
  /\ dateColumn (closingDate o) (setClosingDate u) = Some (closingDate o')
  /\ dateColumn (deliveryDate o) (setDeliveryDate u)
     = Some (deliveryDate o')
  /\ stringColumn (partNumber o) (setPartNumber u) = Some (partNumber o')
  /\ stringColumn (manufacturer o) (setManufacturer u)
     = Some (manufacturer o')
  /\ stringColumn (description o) (setDescription u)
     = Some (description o')
  /\ stringColumn (nsn o) (setNsn u) = Some (nsn o')
  /\ stringColumn (condition o) (setCondition u) = Some (condition o')
  /\ stringColumn (unit o) (setUnit u) = Some (unit o')
  /\ intColumn (quantity o) (setQuantity u) = Some (quantity o').
Proof.
  unfold update.
  destruct (stringColumn (solicitationNumber o) _); [| discriminate].
  destruct (stringColumn (site o) _); [| discriminate].
  destruct (stringColumn (sourceUrl o) _); [| discriminate].
  destruct (dateColumn (closingDate o) _); [| discriminate].
  destruct (dateColumn (deliveryDate o) _); [| discriminate].
  destruct (stringColumn (partNumber o) _); [| discriminate].
  destruct (stringColumn (manufacturer o) _); [| discriminate].
  destruct (stringColumn (description o) _); [| discriminate].
  destruct (stringColumn (nsn o) _); [| discriminate].
  destruct (stringColumn (condition o) _); [| discriminate].
  destruct (stringColumn (unit o) _); [| discriminate].
  destruct (intColumn (quantity o) _); [| discriminate].
  intros [= <-]. cbn. repeat split; reflexivity.
Qed.

Lemma whenTruthy_string (mapped : gmap string JsVal) field s :
  JsValue.get mapped field = VString s -> s <> "" ->
  whenTruthy mapped field (fun v => v) = Some (VString s).
Proof.
  intros Hget Hs. unfold whenTruthy. rewrite Hget. cbn.
  destruct s; [congruence | reflexivity].
Qed.

Lemma whenTruthy_date (mapped : gmap string JsVal) field :
  JsValue.truthy (JsValue.get mapped field) = true ->
  whenTruthy mapped field (asDate newDate)
  = Some (asDate newDate (JsValue.get mapped field)).
Proof. intros H. unfold whenTruthy. now rewrite H. Qed.
End ProcessorFacts.


(** ** Scraping with retries *)

Module ScrapingFacts.
Import ScrapingService ScrapingSpec.
Local Open Scope list_scope.

#[local] Arguments fetches : simpl never.
#[local] Arguments after : simpl never.
#[local] Arguments started : simpl never.
#[local] Arguments failure : simpl never.
#[local] Arguments succeeded : simpl never.
#[local] Arguments seq : simpl never.

Lemma fetches_app (a b : list Event) : fetches (a ++ b) = fetches a ++ fetches b.
Proof. unfold fetches. apply flat_map_app. Qed.

Lemma fetches_after evs r :
  fetches (snd (after evs r)) = fetches evs ++ fetches (snd r).
Proof. unfold after. cbn [snd]. apply fetches_app. Qed.

Lemma fst_after evs r : fst (after evs r) = fst r.
Proof. reflexivity. Qed.

Lemma fetches_started (attempt : nat) : fetches (started attempt) = [attempt].
Proof. unfold started. destruct (Nat.eqb attempt 1); reflexivity. Qed.

Lemma fetches_failure s msg : fetches (snd (failure s msg)) = [].
Proof. reflexivity. Qed.

Lemma timeout_classified (o : AttemptOutcome) :
  isTransportTimeout o = true ->
  exists e, attemptBody o = inl e /\ classify e = CaughtTimeout.
Proof.
  destruct o as [t b n | e]; [discriminate |]. cbn. intros H.
  exists e. split; [reflexivity |]. unfold classify. now rewrite H.
Qed.

Lemma scrapeWithRetry_all_timeouts (env : Env) :
  (forall n, isTransportTimeout (fetch env n) = true) ->
  forall k attempt,
    (maxRetries env - attempt)%nat = k ->
    status (fst (scrapeWithRetry env attempt)) = statusValue TIMEOUT
    /\ success (fst (scrapeWithRetry env attempt)) = false
    /\ fetches (snd (scrapeWithRetry env attempt))
       = seq attempt (S k).
Proof.
  intros Hall. induction k as [|k IH]; intros attempt Hk;
    destruct (timeout_classified _ (Hall attempt)) as (e & Hbody & Hcls);
    simp scrapeWithRetry; rewrite Hbody; cbn; rewrite Hcls; cbn;
    destruct (lt_dec attempt (maxRetries env)) as [Hlt | Hge]; try lia; cbn;
    rewrite fetches_after, fst_after.
  - rewrite fetches_started. auto.
  - destruct (IH (S attempt) ltac:(lia)) as (Hs & Hok & Hf).
    rewrite fetches_app, fetches_started, Hf. auto.
Qed.

Lemma scrapeWithRetry_fetches_bounded (env : Env) :
  forall k attempt,
    (maxRetries env - attempt)%nat = k ->
    exists n, fetches (snd (scrapeWithRetry env attempt)) = seq attempt (S n)
              /\ (n <= k)%nat.
Proof.
  assert (Hzero : forall attempt r k,
             fetches (snd r) = [] ->
             exists n, fetches (snd (after (started attempt) r))
                       = seq attempt (S n) /\ (n <= k)%nat).
  { intros attempt r k Hr. exists 0%nat.
    rewrite fetches_after, fetches_started, Hr. split; [reflexivity | lia]. }
  assert (Hdone : forall neco, fetches (snd (succeeded neco)) = []).
  { intros [d|]; unfold succeeded; cbn;
      [destruct (NecoExtractor.isCancellation d) |]; reflexivity. }
  induction k as [|k IH]; intros attempt Hk; simp scrapeWithRetry;
    destruct (attemptBody (fetch env attempt)) as [e | neco]; cbn;
    try (apply Hzero, Hdone).
  - destruct (classify e); cbn;
      try (destruct (lt_dec attempt (maxRetries env)); [lia |]; cbn);
      now apply Hzero.
  - assert (Hretry :
        exists n,
          fetches (snd (after (started attempt ++ [Delayed (retryDelay env)])
                              (scrapeWithRetry env (S attempt))))
          = seq attempt (S n) /\ (n <= S k)%nat).
    { destruct (IH (S attempt) ltac:(lia)) as (n & Hn & Hle).
      exists (S n). rewrite fetches_after, fetches_app, fetches_started, Hn.
      split; [reflexivity | lia]. }
    destruct (classify e); cbn;
      try (destruct (lt_dec attempt (maxRetries env)); [| lia]; cbn;
           exact Hretry);
      now apply Hzero.
Qed.

Lemma scrapeWithRetry_error_page (env : Env) (attempt : nat)
    (title body : string) (neco : option NecoExtractor.NecoExtractedData) :
  fetch env attempt = Page title body neco ->
  isErrorPage title body = true ->
  scrapeWithRetry env attempt
  = after (started attempt)
          (failure NECO_ERROR (errorMessage necoErrorObject)).
Proof.
  intros Hfetch Hpage. simp scrapeWithRetry.
  rewrite Hfetch. cbn. rewrite Hpage. reflexivity.
Qed.
End ScrapingFacts.


(** ** The scraping queue *)

Module QueueFacts.
Import ScrapingService ScrapingProcessorQueue QueueSpec.
Local Open Scope list_scope.

Lemma filter_twice {A : Type} (f g : A -> bool) (l : list A) :
  List.filter f (List.filter g l) = List.filter (fun x => g x && f x) l.
Proof.
  induction l as [|x l IH]; [reflexivity |]. cbn.
  destruct (g x); cbn; [destruct (f x) |]; now rewrite IH.
Qed.

Lemma fold_remove (removed : list Job) (q : Queue) :
  fold_left remove removed q
  = ScrapingQueue (List.filter (notRemovedBy removed) (waiting q))
                  (List.filter (notRemovedBy removed) (delayed q)).
Proof.
  revert q. induction removed as [|r removed IH]; intros q.
  - cbn. destruct q as [w d]. cbn.
    f_equal; symmetry; apply forallb_filter_id;
      apply forallb_forall; intros; reflexivity.
  - cbn [fold_left]. rewrite IH. unfold remove. cbn [waiting delayed].
    f_equal; rewrite filter_twice; reflexivity.
Qed.

Lemma notRemovedBy_member (removed : list Job) (j : Job) :
  In j removed -> notRemovedBy removed j = false.
Proof.
  intros Hin. unfold notRemovedBy.
  apply not_true_is_false. rewrite forallb_forall. intros H.
  specialize (H j Hin). rewrite Z.eqb_refl in H. discriminate.
Qed.

Lemma filter_all_removed (removed jobs : list Job) :
  (forall j, In j jobs -> In j removed) ->
  List.filter (notRemovedBy removed) jobs = [].
Proof.
  induction jobs as [|j jobs IH]; intros Hsub; [reflexivity |].
  cbn. rewrite notRemovedBy_member by (apply Hsub; now left).
  apply IH. intros j' Hj'. apply Hsub. now right.
Qed.

Lemma range_all (jobs : list Job) :
  Z.of_nat (List.length jobs) <= 100000 -> range 0 99999 jobs = jobs.
Proof.
  intros Hlen. unfold range. cbn [skipn Z.to_nat].
  apply firstn_all2. lia.
Qed.

Lemma drainQueue_spec (q : Queue) :
  drainQueue q
  = let removed := range 0 99999 (waiting q) ++ range 0 99999 (delayed q) in
    ScrapingQueue (List.filter (notRemovedBy removed) (waiting q))
                  (List.filter (notRemovedBy removed) (delayed q)).
Proof. unfold drainQueue, getWaiting, getDelayed. apply fold_remove. Qed.

Lemma drainQueue_empties (q : Queue) :
  Z.of_nat (List.length (waiting q)) <= 100000 ->
  Z.of_nat (List.length (delayed q)) <= 100000 ->
  drainQueue q = ScrapingQueue [] [].
Proof.
  intros Hw Hd. rewrite drainQueue_spec. cbv zeta.
  rewrite (range_all _ Hw), (range_all _ Hd).
  f_equal; apply filter_all_removed; intros j Hj; apply in_or_app; auto.
Qed.

Lemma handleScraping_scrapes (env : Env) (found : option Selected)
    (today : Z) (q : Queue) :
  reachesFetch env found today = true ->
  handleScraping env found today q
  = let '(result, events) := scrapeWithRetry env 1 in
    let children :=
      if success result then
        match data result with
        | Some necoData =>
            if 1 <? NecoExtractor.totalLineItems necoData
            then [ChildrenRequested] else []
        | None => []
        end
      else [] in
    if String.eqb (ScrapingService.status result) (statusValue NECO_ERROR)
    then (result, drainQueue q,
          map Scraping events ++ children ++ [QueueDrained])
    else (result, q, map Scraping events ++ children ++ [PolitenessDelay]).
Proof.
  unfold reachesFetch, handleScraping.
  destruct found as [opp|]; [| discriminate].
  rewrite !andb_true_iff, !negb_true_iff.
  intros ((((((Hdel & Hst) & Hclose) & Hweb) & Hurl) & Hen) & Hauth).
  destruct (deletedAt opp); [discriminate |].
  rewrite Hst, Hclose. cbn [orb].
  unfold scrapeOpportunityAuto, scrapeOpportunity.
  rewrite Hweb. destruct (sourceUrlOf env) as [url|]; [| discriminate].
  apply negb_true_iff in Hurl. rewrite Hurl, Hen, Hauth. reflexivity.
Qed.

Lemma scrapingEvents_app a b :
  scrapingEvents (a ++ b) = scrapingEvents a ++ scrapingEvents b.
Proof. apply flat_map_app. Qed.

Lemma scrapingEvents_map evs : scrapingEvents (map Scraping evs) = evs.
Proof.
  unfold scrapingEvents.
  induction evs as [|e evs IH]; [reflexivity |]. cbn. now rewrite IH.
Qed.

Lemma sampleJobs_length (m : nat) :
  List.length (map sampleJob (seq 0 m)) = m.
Proof. now rewrite length_map, length_seq. Qed.

Lemma sampleJob_fresh (m : nat) :
  ~ In (jobId (sampleJob m)) (map jobId (map sampleJob (seq 0 m))).
Proof.
  rewrite map_map. intros Hin. apply in_map_iff in Hin.
  destruct Hin as (k & Hk & Hseq). cbn in Hk.
  apply Nat2Z.inj in Hk. apply in_seq in Hseq. subst k.
  destruct Hseq as [_ Hlt]. exact (Nat.lt_irrefl _ Hlt).
Qed.

Lemma sampleJobs_succ :
  map sampleJob (seq 0 (Z.to_nat 100001))
  = map sampleJob (seq 0 (Z.to_nat 100000))
      ++ [sampleJob (Z.to_nat 100000)].
Proof.
  change 100001 with (Z.succ 100000).
  rewrite Z2Nat.inj_succ by discriminate.
  now rewrite seq_S, map_app.
Qed.

Lemma notRemovedBy_fresh (removed : list Job) (j : Job) :
  ~ In (jobId j) (map jobId removed) -> notRemovedBy removed j = true.
Proof.
  intros Hfresh. unfold notRemovedBy. apply forallb_forall.
  intros r Hr. apply negb_true_iff, Z.eqb_neq. intros Heq.
  apply Hfresh. rewrite Heq. now apply in_map.
Qed.

Lemma drainQueue_leaves_last (jobs : list Job) (extra : Job) :
  List.length jobs = Z.to_nat 100000 ->
  ~ In (jobId extra) (map jobId jobs) ->
  drainQueue (ScrapingQueue (jobs ++ [extra]) [])
  = ScrapingQueue [extra] [].
Proof.
  intros Hlen Hfresh. rewrite drainQueue_spec. cbv zeta.
  cbn [waiting delayed].
  assert (Hrange : range 0 99999 (jobs ++ [extra]) = jobs).
  { unfold range. change (99999 + 1 - 0) with 100000.
    change (Z.to_nat 0) with 0%nat. rewrite skipn_O.
    rewrite <- Hlen, firstn_app, firstn_all, Nat.sub_diag.
    cbn [firstn]. apply app_nil_r. }
  rewrite Hrange. replace (range 0 99999 []) with (@nil Job) by reflexivity.
  rewrite app_nil_r, List.filter_app.
  rewrite (filter_all_removed jobs jobs) by auto.
  cbn [List.filter app]. now rewrite notRemovedBy_fresh.
Qed.
End QueueFacts.


(** ** Child opportunities *)

Module ChildFacts.
Import Store NecoExtractor ChildOpportunitiesService ChildSpec.
Local Open Scope list_scope.

Lemma extends_refl db : extends db db.
Proof. exists [], []. now rewrite !app_nil_r. Qed.

Lemma extends_trans a b c : extends a b -> extends b c -> extends a c.
Proof.
  intros (ws1 & n1 & Hw1 & Hc1 & Ho1) (ws2 & n2 & Hw2 & Hc2 & Ho2).
  exists (ws1 ++ ws2), (n1 ++ n2).
  rewrite Hw2, Hw1, Ho2, Ho1, <- !app_assoc, forallb_app, Hc1, Hc2.
  auto.
Qed.

Lemma createOpportunity_extends db mk out db' :
  createOpportunity db mk = (out, db') ->
  extends db db' /\ (forall e, out = Raised e -> db' = db).
Proof.
  unfold createOpportunity.
  destruct (existsb _ _); intros [= <- <-].
  - split; [apply extends_refl | reflexivity].
  - split; [| discriminate].
    eexists [_], [_]. cbn. auto.
Qed.

Lemma recordFingerprint_extends db user oppId fp out db' :
  FingerprintingService.recordFingerprint db user oppId fp = (out, db') ->
  extends db db' /\ (forall e, out = Raised e -> db' = db).
Proof.
  unfold FingerprintingService.recordFingerprint.
  destruct (existsb _ _); intros [= <- <-].
  - split; [apply extends_refl | reflexivity].
  - split; [| discriminate].
    eexists [_], []. cbn. rewrite app_nil_r. auto.
Qed.

(** One turn of the loop either leaves the store and the counter alone or
    appends rows and counts one more child. *)
Lemma createChild_step parent necoData c db li out db' :
  createChild parent necoData (Returned c, db) li = (out, db') ->
  extends db db'
  /\ (forall c', out = Returned c' ->
                 (c' = c /\ db' = db) \/ c' = S c).
Proof.
  unfold createChild.
  destruct (FingerprintingService.exists_ _).
  - intros [= <- <-]. split; [apply extends_refl | intros c' [= <-]; auto].
  - destruct (createOpportunity db _) as [[child | e] db1] eqn:Hcreate.
    + apply createOpportunity_extends in Hcreate as [Hext1 _].
      destruct (FingerprintingService.recordFingerprint db1 _ _ _)
        as [[u | e] db2] eqn:Hrec;
        apply recordFingerprint_extends in Hrec as [Hext2 _];
        intros [= <- <-].
      * split; [eapply extends_trans; eassumption |].
        intros c' [= <-]. auto.
      * split; [eapply extends_trans; eassumption | discriminate].
    + apply createOpportunity_extends in Hcreate as [Hext1 _].
      intros [= <- <-]. split; [assumption | discriminate].
Qed.

Lemma createChild_raised parent necoData e db items :
  fold_left (createChild parent necoData) items (Raised e, db)
  = (Raised e, db).
Proof. induction items as [|li items IH]; [reflexivity | exact IH]. Qed.

Lemma createChild_loop parent necoData items :
  forall c db out db',
    fold_left (createChild parent necoData) items (Returned c, db)
    = (out, db') ->
    extends db db'
    /\ (forall c', out = Returned c' ->
                   (c <= c')%nat /\ (c' = c -> db' = db)).
Proof.
  induction items as [|li items IH]; intros c db out db'.
  - cbn. intros [= <- <-]. split; [apply extends_refl |].
    intros c' [= <-]. auto.
  - cbn [fold_left].
    destruct (createChild parent necoData (Returned c, db) li)
      as [[c1 | e] db1] eqn:Hstep.
    + apply createChild_step in Hstep as [Hext1 Hc1].
      intros Hrest. apply IH in Hrest as [Hext2 Hc2].
      split; [eapply extends_trans; eassumption |].
      intros c' ->. destruct (Hc2 c' eq_refl) as [Hle Hsame].
      destruct (Hc1 c1 eq_refl) as [[-> ->] | ->].
      * auto.
      * split; [lia | intros Heq; exfalso; lia].
    + apply createChild_step in Hstep as [Hext1 _].
      rewrite createChild_raised. intros [= <- <-].
      split; [assumption | discriminate].
Qed.

Lemma find_app_some {A : Type} (f : A -> bool) (l l' : list A) (x : A) :
  List.find f l = Some x -> List.find f (l ++ l') = Some x.
Proof.
  induction l as [|y l IH]; [discriminate |]. cbn.
  destruct (f y); [auto | exact IH].
Qed.

Lemma findUnique_extends db db' parentId parent :
  extends db db' ->
  findUnique db parentId = Some parent ->
  findUnique db' parentId = Some parent.
Proof.
  intros (ws & new & _ & _ & Hopps). unfold findUnique. rewrite Hopps.
  apply find_app_some.
Qed.

Lemma find_updated (pid : string) (n : nat) (l : list Opportunity) parent :
  List.find (fun o => String.eqb (id o) pid) l = Some parent ->
  List.find (fun o => String.eqb (id o) pid)
    (map (fun o => if String.eqb (id o) pid then withChildrenCount o n else o)
         l)
  = Some (withChildrenCount parent n).
Proof.
  induction l as [|o l IH]; [discriminate |]. cbn.
  destruct (String.eqb (id o) pid) eqn:Hid.
  - intros [= ->]. cbn. now rewrite Hid.
  - intros H. rewrite Hid. auto.
Qed.

(** When the guard fails the call creates nothing and writes nothing. *)
Lemma createChildren_guard db parentId necoData :
  totalLineItems necoData = Z.of_nat (List.length (lineItems necoData)) ->
  ~ mayCreateChildren db parentId necoData ->
  createChildrenFromScraping db parentId necoData = (Returned 0%nat, db).
Proof.
  intros Htotal Hguard. unfold createChildrenFromScraping.
  destruct (List.length (lineItems necoData) <=? 1)%nat eqn:Hlen;
    [reflexivity |].
  apply Nat.leb_gt in Hlen.
  destruct (findUnique db parentId) as [parent|] eqn:Hfind; [| reflexivity].
  destruct (isFalsy (parentOpportunityId parent)) eqn:Hpar; [| reflexivity].
  cbn [negb].
  destruct (0 <? childrenCount parent)%nat eqn:Hcount; [reflexivity |].
  apply Nat.ltb_ge in Hcount.
  exfalso. apply Hguard. split; [lia |].
  exists parent. split; [assumption |]. split; [assumption | lia].
Qed.

(** The writes of a call: those of the loop, none of them to a
    [childrenCount], then at most one write of the count. *)
Lemma createChildren_writes db parentId necoData out db' :
  createChildrenFromScraping db parentId necoData = (out, db') ->
  exists loopWrites,
    writes db' = writes db ++ loopWrites ++ countWriteOf parentId out
    /\ forallb (fun w => negb (isCountWrite w)) loopWrites = true.
Proof.
  assert (Hnone : forall n, (out, db') = (Returned n, db) -> n = 0%nat ->
            exists loopWrites,
              writes db' = writes db ++ loopWrites ++ countWriteOf parentId out
              /\ forallb (fun w => negb (isCountWrite w)) loopWrites = true).
  { intros n [= -> ->] ->. exists []. cbn. now rewrite app_nil_r. }
  unfold createChildrenFromScraping.
  destruct (List.length (lineItems necoData) <=? 1)%nat;
    [intros H; symmetry in H; eauto |].
  destruct (findUnique db parentId) as [parent|] eqn:Hfind;
    [| intros H; symmetry in H; eauto].
  destruct (negb (isFalsy (parentOpportunityId parent)));
    [intros H; symmetry in H; eauto |].
  destruct (0 <? childrenCount parent)%nat;
    [intros H; symmetry in H; eauto |].
  destruct (fold_left _ _ _) as [[created | e] db1] eqn:Hloop.
  - apply createChild_loop in Hloop as [(ws & new & Hw & Hc & Ho) _].
    destruct (0 <? created)%nat eqn:Hpos.
    + unfold updateChildrenCount.
      destruct (findUnique db1 parentId).
      * intros [= <- <-]. exists ws. unfold countWriteOf. rewrite Hpos.
        cbn [writes]. rewrite Hw, <- app_assoc. auto.
      * intros [= <- <-]. exists ws. unfold countWriteOf.
        now rewrite app_nil_r.
    + intros [= <- <-]. exists ws. unfold countWriteOf.
      rewrite Hpos, app_nil_r. auto.
  - apply createChild_loop in Hloop as [(ws & new & Hw & Hc & Ho) _].
    intros [= <- <-]. exists ws. unfold countWriteOf.
    rewrite app_nil_r. auto.
Qed.

(** A call that returns leaves a store on which the next call creates
    nothing. *)
Lemma createChildren_twice db parentId necoData n db' :
  createChildrenFromScraping db parentId necoData = (Returned n, db') ->
  createChildrenFromScraping db' parentId necoData = (Returned 0%nat, db').
Proof.
  unfold createChildrenFromScraping at 1.
  destruct (List.length (lineItems necoData) <=? 1)%nat eqn:Hlen.
  { intros [= <- <-]. unfold createChildrenFromScraping. now rewrite Hlen. }
  destruct (findUnique db parentId) as [parent|] eqn:Hfind.
  2: { intros [= <- <-]. unfold createChildrenFromScraping.
       now rewrite Hlen, Hfind. }
  destruct (negb (isFalsy (parentOpportunityId parent))) eqn:Hpar.
  { intros [= <- <-]. unfold createChildrenFromScraping.
    now rewrite Hlen, Hfind, Hpar. }
  destruct (0 <? childrenCount parent)%nat eqn:Hcount.
  { intros [= <- <-]. unfold createChildrenFromScraping.
    now rewrite Hlen, Hfind, Hpar, Hcount. }
  destruct (fold_left _ _ _) as [[created | e] db1] eqn:Hloop;
    [| discriminate].
  pose proof Hloop as Hloop'.
  apply createChild_loop in Hloop' as [Hext Hcount'].
  destruct (Hcount' created eq_refl) as [_ Hsame].
  destruct (0 <? created)%nat eqn:Hpos.
  - unfold updateChildrenCount.
    rewrite (findUnique_extends _ _ _ _ Hext Hfind).
    intros [= <- <-]. unfold createChildrenFromScraping. rewrite Hlen.
    unfold findUnique at 1. cbn [opportunities].
    rewrite (find_updated parentId created _ parent
               (findUnique_extends _ _ _ _ Hext Hfind)).
    cbn [parentOpportunityId childrenCount withChildrenCount].
    rewrite Hpar, Hpos. reflexivity.
  - intros [= <- <-]. apply Nat.ltb_ge in Hpos.
    rewrite (Hsame ltac:(lia)).
    unfold createChildrenFromScraping.
    rewrite Hlen, Hfind, Hpar, Hcount.
    rewrite (Hsame ltac:(lia)) in Hloop. rewrite Hloop.
    replace created with 0%nat by lia. reflexivity.
Qed.
End ChildFacts.


(** ** Splitting an email *)

Module SplitFacts.
Import Regex ParsingService SplitSpec.

Lemma append_nil_r (s : string) : (s ++ "")%string = s.
Proof.
  induction s as [|c s IH]; [reflexivity |].
  change (String c s ++ "")%string with (String c (s ++ "")%string).
  now rewrite IH.
Qed.

Lemma append_assoc (a b c : string) :
  ((a ++ b) ++ c)%string = (a ++ (b ++ c))%string.
Proof.
  induction a as [|x a IH]; [reflexivity |].
  change (String x ((a ++ b) ++ c)%string = String x (a ++ (b ++ c))%string).
  now rewrite IH.
Qed.

Lemma captures_none (sep : re) (m : MatchResult) :
  groupCount sep = 0%nat -> captures sep m = [].
Proof. intros H. unfold captures. now rewrite H. Qed.

Lemma startsWithText_app (a b : string) :
  startsWithText a = true -> startsWithText (a ++ b) = true.
Proof. destruct a; [discriminate | auto]. Qed.

(** The raw fragments: their concatenation is the text scanned, and every
    fragment after the first starts where the separator matched. *)
Lemma splitFrom_parts (sep : re) :
  groupCount sep = 0%nat ->
  forall text q frag,
    exists first rest,
      splitFrom sep q text frag = map Some (first :: rest)
      /\ JsString.concat (first :: rest) = (frag ++ text)%string
      /\ (startsWithText frag = true -> startsWithText first = true)
      /\ (cutsAtText sep q text = true ->
          forallb startsWithText rest = true).
Proof.
  intros Hgroups. induction text as [|c t IH]; intros q frag.
  - exists frag, []. cbn. rewrite append_nil_r. auto.
  - cbn [splitFrom cutsAtText].
    destruct (if JsString.isEmpty frag then None
              else matchHere sep q (String c t)) as [m|] eqn:Hcut.
    + destruct (IH (S q) (String c EmptyString))
        as (first & rest & Hsplit & Hconcat & Hfirst & Hrest).
      exists frag, (first :: rest).
      rewrite captures_none by assumption. rewrite Hsplit.
      split; [reflexivity |]. split.
      * change (JsString.concat (frag :: first :: rest))
          with (frag ++ JsString.concat (first :: rest))%string.
        now rewrite Hconcat.
      * split; [auto |].
        destruct (JsString.isEmpty frag); [discriminate |].
        rewrite Hcut. intros Hok. apply andb_true_iff in Hok as [Hc Ht].
        cbn [forallb]. rewrite (Hrest Ht), (Hfirst Hc). reflexivity.
    + destruct (IH (S q) (frag ++ String c EmptyString)%string)
        as (first & rest & Hsplit & Hconcat & Hfirst & Hrest).
      exists first, rest. rewrite Hsplit. split; [reflexivity |].
      split; [now rewrite Hconcat, append_assoc |].
      split.
      * intros Hfrag. apply Hfirst. now apply startsWithText_app.
      * intros Hok. apply andb_true_iff in Hok as [_ Ht]. auto.
Qed.

Lemma trimStart_cases (s : string) :
  JsString.trimStart s = ""
  \/ exists c t, JsString.trimStart s = String c t
                 /\ JsString.isWhiteSpace c = false.
Proof.
  induction s as [|c t IH]; [now left |]. cbn.
  destruct (JsString.isWhiteSpace c) eqn:Hc; [exact IH |].
  right. now exists c, t.
Qed.

Lemma blank_trimStart (s : string) :
  JsString.isEmpty (JsString.trim s) = true -> JsString.trimStart s = "".
Proof.
  unfold JsString.trim.
  destruct (trimStart_cases s) as [-> | (c & t & -> & Hc)]; [reflexivity |].
  cbn. rewrite Hc. discriminate.
Qed.

Lemma trimStart_blank_prefix (w s : string) :
  JsString.trimStart w = "" ->
  JsString.trimStart (w ++ s) = JsString.trimStart s.
Proof.
  induction w as [|c w IH]; [reflexivity |].
  change (String c w ++ s)%string with (String c (w ++ s)%string).
  cbn [JsString.trimStart].
  destruct (JsString.isWhiteSpace c); [exact IH | discriminate].
Qed.

Lemma trim_blank_prefix (w s : string) :
  JsString.isEmpty (JsString.trim w) = true ->
  JsString.trim (w ++ s) = JsString.trim s.
Proof.
  intros Hw. unfold JsString.trim.
  now rewrite (trimStart_blank_prefix w s (blank_trimStart w Hw)).
Qed.

Lemma startsWithText_nonBlank (s : string) :
  startsWithText s = true -> nonBlank s = true.
Proof.
  destruct s as [|c t]; [discriminate |]. cbn. intros Hc.
  apply negb_true_iff in Hc. unfold nonBlank, JsString.trim. cbn.
  rewrite Hc. cbn. now rewrite Hc.
Qed.

Lemma filter_all_nonBlank (l : list string) :
  forallb startsWithText l = true -> List.filter nonBlank l = l.
Proof.
  intros H. apply forallb_filter_id. apply forallb_forall.
  intros x Hx. apply startsWithText_nonBlank.
  rewrite forallb_forall in H. auto.
Qed.

Lemma filterNonBlank_defined (parts : list string) :
  filterNonBlank (map Some parts) = Some (List.filter nonBlank parts).
Proof.
  induction parts as [|p parts IH]; [reflexivity |]. cbn.
  rewrite IH. unfold nonBlank.
  now destruct (JsString.isEmpty (JsString.trim p)).
Qed.

Lemma split_parts (sep : re) (body : string) :
  groupCount sep = 0%nat ->
  exists parts,
    split sep body = map Some parts
    /\ JsString.concat parts = body
    /\ (delimiterCutsAtText sep body = true ->
        JsString.trim (JsString.concat (List.filter nonBlank parts))
        = JsString.trim body).
Proof.
  intros Hgroups. destruct body as [|c t].
  - cbn. destruct (matchHere sep 0 ""); [exists [] | exists [""]]; auto.
  - unfold split, delimiterCutsAtText. cbn [splitFrom JsString.isEmpty].
    change ("" ++ String c "")%string with (String c "").
    destruct (splitFrom_parts sep Hgroups t 1 (String c EmptyString))
      as (first & rest & Hsplit & Hconcat & _ & Hrest).
    change (String c "" ++ t)%string with (String c t) in Hconcat.
    exists (first :: rest). rewrite Hsplit.
    split; [reflexivity |]. split; [exact Hconcat |].
    intros Hok. cbn [List.filter].
    rewrite (filter_all_nonBlank rest (Hrest Hok)).
    destruct (nonBlank first) eqn:Hfirst.
    + now rewrite Hconcat.
    + rewrite <- Hconcat. symmetry.
      change (JsString.concat (first :: rest))
        with (first ++ JsString.concat rest)%string.
      apply trim_blank_prefix.
      unfold nonBlank in Hfirst. now apply negb_false_iff in Hfirst.
Qed.
End SplitFacts.


(** ** Dates *)

Module DateFacts.
Import JsDate ParsingService DateSpec.

Lemma TimeClip_midnight (days : Z) : isMidnightUTC (TimeClip (days * msPerDay)).
Proof.
  unfold TimeClip. destruct (_ <=? _); cbn; [| exact I].
  apply Z.mod_mul. discriminate.
Qed.

Lemma UTC_midnight (y m d : Z) : isMidnightUTC (JsDate.UTC y m d).
Proof. unfold JsDate.UTC. apply TimeClip_midnight. Qed.

Section AnyPlatform.
Variable platform : string -> Date.
Variable tz : Z.

Lemma toUTCDate_midnight month day year d :
  toUTCDate platform tz month day year = Some d -> isMidnightUTC d.
Proof.
  unfold toUTCDate. destruct (platform _); [discriminate |].
  intros [= <-]. apply UTC_midnight.
Qed.

Lemma parseDateFallback_midnight cleaned d :
  parseDateFallback platform tz cleaned = Some d -> isMidnightUTC d.
Proof.
  unfold parseDateFallback. destruct (platform _); [discriminate |].
  intros [= <-]. apply UTC_midnight.
Qed.

(** Whatever the platform parses, a date that is not at midnight UTC
    comes out of the ISO branch, and is what the platform made of the
    text. *)
Lemma parseDate_midnight_or_iso dateStr d :
  parseDate platform tz dateStr = Some d ->
  isMidnightUTC d
  \/ (Regex.exec ddMmmYyPattern (JsString.trim dateStr) = None
      /\ Regex.exec monthDayYearPattern (JsString.trim dateStr) = None
      /\ Regex.exec isoDatePattern (JsString.trim dateStr) <> None
      /\ platform (JsString.trim dateStr
                   ++ (if JsString.includes (JsString.trim dateStr) "T"
                       then "" else "T00:00:00Z")) = d).
Proof.
  unfold parseDate. cbv zeta.
  destruct (Regex.exec ddMmmYyPattern _) as [m1|];
    [intros H; left; eapply toUTCDate_midnight; eassumption |].
  destruct (Regex.exec monthDayYearPattern _) as [m2|];
    [intros H; left; eapply toUTCDate_midnight; eassumption |].
  unfold parseDateIso.
  destruct (Regex.exec isoDatePattern _) as [m3|];
    [| intros H; left; eapply parseDateFallback_midnight; eassumption].
  destruct (platform (_ ++ _)) as [|t] eqn:Hp.
  - intros H; left; eapply parseDateFallback_midnight; eassumption.
  - intros [= <-]. right. repeat split; congruence.
Qed.
End AnyPlatform.

Lemma localFields_of_wall (tz w : Z) :
  localFields tz (w - tz * msPerMinute) = localFields 0 w.
Proof.
  unfold localFields. now rewrite Z.sub_add, Z.mul_0_l, Z.add_0_r.
Qed.

Lemma TimeClip_in_range (t : Z) :
  Z.abs t <= 8640000000000000 -> TimeClip t = Time t.
Proof. intros H. unfold TimeClip. now apply Z.leb_le in H as ->. Qed.

Lemma toUTCDateLocal_sound (tz : Z) month day year r :
  Z.abs tz <= 1440 ->
  toUTCDateLocal month day year = Some r ->
  toUTCDate (newDate tz) tz month day year = r.
Proof.
  intros Htz. unfold toUTCDateLocal, toUTCDate, newDate.
  destruct (parseString _) as [[t | w]|]; cbn [toDate];
    [discriminate | | now intros [= <-]].
  destruct (Z.abs w <=? 8639999913600000) eqn:Hw; [| discriminate].
  apply Z.leb_le in Hw. intros [= <-].
  rewrite TimeClip_in_range by (unfold msPerMinute; lia).
  unfold utcMidnightOfLocalDate, getFullYear, getMonth, getDate.
  now rewrite localFields_of_wall.
Qed.

Lemma parseDateIsoLocal_sound (tz : Z) cleaned r :
  parseDateIsoLocal cleaned = Some r ->
  parseDateIso (newDate tz) tz cleaned = r.
Proof.
  unfold parseDateIsoLocal, parseDateIso, newDate.
  destruct (Regex.exec isoDatePattern cleaned); [| discriminate].
  destruct (parseString _) as [[t | w]|]; try discriminate.
  destruct (Z.abs t <=? 8640000000000000) eqn:Ht; [| discriminate].
  apply Z.leb_le in Ht. intros [= <-]. cbn [toDate].
  now rewrite TimeClip_in_range.
Qed.

Lemma parseDateLocal_sound (tz : Z) dateStr r :
  Z.abs tz <= 1440 ->
  parseDateLocal dateStr = Some r ->
  parseDate (newDate tz) tz dateStr = r.
Proof.
  intros Htz. unfold parseDateLocal, parseDate. cbv zeta.
  destruct (Regex.exec ddMmmYyPattern _);
    [now apply toUTCDateLocal_sound |].
  destruct (Regex.exec monthDayYearPattern _);
    [now apply toUTCDateLocal_sound |].
  apply parseDateIsoLocal_sound.
Qed.

Lemma pivotCheck_all : forallb pivotCheck (map Z.of_nat (seq 0 100)) = true.
Proof. vm_compute. reflexivity. Qed.

Lemma pivotCheck_sound (tz yy : Z) :
  Z.abs tz <= 1440 -> pivotCheck yy = true ->
  parseDate (newDate tz) tz ("10-FEB-" ++ twoDigits yy)
  = Some (Time (daysFromCivil (pivotYear yy) 2 10 * msPerDay)).
Proof.
  intros Htz. unfold pivotCheck.
  destruct (parseDateLocal _) as [[[|t]|]|] eqn:Hlocal; try discriminate.
  intros Heq. apply Z.eqb_eq in Heq. subst t.
  exact (parseDateLocal_sound tz _ _ Htz Hlocal).
Qed.

Lemma dayMonthCheck_all :
  forallb (fun mon => forallb (dayMonthCheck mon) (map Z.of_nat (seq 1 28)))
          monthTokens = true.
Proof. vm_compute. reflexivity. Qed.

Lemma dayMonthCheck_sound (tz : Z) (mon : string * Z) (day : Z) :
  Z.abs tz <= 1440 -> dayMonthCheck mon day = true ->
  parseDate (newDate tz) tz (twoDigits day ++ "-" ++ fst mon ++ "-26")
  = Some (Time (daysFromCivil 2026 (snd mon) day * msPerDay)).
Proof.
  intros Htz. unfold dayMonthCheck.
  destruct (parseDateLocal _) as [[[|t]|]|] eqn:Hlocal; try discriminate.
  intros Heq. apply Z.eqb_eq in Heq. subst t.
  exact (parseDateLocal_sound tz _ _ Htz Hlocal).
Qed.
End DateFacts.


(* ===================================================================== *)
(** * The claims                                                          *)
(* ===================================================================== *)




(** C2.  [createChildrenFromScraping] changes the store only when the
    document has more than one line item ([totalLineItems > 1], the total
    being the number of line items as the extractor sets it), the record
    exists, has no parent and has [childrenCount = 0]; otherwise it returns
    0 and leaves the store untouched, in particular on a parent whose
    [childrenCount] is already positive.  The writes of a call are those
    of the loop, none of which touches a [childrenCount], followed by at
    most one write of the count; and after a call that returned, a second
    call on the resulting store creates nothing. *)
Theorem createChildrenFromScraping_is_idempotent
    (db : Store.Db) (parentId : string)
    (necoData : NecoExtractor.NecoExtractedData) :
  NecoExtractor.totalLineItems necoData
  = Z.of_nat (List.length (NecoExtractor.lineItems necoData)) ->
  let '(outcome, db') :=
    ChildOpportunitiesService.createChildrenFromScraping db parentId necoData in
  (~ ChildSpec.mayCreateChildren db parentId necoData ->
   outcome = Store.Returned 0%nat /\ db' = db)
  /\ (forall parent,
         Store.findUnique db parentId = Some parent ->
         (0 < Store.childrenCount parent)%nat ->
         outcome = Store.Returned 0%nat /\ db' = db)
  /\ (exists loopWrites,
         Store.writes db'
         = (Store.writes db ++ loopWrites
              ++ ChildSpec.countWriteOf parentId outcome)%list
         /\ forallb (fun w => negb (ChildSpec.isCountWrite w)) loopWrites
            = true)
  /\ (forall n,
         outcome = Store.Returned n ->
         ChildOpportunitiesService.createChildrenFromScraping db' parentId
           necoData = (Store.Returned 0%nat, db')).
Proof.
  intros Htotal.
  destruct (ChildOpportunitiesService.createChildrenFromScraping db parentId
              necoData) as [outcome db'] eqn:Hcall.
  split; [| split; [| split]].
  - intros Hguard.
    rewrite (ChildFacts.createChildren_guard _ _ _ Htotal Hguard) in Hcall.
    now injection Hcall as <- <-.
  - intros parent Hfind Hcount.
    assert (Hguard : ~ ChildSpec.mayCreateChildren db parentId necoData).
    { intros (_ & parent' & Hfind' & _ & Hzero).
      rewrite Hfind in Hfind'. injection Hfind' as <-. lia. }
    rewrite (ChildFacts.createChildren_guard _ _ _ Htotal Hguard) in Hcall.
    now injection Hcall as <- <-.
  - exact (ChildFacts.createChildren_writes _ _ _ _ _ Hcall).
  - intros n ->. exact (ChildFacts.createChildren_twice _ _ _ _ _ Hcall).
Qed.

(** C2 on a parent with a two-item document: two children are created. *)
Lemma createChildrenFromScraping_is_idempotent_witness :
  fst (ChildOpportunitiesService.createChildrenFromScraping Samples.db "opp_1"
         Samples.document) = Store.Returned 2%nat
  /\ let '(outcome, db') :=
       ChildOpportunitiesService.createChildrenFromScraping Samples.db "opp_1"
         Samples.document in
     (~ ChildSpec.mayCreateChildren Samples.db "opp_1" Samples.document ->
      outcome = Store.Returned 0%nat /\ db' = Samples.db)
     /\ (forall parent,
            Store.findUnique Samples.db "opp_1" = Some parent ->
            (0 < Store.childrenCount parent)%nat ->
            outcome = Store.Returned 0%nat /\ db' = Samples.db)
     /\ (exists loopWrites,
            Store.writes db'
            = (Store.writes Samples.db ++ loopWrites
                 ++ ChildSpec.countWriteOf "opp_1" outcome)%list
            /\ forallb (fun w => negb (ChildSpec.isCountWrite w)) loopWrites
               = true)
     /\ (forall n,
            outcome = Store.Returned n ->
            ChildOpportunitiesService.createChildrenFromScraping db' "opp_1"
              Samples.document = (Store.Returned 0%nat, db')).
Proof.
  split; [vm_compute; reflexivity |].
  apply (createChildrenFromScraping_is_idempotent Samples.db "opp_1"
           Samples.document).
  reflexivity.
Defined.

(** C3.  When the existing record has [scrapingStatus = "success"],
    re-processing an email leaves its quantity, unit, partNumber,
    manufacturer, description, nsn and condition as they were; an accepted
    update still sets solicitationNumber, site and sourceUrl to the mapped
    non-empty strings and closingDate and deliveryDate to the mapped
    dates. *)
Theorem scraped_fields_survive_email_reprocessing
    (newDate : string -> JsDate.Date) (toInteger : JsVal -> option Z)
    (existingOpportunity : Store.Opportunity)
    (mapped data : gmap string JsVal) :
  Store.scrapingStatus existingOpportunity = Some "success" ->
  let after :=
    OpportunityProcessorQueue.updateExisting newDate toInteger
      existingOpportunity mapped data in
  (Store.quantity after = Store.quantity existingOpportunity
   /\ Store.unit after = Store.unit existingOpportunity
   /\ Store.partNumber after = Store.partNumber existingOpportunity
   /\ Store.manufacturer after = Store.manufacturer existingOpportunity
   /\ Store.description after = Store.description existingOpportunity
   /\ Store.nsn after = Store.nsn existingOpportunity
   /\ Store.condition after = Store.condition existingOpportunity)
  /\ (forall updated,
         OpportunityProcessorQueue.update existingOpportunity
           (OpportunityProcessorQueue.buildUpdateData newDate toInteger
              existingOpportunity mapped data) = Store.Returned updated ->
         after = updated
         /\ (forall s, JsValue.get mapped "solicitationNumber" = VString s ->
                       s <> "" -> Store.solicitationNumber updated = Some s)
         /\ (forall s, JsValue.get mapped "site" = VString s ->
                       s <> "" -> Store.site updated = Some s)
         /\ (forall s, JsValue.get mapped "sourceUrl" = VString s ->
                       s <> "" -> Store.sourceUrl updated = Some s)
         /\ (forall t,
                JsValue.truthy (JsValue.get mapped "closingDate") = true ->
                OpportunityProcessorQueue.asDate newDate
                  (JsValue.get mapped "closingDate") = JsDate.Time t ->
                Store.closingDate updated = Some t)
         /\ (forall t,
                JsValue.truthy (JsValue.get mapped "deliveryDate") = true ->
                OpportunityProcessorQueue.asDate newDate
                  (JsValue.get mapped "deliveryDate") = JsDate.Time t ->
                Store.deliveryDate updated = Some t)).
Proof.
  intros Hscraped after. subst after.
  unfold OpportunityProcessorQueue.updateExisting.
  destruct (OpportunityProcessorQueue.update existingOpportunity _)
    as [updated | err] eqn:Hupd.
  - pose proof (update_returned _ _ _ Hupd) as Hcols.
    unfold OpportunityProcessorQueue.buildUpdateData in Hcols.
    rewrite Hscraped in Hcols. rewrite String.eqb_refl in Hcols.
    cbn [OpportunityProcessorQueue.setSolicitationNumber
         OpportunityProcessorQueue.setSite
         OpportunityProcessorQueue.setSourceUrl
         OpportunityProcessorQueue.setClosingDate
         OpportunityProcessorQueue.setDeliveryDate
         OpportunityProcessorQueue.setPartNumber
         OpportunityProcessorQueue.setManufacturer
         OpportunityProcessorQueue.setDescription
         OpportunityProcessorQueue.setNsn
         OpportunityProcessorQueue.setCondition
         OpportunityProcessorQueue.setUnit
         OpportunityProcessorQueue.setQuantity
         OpportunityProcessorQueue.stringColumn
         OpportunityProcessorQueue.intColumn] in Hcols.
    destruct Hcols as (Hsol & Hsite & Hurl & Hclose & Hdeliv & Hpart & Hmanu
                       & Hdescr & Hnsn & Hcond & Hunit & Hqty).
    split.
    + repeat split; congruence.
    + intros updated' [= <-]. split; [reflexivity |].
      split; [| split; [| split; [| split]]].
      * intros s Hget Hs.
        rewrite (whenTruthy_string mapped _ s Hget Hs) in Hsol.
        cbn in Hsol. congruence.
      * intros s Hget Hs.
        rewrite (whenTruthy_string mapped _ s Hget Hs) in Hsite.
        cbn in Hsite. congruence.
      * intros s Hget Hs.
        rewrite (whenTruthy_string mapped _ s Hget Hs) in Hurl.
        cbn in Hurl. congruence.
      * intros t Htruthy Hdate.
        rewrite (whenTruthy_date newDate mapped _ Htruthy), Hdate in Hclose.
        cbn in Hclose. congruence.
      * intros t Htruthy Hdate.
        rewrite (whenTruthy_date newDate mapped _ Htruthy), Hdate in Hdeliv.
        cbn in Hdeliv. congruence.
  - split; [repeat split; reflexivity | intros ? [=]].
Qed.

(** C3 on a scraped record: the email's part number and quantity are
    ignored, its site and closing date are taken. *)
Lemma scraped_fields_survive_email_reprocessing_witness :
  let after :=
    OpportunityProcessorQueue.updateExisting (JsDate.newDate 0)
      (fun v => match v with VNumber n => Some n | _ => None end)
      Samples.parent Samples.mapped Samples.mapped in
  (Store.partNumber after = Some "PN-1"
   /\ Store.quantity after = Some 4
   /\ Store.site after = Some "NAVSUP"
   /\ Store.closingDate after = Some 1771372800000)
  /\ (Store.quantity after = Store.quantity Samples.parent
      /\ Store.unit after = Store.unit Samples.parent
      /\ Store.partNumber after = Store.partNumber Samples.parent
      /\ Store.manufacturer after = Store.manufacturer Samples.parent
      /\ Store.description after = Store.description Samples.parent
      /\ Store.nsn after = Store.nsn Samples.parent
      /\ Store.condition after = Store.condition Samples.parent).
Proof.
  intros after. split; [vm_compute; repeat split; reflexivity |].
  exact (proj1 (scraped_fields_survive_email_reprocessing (JsDate.newDate 0)
                  (fun v => match v with VNumber n => Some n | _ => None end)
                  Samples.parent Samples.mapped Samples.mapped eq_refl)).
Defined.

(** C4.  When every fetch fails with a transport timeout (code
    ECONNABORTED or ETIMEDOUT) and [maxRetries] is 3, [scrapeWithRetry]
    started at attempt 1 fetches at attempts 1, 2 and 3, exactly, and
    returns the terminal status "timeout".  Whatever the fetches answer,
    the attempts fetched are consecutive and the number of retries is at
    most [maxRetries - attempt]: a retry happens only while the attempt
    counter is below [maxRetries]. *)
Theorem scrapeWithRetry_three_timeouts (env : ScrapingService.Env) :
  (forall n, ScrapingSpec.isTransportTimeout (ScrapingService.fetch env n)
             = true) ->
  ScrapingService.maxRetries env = 3%nat ->
  let r := ScrapingService.scrapeWithRetry env 1 in
  ScrapingService.status (fst r) = "timeout"
  /\ ScrapingService.success (fst r) = false
  /\ ScrapingSpec.fetches (snd r) = [1; 2; 3]%nat
  /\ (forall (env' : ScrapingService.Env) (attempt : nat),
         exists retries,
           ScrapingSpec.fetches
             (snd (ScrapingService.scrapeWithRetry env' attempt))
           = seq attempt (S retries)
           /\ (retries <= ScrapingService.maxRetries env' - attempt)%nat).
Proof.
  intros Hall Hmax r.
  destruct (ScrapingFacts.scrapeWithRetry_all_timeouts env Hall 2 1)
    as (Hs & Hok & Hf); [rewrite Hmax; reflexivity |].
  repeat split; try assumption.
  intros env' attempt.
  exact (ScrapingFacts.scrapeWithRetry_fetches_bounded env' _ attempt eq_refl).
Qed.

(** C4 on a server that always times out. *)
Lemma scrapeWithRetry_three_timeouts_witness :
  let timedOut :=
    ScrapingService.Rejected
      (ScrapingService.Error (Some "ECONNABORTED") false None
         (Some "timeout of 30000ms exceeded")) in
  let env :=
    ScrapingService.Environment true (Some (Some "https://www.neco.navy.mil/x"))
      (ScrapingService.Domain true false false None) 3 2000
      (fun _ => timedOut) in
  let r := ScrapingService.scrapeWithRetry env 1 in
  ScrapingService.status (fst r) = "timeout"
  /\ ScrapingService.success (fst r) = false
  /\ ScrapingSpec.fetches (snd r) = [1; 2; 3]%nat
  /\ (forall (env' : ScrapingService.Env) (attempt : nat),
         exists retries,
           ScrapingSpec.fetches
             (snd (ScrapingService.scrapeWithRetry env' attempt))
           = seq attempt (S retries)
           /\ (retries <= ScrapingService.maxRetries env' - attempt)%nat).
Proof.
  intros timedOut env.
  apply (scrapeWithRetry_three_timeouts env).
  - intros n. reflexivity.
  - reflexivity.
Defined.

(** C5.  Two field maps that agree on every field named in
    [fingerprintFields] (and, when the joined value of those fields is
    empty, two calls with the same fallback text) get the same
    fingerprint, whatever their other fields; the fingerprint is a string
    of 64 lower-case hexadecimal digits. *)
Theorem generateFingerprint_depends_only_on_fingerprint_fields
    (dateToString : JsDate.Date -> string)
    (data1 data2 : gmap string JsVal) (fingerprintFields : list string)
    (fallback1 fallback2 : option string) :
  (forall f, In f fingerprintFields -> data1 !! f = data2 !! f) ->
  (ParsingService.fingerprintValues dateToString data1 fingerprintFields = ""
   -> fallback1 = fallback2) ->
  ParsingService.generateFingerprint dateToString data1 fingerprintFields
    fallback1
  = ParsingService.generateFingerprint dateToString data2 fingerprintFields
      fallback2
  /\ String.length
       (ParsingService.generateFingerprint dateToString data1
          fingerprintFields fallback1) = 64%nat
  /\ allChars isLowerHex
       (ParsingService.generateFingerprint dateToString data1
          fingerprintFields fallback1) = true.
Proof.
  intros Hfields Hfallback.
  split; [| split;
            [apply generateFingerprint_length
            | apply generateFingerprint_allHex]].
  unfold ParsingService.generateFingerprint.
  rewrite <- (fingerprintValues_agree dateToString data1 data2
                fingerprintFields Hfields).
  destruct (JsString.isEmpty
              (ParsingService.fingerprintValues dateToString data1
                 fingerprintFields)) eqn:He.
  - apply isEmpty_true in He. now rewrite (Hfallback He).
  - destruct fallback1, fallback2; reflexivity.
Qed.

(** C5 on two items that share solicitation number and site only. *)
Lemma generateFingerprint_depends_only_on_fingerprint_fields_witness :
  let d2s := fun _ : JsDate.Date => "" in
  let data1 : gmap string JsVal :=
    {[ "solicitationNumber" := VString " N0010426QAB12 ";
       "site" := VString "NECO"; "nsn" := VString "1234-00-111-2222" ]} in
  let data2 : gmap string JsVal :=
    {[ "solicitationNumber" := VString " N0010426QAB12 ";
       "site" := VString "NECO"; "description" := VString "VALVE,GATE";
       "quantity" := VNumber 4 ]} in
  ParsingService.generateFingerprint d2s data1 ["solicitationNumber"; "site"]
    (Some "first raw text")
  = ParsingService.generateFingerprint d2s data2 ["solicitationNumber"; "site"]
      (Some "another raw text")
  /\ ParsingService.generateFingerprint d2s data1
       ["solicitationNumber"; "site"] (Some "first raw text")
     = Sha256.sha256_hex "n0010426qab12|neco".
Proof.
  intros d2s data1 data2. split.
  - apply (generateFingerprint_depends_only_on_fingerprint_fields
             d2s data1 data2 ["solicitationNumber"; "site"]
             (Some "first raw text") (Some "another raw text")).
    + intros f [<- | [<- | []]]; vm_compute; reflexivity.
    + vm_compute. discriminate.
  - vm_compute. reflexivity.
Defined.

(** C6 (as amended).  On a server whose zone is within a day of UTC,
    whatever that zone: "10-FEB-26" parses to 2026-02-10T00:00:00Z,
    "Dec 05, 2025" to 2025-12-05T00:00:00Z, "2026-02-17" to
    2026-02-17T00:00:00Z; an ISO string with a time, "2026-02-17T10:30:00Z",
    parses to that instant, not to a midnight; the form Month D, YYYY is
    tried before the ISO form; a DD-MMM-YY year is pivoted at 50 (below 50
    in the 2000s, otherwise in the 1900s), for each of the hundred two-digit
    years; DD-MMM-26 parses to the UTC midnight of that day, for each month
    and each day up to the 28th.  Whatever the platform's date parser does, a result that is not
    a UTC midnight comes from the ISO branch and is what the platform
    parsed. *)
Theorem parseDate_formats (tz : Z) :
  Z.abs tz <= 1440 ->
  let parse := ParsingService.parseDate (JsDate.newDate tz) tz in
  parse "10-FEB-26" = Some (JsDate.Time 1770681600000)
  /\ parse "Dec 05, 2025" = Some (JsDate.Time 1764892800000)
  /\ parse "2026-02-17" = Some (JsDate.Time 1771286400000)
  /\ parse "2026-02-17T10:30:00Z" = Some (JsDate.Time 1771324200000)
  /\ parse "2026-02-17 Dec 05, 2025" = Some (JsDate.Time 1764892800000)
  /\ Forall
       (fun yy =>
          parse ("10-FEB-" ++ DateSpec.twoDigits yy)
          = Some (JsDate.Time
                    (JsDate.daysFromCivil
                       (if yy <? 50 then 2000 + yy else 1900 + yy) 2 10
                     * JsDate.msPerDay)))
       (map Z.of_nat (seq 0 100))
  /\ Forall
       (fun mon =>
          Forall
            (fun day =>
               parse (DateSpec.twoDigits day ++ "-" ++ fst mon ++ "-26")
               = Some (JsDate.Time
                         (JsDate.daysFromCivil 2026 (snd mon) day
                          * JsDate.msPerDay)))
            (map Z.of_nat (seq 1 28)))
       DateSpec.monthTokens
  /\ (forall (platform : string -> JsDate.Date) (dateStr : string)
             (d : JsDate.Date),
         ParsingService.parseDate platform tz dateStr = Some d ->
         DateSpec.isMidnightUTC d
         \/ (Regex.exec ParsingService.ddMmmYyPattern (JsString.trim dateStr)
             = None
             /\ Regex.exec ParsingService.monthDayYearPattern
                  (JsString.trim dateStr) = None
             /\ Regex.exec ParsingService.isoDatePattern
                  (JsString.trim dateStr) <> None
             /\ platform
                  (JsString.trim dateStr
                   ++ (if JsString.includes (JsString.trim dateStr) "T"
                       then "" else "T00:00:00Z")) = d)).
Proof.
  intros Htz parse. subst parse.
  repeat match goal with
         | |- _ = _ /\ _ =>
             split; [apply (DateFacts.parseDateLocal_sound tz _ _ Htz);
                     vm_compute; reflexivity |]
         end.
  split.
  - apply Forall_forall. intros yy Hin.
    apply (DateFacts.pivotCheck_sound tz yy Htz).
    pose proof DateFacts.pivotCheck_all as Hall.
    rewrite forallb_forall in Hall. apply Hall.
    now apply list_elem_of_In.
  - split; [| intros platform dateStr d;
              apply DateFacts.parseDate_midnight_or_iso].
    apply Forall_forall. intros mon Hmon.
    apply Forall_forall. intros day Hday.
    apply (DateFacts.dayMonthCheck_sound tz mon day Htz).
    pose proof DateFacts.dayMonthCheck_all as Hall.
    rewrite forallb_forall in Hall.
    specialize (Hall mon ltac:(now apply list_elem_of_In)).
    rewrite forallb_forall in Hall. apply Hall.
    now apply list_elem_of_In.
Qed.

(** C6 on a server five hours behind UTC. *)
Lemma parseDate_formats_witness :
  let parse := ParsingService.parseDate (JsDate.newDate (-300)) (-300) in
  parse "10-FEB-26" = Some (JsDate.Time 1770681600000)
  /\ parse "Dec 05, 2025" = Some (JsDate.Time 1764892800000)
  /\ parse "2026-02-17" = Some (JsDate.Time 1771286400000).
Proof.
  intros parse.
  destruct (parseDate_formats (-300) ltac:(cbn; lia))
    as (H1 & H2 & H3 & _).
  exact (conj H1 (conj H2 H3)).
Defined.

(** C6, as stated, fails on an ISO string with a time: the result is the
    instant written, not a UTC midnight, and without a zone designator it
    moves with the server's zone. *)
Lemma iso_time_is_not_normalised :
  ParsingService.parseDate (JsDate.newDate 0) 0 "2026-02-17T10:30:00Z"
  = Some (JsDate.Time 1771324200000)
  /\ 1771324200000 mod JsDate.msPerDay <> 0
  /\ ParsingService.parseDate (JsDate.newDate 0) 0 "2026-02-17T10:30:00"
     = Some (JsDate.Time 1771324200000)
  /\ ParsingService.parseDate (JsDate.newDate (-300)) (-300)
       "2026-02-17T10:30:00"
     = Some (JsDate.Time 1771342200000).
Proof. vm_compute. repeat split; discriminate. Qed.



(** C8.  [isGarbageVendorValue] holds exactly of a value that is
    undefined or empty, whose trimmed form has fewer than 2 characters, or
    whose trimmed, lower-cased form is in the denylist; "N/A", "CAGE", "",
    undefined and "x" are garbage, "K1234" is not. *)
Theorem isGarbageVendorValue_spec :
  (forall value : option string,
      NecoExtractor.isGarbageVendorValue value = true <->
      match value with
      | None => True
      | Some v =>
          v = ""
          \/ (String.length (JsString.trim v) < 2)%nat
          \/ In (JsString.toLowerCase (JsString.trim v))
                NecoExtractor.GARBAGE_VENDOR_VALUES
      end)
  /\ NecoExtractor.isGarbageVendorValue (Some "N/A") = true
  /\ NecoExtractor.isGarbageVendorValue (Some "CAGE") = true
  /\ NecoExtractor.isGarbageVendorValue (Some "") = true
  /\ NecoExtractor.isGarbageVendorValue None = true
  /\ NecoExtractor.isGarbageVendorValue (Some "x") = true
  /\ NecoExtractor.isGarbageVendorValue (Some "K1234") = false.
Proof.
  split; [| repeat split; reflexivity].
  intros [v|]; [| simpl; tauto].
  unfold NecoExtractor.isGarbageVendorValue.
  destruct (JsString.isEmpty v) eqn:He.
  - apply isEmpty_true in He. tauto.
  - cbv zeta. rewrite orb_true_iff, toLowerCase_length, Nat.ltb_lt, existsb_eqb_In.
    split; [tauto |].
    intros [-> | H]; [discriminate | exact H].
Qed.







(* ===================================================================== *)
(** * Further properties of the code around the claims                    *)
(* ===================================================================== *)

(** ** Scraping: attempts, outcomes and gates *)

Module TraceFacts.
Import ScrapingService ScrapingSpec TraceSpec ScrapingFacts.
Local Open Scope list_scope.

#[local] Arguments fetches : simpl never.
#[local] Arguments after : simpl never.
#[local] Arguments started : simpl never.
#[local] Arguments seq : simpl never.
#[local] Arguments endsInSuccess : simpl never.
#[local] Arguments endsInFailure : simpl never.

Lemma delays_app a b : delays (a ++ b) = delays a ++ delays b.
Proof. apply flat_map_app. Qed.

Lemma alerts_app a b : alerts (a ++ b) = alerts a ++ alerts b.
Proof. apply flat_map_app. Qed.

Lemma delays_started a : delays (started a) = [].
Proof. unfold started. destruct (Nat.eqb a 1); reflexivity. Qed.

Lemma alerts_started a : alerts (started a) = [].
Proof. unfold started. destruct (Nat.eqb a 1); reflexivity. Qed.

Lemma persists_app a b : persists (a ++ b) = persists a || persists b.
Proof. apply existsb_app. Qed.

Lemma persists_started a : persists (started a) = false.
Proof. unfold started. destruct (Nat.eqb a 1); reflexivity. Qed.

Lemma scrapeWithRetry_shape (env : Env) :
  forall k attempt,
    (maxRetries env - attempt)%nat = k ->
    retriedThenLast env attempt (snd (scrapeWithRetry env attempt)).
Proof.
  assert (Hlast : forall attempt r,
             fetches (snd r) = [] -> delays (snd r) = [] ->
             retriedThenLast env attempt (snd (after (started attempt) r))).
  { intros attempt r Hf Hd. exists 0%nat. split; [lia |]. split.
    - now rewrite fetches_after, fetches_started, Hf.
    - unfold after. cbn [snd]. now rewrite delays_app, delays_started, Hd. }
  assert (Hdone : forall neco, fetches (snd (succeeded neco)) = []
                               /\ delays (snd (succeeded neco)) = []).
  { intros [d|]; unfold succeeded; cbn;
      [destruct (NecoExtractor.isCancellation d) |]; split; reflexivity. }
  induction k as [|k IH]; intros attempt Hk; simp scrapeWithRetry;
    destruct (attemptBody (fetch env attempt)) as [e | neco]; cbn;
    try (apply Hlast; apply Hdone).
  - destruct (classify e); cbn;
      try (destruct (lt_dec attempt (maxRetries env)); [lia |]; cbn);
      now apply Hlast.
  - assert (Hretry : (attempt < maxRetries env)%nat ->
        retriedThenLast env attempt
          (snd (after (started attempt ++ [Delayed (retryDelay env)])
                      (scrapeWithRetry env (S attempt))))).
    { intros Hlt. destruct (IH (S attempt) ltac:(lia)) as (n & Hb & Hf & Hd).
      exists (S n). split; [lia |]. split.
      - now rewrite fetches_after, fetches_app, fetches_started, Hf.
      - unfold after. cbn [snd].
        rewrite !delays_app, delays_started, Hd. reflexivity. }
    destruct (classify e); cbn;
      try (destruct (lt_dec attempt (maxRetries env)); [| lia]; cbn;
           now apply Hretry);
      now apply Hlast.
Qed.


(** A run ends in exactly one of two ways. *)
Lemma scrapeWithRetry_outcome (env : Env) :
  forall k attempt,
    (maxRetries env - attempt)%nat = k ->
    endsInSuccess (scrapeWithRetry env attempt)
    \/ endsInFailure (scrapeWithRetry env attempt).
Proof.
  assert (Hfail : forall pre s msg,
             alerts pre = [] -> persists pre = false ->
             In s [TIMEOUT; NECO_ERROR; BLOCKED; FAILED] ->
             endsInFailure (after pre (failure s msg))).
  { intros pre s msg Ha Hp Hs. unfold endsInFailure, after, failure.
    cbn [fst snd success data error status].
    repeat split; try reflexivity; try discriminate.
    - rewrite alerts_app, Ha. reflexivity.
    - rewrite persists_app, Hp. reflexivity.
    - now apply in_map.
    - now exists pre. }
  assert (Hok : forall attempt neco,
             endsInSuccess (after (started attempt) (succeeded neco))).
  { intros attempt neco. unfold endsInSuccess, after, succeeded.
    cbn [fst snd success status error].
    repeat split; try reflexivity.
    - rewrite alerts_app, alerts_started.
      destruct neco as [d|]; [destruct (NecoExtractor.isCancellation d) |];
        reflexivity.
    - rewrite persists_app. cbn. apply orb_true_r. }
  assert (Hretry : forall attempt,
             endsInSuccess (scrapeWithRetry env (S attempt))
             \/ endsInFailure (scrapeWithRetry env (S attempt)) ->
             endsInSuccess
               (after (started attempt ++ [Delayed (retryDelay env)])
                      (scrapeWithRetry env (S attempt)))
             \/ endsInFailure
                  (after (started attempt ++ [Delayed (retryDelay env)])
                         (scrapeWithRetry env (S attempt)))).
  { intros attempt. unfold endsInSuccess, endsInFailure, after.
    cbn [fst snd].
    rewrite !alerts_app, !persists_app, alerts_started, persists_started.
    cbn [alerts flat_map persists existsb app orb].
    intros [(H1 & H2 & H3 & H4 & H5)
           | (H1 & H2 & H3 & H4 & H5 & H6 & (before & H7))];
      [left; auto |].
    right; repeat split; auto.
    exists ((started attempt ++ [Delayed (retryDelay env)]) ++ before).
    rewrite H7, <- !app_assoc; reflexivity. }
  induction k as [|k IH]; intros attempt Hk; simp scrapeWithRetry;
    destruct (attemptBody (fetch env attempt)) as [e | neco]; cbn;
    try (left; apply Hok).
  - right. destruct (classify e); cbn;
      try (destruct (lt_dec attempt (maxRetries env)); [lia |]; cbn);
      apply Hfail; auto using alerts_started, persists_started;
      cbn; tauto.
  - destruct (classify e); cbn;
      try (destruct (lt_dec attempt (maxRetries env)) as [Hlt | Hge]; cbn);
      try (right; apply Hfail;
           auto using alerts_started, persists_started; cbn; tauto).
    all: apply Hretry, IH; lia.
Qed.

Lemma scrapeWithRetry_good_page (env : Env) (attempt : nat) title body neco :
  fetch env attempt = Page title body neco ->
  isErrorPage title body = false ->
  scrapeWithRetry env attempt = after (started attempt) (succeeded neco).
Proof.
  intros Hpage Hgood. simp scrapeWithRetry. rewrite Hpage.
  cbn [attemptBody]. rewrite Hgood. reflexivity.
Qed.

Lemma scrapeWithRetry_retry (env : Env) (attempt : nat) :
  isRetryable (fetch env attempt) = true ->
  (attempt < maxRetries env)%nat ->
  scrapeWithRetry env attempt
  = after (started attempt ++ [Delayed (retryDelay env)])
          (scrapeWithRetry env (S attempt)).
Proof.
  unfold isRetryable. intros Hretry Hlt.
  set (rest := scrapeWithRetry env (S attempt)).
  simp scrapeWithRetry.
  destruct (attemptBody (fetch env attempt)) as [e | n]; [| discriminate].
  cbn. destruct (classify e); try discriminate; cbn;
    (destruct (lt_dec attempt (maxRetries env)); [| lia]); cbn;
    reflexivity.
Qed.

Lemma succeeded_trace neco :
  fetches (snd (succeeded neco)) = [] /\ delays (snd (succeeded neco)) = [].
Proof.
  destruct neco as [d|]; unfold succeeded; cbn;
    [destruct (NecoExtractor.isCancellation d) |]; auto.
Qed.

End TraceFacts.

(** X1. Whatever the pages and errors met, [scrapeWithRetry] called as
    [scrapeOpportunity] calls it (attempt 1) fetches the URL at attempts
    1, 2, ..., n + 1 and nothing else, with n + 1 at most the larger of 1
    and the user's [maxRetries]; it waits exactly n times, each time for
    the configured [retryDelay]. *)
Theorem scrapeWithRetry_attempts_and_waits (env : ScrapingService.Env) :
  exists n,
    (1 + n <= Nat.max 1 (ScrapingService.maxRetries env))%nat
    /\ ScrapingSpec.fetches (snd (ScrapingService.scrapeWithRetry env 1))
       = seq 1 (S n)
    /\ TraceSpec.delays (snd (ScrapingService.scrapeWithRetry env 1))
       = repeat (ScrapingService.retryDelay env) n.
Proof.
  exact (TraceFacts.scrapeWithRetry_shape env _ 1%nat eq_refl).
Qed.


(** X3. A rejection with HTTP status 401, 403 or 404 that is neither a
    transport timeout nor a NECO error page is never retried, however
    many retries the settings allow: the call fetches once, waits for
    nothing, and fails with 'blocked' (401, 403) or 'failed' (404). *)
Theorem http_refusal_is_not_retried
    (env : ScrapingService.Env) (attempt : nat)
    (e : ScrapingService.ErrorObject) :
  ScrapingService.fetch env attempt = ScrapingService.Rejected e ->
  ScrapingSpec.isTransportTimeout (ScrapingService.Rejected e) = false ->
  ScrapingService.isNecoError e = false ->
  ScrapingService.statusIs e 403 || ScrapingService.statusIs e 401
  || ScrapingService.statusIs e 404 = true ->
  let r := ScrapingService.scrapeWithRetry env attempt in
  ScrapingSpec.fetches (snd r) = [attempt]
  /\ TraceSpec.delays (snd r) = []
  /\ ScrapingService.success (fst r) = false
  /\ ScrapingService.status (fst r)
     = (if ScrapingService.statusIs e 403 || ScrapingService.statusIs e 401
        then "blocked" else "failed").
Proof.
  intros Hfetch Htimeout Hneco Hstatus. cbv zeta.
  simp scrapeWithRetry. rewrite Hfetch. cbn [ScrapingService.attemptBody].
  cbn in Htimeout. cbn. unfold ScrapingService.classify.
  rewrite Htimeout, Hneco.
  destruct (ScrapingService.statusIs e 403 || ScrapingService.statusIs e 401)
    eqn:Hblocked; cbn.
  - rewrite TraceFacts.delays_app, TraceFacts.delays_started.
    rewrite ScrapingFacts.fetches_app, ScrapingFacts.fetches_started.
    auto.
  - cbn in Hstatus. rewrite Hstatus. cbn.
    rewrite TraceFacts.delays_app, TraceFacts.delays_started.
    rewrite ScrapingFacts.fetches_app, ScrapingFacts.fetches_started.
    auto.
Qed.

Lemma http_refusal_is_not_retried_witness :
  let env :=
    ScrapingService.Environment true (Some (Some "https://www.neco.navy.mil/x"))
      (ScrapingService.Domain true false false None) 3 2000
      (fun _ => ScrapingService.Rejected
                  (ScrapingService.Error (Some "ERR_BAD_REQUEST") false
                     (Some 403) (Some "Request failed with status code 403"))) in
  ScrapingSpec.fetches (snd (ScrapingService.scrapeWithRetry env 1)) = [1%nat]
  /\ ScrapingService.status (fst (ScrapingService.scrapeWithRetry env 1))
     = "blocked".
Proof.
  intros env.
  destruct (http_refusal_is_not_retried env 1
              (ScrapingService.Error (Some "ERR_BAD_REQUEST") false
                 (Some 403) (Some "Request failed with status code 403"))
              eq_refl eq_refl eq_refl eq_refl) as (Hf & _ & _ & Hs).
  split; [exact Hf | exact Hs].
Defined.



(** X5. [scrapeOpportunityAuto] fetches a page only when every gate is
    open: scraping enabled for the template, the opportunity found with a
    source URL, the domain enabled, and credentials present when the
    domain requires them.  With the gates open it does what
    [scrapeWithRetry] does from attempt 1.  With a gate closed it fetches
    nothing, persists nothing, emits no alert, and returns a failure
    whose status is 'disabled', 'failed', 'blocked' or
    'requires_auth'. *)
Theorem scrapeOpportunityAuto_fetches_only_through_open_gates
    (env : ScrapingService.Env) :
  if TraceSpec.gatesOpen env
  then ScrapingService.scrapeOpportunityAuto env
       = ScrapingService.scrapeWithRetry env 1
  else
    let r := ScrapingService.scrapeOpportunityAuto env in
    ScrapingSpec.fetches (snd r) = []
    /\ TraceSpec.persists (snd r) = false
    /\ TraceSpec.alerts (snd r) = []
    /\ ScrapingService.success (fst r) = false
    /\ ScrapingService.data (fst r) = None
    /\ In (ScrapingService.status (fst r))
          ["disabled"; "failed"; "blocked"; "requires_auth"].
Proof.
  unfold TraceSpec.gatesOpen, ScrapingService.scrapeOpportunityAuto,
    ScrapingService.scrapeOpportunity.
  destruct (ScrapingService.webScrapingEnabled env); cbn [andb];
    [| cbn; tauto].
  destruct (ScrapingService.sourceUrlOf env) as [url|]; cbn [andb];
    [| cbn; tauto].
  destruct (NecoExtractor.isFalsy url); cbn [negb andb]; [cbn; tauto |].
  destruct (ScrapingService.enabled (ScrapingService.domainConfig env));
    cbn [negb andb]; [| cbn; tauto].
  destruct (ScrapingService.requiresAuth (ScrapingService.domainConfig env)
            && negb (ScrapingService.hasCredentials
                       (ScrapingService.domainConfig env)));
    cbn [negb]; [cbn; tauto | reflexivity].
Qed.

(** X6. The circuit breaker of the scraping queue trips on the status
    'neco_error' and on nothing else.  Whatever the job finds, the
    handler either returns 'neco_error' after draining the queue (the
    drain being the last step of the job), or leaves the queue exactly as
    it found it and never drains; a job that ends in 'timeout',
    'blocked', 'failed' or 'skipped' therefore removes no other job. *)
Theorem circuit_breaker_trips_only_on_neco_error
    (env : ScrapingService.Env)
    (found : option ScrapingProcessorQueue.Selected) (today : Z)
    (q : ScrapingProcessorQueue.Queue) :
  let '(result, q', steps) :=
    ScrapingProcessorQueue.handleScraping env found today q in
  if String.eqb (ScrapingService.status result) "neco_error"
  then q' = ScrapingProcessorQueue.drainQueue q
       /\ exists before,
            steps = (before ++ [ScrapingProcessorQueue.QueueDrained])%list
            /\ ~ In ScrapingProcessorQueue.QueueDrained before
  else q' = q /\ ~ In ScrapingProcessorQueue.QueueDrained steps.
Proof.
  assert (Hno : forall evs children,
             (children = [] \/ children = [ScrapingProcessorQueue.ChildrenRequested]) ->
             ~ In ScrapingProcessorQueue.QueueDrained
                 (map ScrapingProcessorQueue.Scraping evs ++ children)%list).
  { intros evs children Hc Hin. apply in_app_or in Hin as [Hin | Hin].
    - apply in_map_iff in Hin as (e & He & _). discriminate.
    - destruct Hc as [-> | ->]; cbn in Hin; [tauto |].
      destruct Hin as [Hin | []]; discriminate. }
  unfold ScrapingProcessorQueue.handleScraping.
  destruct found as [opp|]; [| cbn; intuition discriminate].
  destruct (_ || _); [cbn; intuition discriminate |].
  destruct (match ScrapingProcessorQueue.closingDate opp with
            | Some d => d <? today | None => false end);
    [cbn; intuition discriminate |].
  destruct (ScrapingService.scrapeOpportunityAuto env) as [result events].
  set (children := if ScrapingService.success result then _ else _).
  assert (Hc : children = [] \/ children = [ScrapingProcessorQueue.ChildrenRequested]).
  { subst children. destruct (ScrapingService.success result); [| auto].
    destruct (ScrapingService.data result) as [d|]; [| auto].
    destruct (1 <? NecoExtractor.totalLineItems d); auto. }
  change (ScrapingService.statusValue ScrapingService.NECO_ERROR)
    with "neco_error".
  destruct (String.eqb (ScrapingService.status result) "neco_error") eqn:Hst;
    cbv beta iota; rewrite Hst.
  - split; [reflexivity |].
    exists (map ScrapingProcessorQueue.Scraping events ++ children)%list.
    split; [now rewrite app_assoc | now apply Hno].
  - split; [reflexivity |]. rewrite app_assoc. intros Hin.
    apply in_app_or in Hin as [Hin | Hin]; [now apply (Hno events children) |].
    destruct Hin as [Hin | []]; discriminate.
Qed.

(** ** The fingerprint ledger *)

Module LedgerFacts2.
Import Store FingerprintingService FingerprintingMaintenance LedgerSpec.
Local Open Scope list_scope.

Lemma matchesKey_key user fp r :
  matchesKey user fp r = true <-> ledgerKey r = (user, fp).
Proof.
  unfold matchesKey, ledgerKey. rewrite andb_true_iff, !String.eqb_eq.
  split; [intros [-> ->]; reflexivity | intros [= -> ->]; auto].
Qed.

Lemma existsb_matchesKey user fp rows :
  existsb (matchesKey user fp) rows = true
  <-> In (user, fp) (map ledgerKey rows).
Proof.
  rewrite existsb_exists, in_map_iff. split.
  - intros (r & Hin & Hm). exists r. split; [now apply matchesKey_key | easy].
  - intros (r & Hk & Hin). exists r. split; [easy | now apply matchesKey_key].
Qed.

(** Under the unique index a key selects at most one row. *)
Lemma filter_unique user fp rows :
  List.NoDup (map ledgerKey rows) ->
  List.filter (matchesKey user fp) rows
  = match List.find (matchesKey user fp) rows with
    | Some r => [r]
    | None => []
    end.
Proof.
  induction rows as [|r rows IH]; [reflexivity |].
  cbn [map]. intros Hnd. apply List.NoDup_cons_iff in Hnd as [Hfresh Hnd].
  cbn [List.filter List.find].
  destruct (matchesKey user fp r) eqn:Hm.
  - f_equal. apply matchesKey_key in Hm. rewrite Hm in Hfresh.
    destruct (List.filter (matchesKey user fp) rows) as [|r' l] eqn:Hf;
      [reflexivity |].
    exfalso. apply Hfresh.
    assert (Hin : In r' (List.filter (matchesKey user fp) rows))
      by (rewrite Hf; now left).
    apply filter_In in Hin as [Hin Hm'].
    apply matchesKey_key in Hm'. rewrite <- Hm'. now apply in_map.
  - now apply IH.
Qed.

Lemma latest_nonempty r rows : latest (r :: rows) <> None.
Proof.
  unfold latest. cbn [fold_left].
  generalize r. induction rows as [|x rows IH]; intros b; cbn; [discriminate |].
  destruct (fpCreatedAt b <? fpCreatedAt x); apply IH.
Qed.

Lemma latest_In rows r : latest rows = Some r -> In r rows.
Proof.
  unfold latest.
  assert (H : forall acc,
             fold_left
               (fun best r0 =>
                  match best with
                  | None => Some r0
                  | Some b =>
                      if fpCreatedAt b <? fpCreatedAt r0 then Some r0 else Some b
                  end) rows acc = Some r ->
             In r rows \/ acc = Some r).
  { induction rows as [|x rows IH]; intros acc; cbn; [auto |].
    intros Hf. apply IH in Hf as [Hin | Hacc]; [auto |].
    destruct acc as [b|]; [destruct (fpCreatedAt b <? fpCreatedAt x) |];
      injection Hacc as <-; auto. }
  intros Hl. apply H in Hl as [Hin | Habs]; [assumption | discriminate].
Qed.

(** [checkFingerprint] finds a row exactly when one has the key. *)
Lemma checkFingerprint_exists db user fp :
  exists_ (checkFingerprint db user fp)
  = existsb (matchesKey user fp) (fingerprints db).
Proof.
  unfold checkFingerprint.
  destruct (latest _) as [r|] eqn:Hl; cbn [exists_].
  - apply latest_In, filter_In in Hl as [Hin Hm].
    symmetry. apply existsb_exists. eauto.
  - destruct (List.filter (matchesKey user fp) (fingerprints db))
      as [|r l] eqn:Hf.
    + symmetry. apply not_true_is_false. intros Hex.
      apply existsb_exists in Hex as (r & Hin & Hm).
      assert (Hin' : In r (List.filter (matchesKey user fp) (fingerprints db)))
        by (apply filter_In; auto).
      now rewrite Hf in Hin'.
    + now apply latest_nonempty in Hl.
Qed.

Lemma checkFingerprint_unique db user fp :
  ledgerUnique db ->
  checkFingerprint db user fp
  = match List.find (matchesKey user fp) (fingerprints db) with
    | Some r => recorded r
    | None => notRecorded
    end.
Proof.
  intros Hu. unfold checkFingerprint. rewrite (filter_unique _ _ _ Hu).
  destruct (List.find _ _); reflexivity.
Qed.


Lemma ledgerKey_updated user oppId a rows :
  map ledgerKey
    (map (fun r =>
            if String.eqb (fpUserId r) user
               && match fpOpportunityId r with
                  | Some o => String.eqb o oppId
                  | None => false
                  end
            then FpRow (fpUserId r) (fpFingerprint r) (fpOpportunityId r)
                       (Some a) (fpCreatedAt r)
            else r) rows)
  = map ledgerKey rows.
Proof.
  rewrite map_map. apply map_ext. intros r.
  destruct (_ && _); reflexivity.
Qed.

Lemma NoDup_map_filter {A B : Type} (f : A -> B) (p : A -> bool) (l : list A) :
  List.NoDup (map f l) -> List.NoDup (map f (List.filter p l)).
Proof.
  induction l as [|x l IH]; cbn; [auto |].
  intros Hnd. apply List.NoDup_cons_iff in Hnd as [Hfresh Hnd].
  destruct (p x); cbn; [| auto].
  apply List.NoDup_cons; [| auto].
  intros Hin. apply Hfresh. apply in_map_iff in Hin as (y & Hy & Hin).
  apply filter_In in Hin as [Hin _]. rewrite <- Hy. now apply in_map.
Qed.

Lemma recordFingerprint_unique db user oppId fp :
  ledgerUnique db ->
  ledgerUnique (snd (recordFingerprint db user oppId fp)).
Proof.
  unfold ledgerUnique, recordFingerprint. intros Hu.
  destruct (existsb (matchesKey user fp) (fingerprints db)) eqn:Hex;
    cbn [snd fingerprints]; [assumption |].
  rewrite map_app. cbn [map ledgerKey fpUserId fpFingerprint].
  apply List.NoDup_app; [assumption | repeat constructor; auto |].
  intros k Hk [<- | []].
  apply existsb_matchesKey in Hk. cbn in Hk. congruence.
Qed.

Lemma find_map_row (p : FingerprintRow -> bool) (f : FingerprintRow -> FingerprintRow)
    (rows : list FingerprintRow) :
  (forall r, p (f r) = p r) ->
  List.find p (map f rows) = option_map f (List.find p rows).
Proof.
  intros Hp. induction rows as [|r rows IH]; [reflexivity |]. cbn.
  rewrite Hp. destruct (p r); [reflexivity | exact IH].
Qed.

Lemma find_filter_row (p q : FingerprintRow -> bool)
    (rows : list FingerprintRow) :
  List.find p (List.filter q rows)
  = List.find (fun r => q r && p r) rows.
Proof.
  induction rows as [|r rows IH]; [reflexivity |]. cbn.
  destruct (q r); cbn; [destruct (p r); [reflexivity | exact IH] | exact IH].
Qed.

Lemma find_same {A : Type} (p q : A -> bool) (l : list A) :
  (forall x, p x = q x) -> List.find p l = List.find q l.
Proof.
  intros H. induction l as [|x l IH]; [reflexivity |]. cbn.
  rewrite H. destruct (q x); [reflexivity | exact IH].
Qed.

(** The result of [checkMultipleFingerprints], key by key. *)
Lemma fold_notRecorded (fps : list string) :
  forall (m : gmap string FingerprintCheckResult) fp,
    fold_left (fun m fp => <[fp := notRecorded]> m) fps m !! fp
    = if existsb (String.eqb fp) fps then Some notRecorded else m !! fp.
Proof.
  induction fps as [|x fps IH]; intros m fp; [reflexivity |].
  cbn [fold_left existsb]. rewrite IH.
  destruct (existsb (String.eqb fp) fps); [now rewrite orb_true_r |].
  rewrite orb_false_r. destruct (String.eqb fp x) eqn:Hx.
  - apply String.eqb_eq in Hx as ->. apply lookup_insert_eq.
  - apply String.eqb_neq in Hx. now apply lookup_insert_ne.
Qed.

Lemma fold_recorded (records : list FingerprintRow) :
  List.NoDup (map fpFingerprint records) ->
  forall (m : gmap string FingerprintCheckResult) fp,
    fold_left (fun m record => <[fpFingerprint record := recorded record]> m)
      records m !! fp
    = match List.find (fun r => String.eqb (fpFingerprint r) fp) records with
      | Some r => Some (recorded r)
      | None => m !! fp
      end.
Proof.
  induction records as [|x records IH]; intros Hnd m fp; [reflexivity |].
  cbn [map] in Hnd. apply List.NoDup_cons_iff in Hnd as [Hfresh Hnd].
  cbn [fold_left List.find]. rewrite (IH Hnd).
  destruct (String.eqb (fpFingerprint x) fp) eqn:Hx.
  - apply String.eqb_eq in Hx. subst fp.
    destruct (List.find _ records) as [r|] eqn:Hfind.
    + exfalso. apply Hfresh. apply find_some in Hfind as [Hin Heq].
      apply String.eqb_eq in Heq. rewrite <- Heq. now apply in_map.
    + apply lookup_insert_eq.
  - apply String.eqb_neq in Hx.
    destruct (List.find _ records); [reflexivity |].
    now apply lookup_insert_ne.
Qed.

Lemma sample_ledger_unique : ledgerUnique LedgerSamples.db.
Proof.
  unfold ledgerUnique. cbn.
  repeat (apply List.NoDup_cons;
          [cbn; intros H; repeat (destruct H as [H | H]; [discriminate |]);
           exact H |]).
  constructor.
Qed.

Lemma find_updated_row user oppId a user' fp rows :
  List.find (matchesKey user' fp)
    (map (fun r =>
            if String.eqb (fpUserId r) user
               && match fpOpportunityId r with
                  | Some o => String.eqb o oppId
                  | None => false
                  end
            then FpRow (fpUserId r) (fpFingerprint r) (fpOpportunityId r)
                       (Some a) (fpCreatedAt r)
            else r) rows)
  = option_map
      (fun r => if ofOpportunity user oppId r
                then FpRow (fpUserId r) (fpFingerprint r) (fpOpportunityId r)
                       (Some a) (fpCreatedAt r)
                else r)
      (List.find (matchesKey user' fp) rows).
Proof.
  apply (find_map_row (matchesKey user' fp)
           (fun r => if ofOpportunity user oppId r
                     then FpRow (fpUserId r) (fpFingerprint r)
                            (fpOpportunityId r) (Some a) (fpCreatedAt r)
                     else r)).
  intros r. unfold matchesKey.
  destruct (ofOpportunity user oppId r); reflexivity.
Qed.

Lemma orUndefined_names (x : option string) (oppId : string) :
  oppId <> "" ->
  match orUndefined x with
  | Some o => String.eqb o oppId
  | None => false
  end
  = match x with
    | Some o => String.eqb o oppId
    | None => false
    end.
Proof.
  intros Hne. destruct x as [[|c s]|]; cbn; [| reflexivity | reflexivity].
  destruct oppId; [congruence | reflexivity].
Qed.

End LedgerFacts2.

(** X7. The three writing operations of the fingerprint ledger keep
    the pair (user, fingerprint) unique among its rows, as the unique
    index of the table demands: [recordFingerprint] (which raises instead
    of inserting a second row for a pair), [updateFingerprintAction] and
    [removeFingerprintRecord]. *)
Theorem ledger_operations_keep_keys_unique
    (db : Store.Db) (user oppId fp : string) (a : Store.FingerprintAction) :
  LedgerSpec.ledgerUnique db ->
  LedgerSpec.ledgerUnique
    (snd (FingerprintingService.recordFingerprint db user oppId fp))
  /\ LedgerSpec.ledgerUnique
       (FingerprintingService.updateFingerprintAction db user oppId a)
  /\ LedgerSpec.ledgerUnique
       (FingerprintingMaintenance.removeFingerprintRecord db user oppId).
Proof.
  intros Hu. split; [now apply LedgerFacts2.recordFingerprint_unique |].
  split.
  - unfold LedgerSpec.ledgerUnique,
      FingerprintingService.updateFingerprintAction.
    cbn [Store.fingerprints].
    now rewrite LedgerFacts2.ledgerKey_updated.
  - unfold LedgerSpec.ledgerUnique,
      FingerprintingMaintenance.removeFingerprintRecord.
    cbn [Store.fingerprints]. now apply LedgerFacts2.NoDup_map_filter.
Qed.

Lemma ledger_operations_keep_keys_unique_witness :
  LedgerSpec.ledgerUnique
    (snd (FingerprintingService.recordFingerprint LedgerSamples.db "user_2"
            "opp_7" "beef"))
  /\ LedgerSpec.ledgerUnique
       (FingerprintingService.updateFingerprintAction LedgerSamples.db
          "user_2" "opp_7" Store.hidden)
  /\ LedgerSpec.ledgerUnique
       (FingerprintingMaintenance.removeFingerprintRecord LedgerSamples.db
          "user_2" "opp_7").
Proof.
  exact (ledger_operations_keep_keys_unique LedgerSamples.db "user_2"
           "opp_7" "beef" Store.hidden LedgerFacts2.sample_ledger_unique).
Defined.

(** X8. On a ledger whose keys are unique, the batch check agrees with
    the single check: the map returned by [checkMultipleFingerprints]
    has an entry exactly for the fingerprints asked for, and the entry
    of a fingerprint is what [checkFingerprint] returns for it. *)
Theorem checkMultipleFingerprints_agrees_with_checkFingerprint
    (db : Store.Db) (user : string) (fps : list string) (fp : string) :
  LedgerSpec.ledgerUnique db ->
  FingerprintingMaintenance.checkMultipleFingerprints db user fps !! fp
  = if existsb (String.eqb fp) fps
    then Some (FingerprintingService.checkFingerprint db user fp)
    else None.
Proof.
  intros Hu. unfold FingerprintingMaintenance.checkMultipleFingerprints.
  cbv zeta.
  set (q := fun r : Store.FingerprintRow =>
              String.eqb (Store.fpUserId r) user
              && existsb (String.eqb (Store.fpFingerprint r)) fps).
  assert (Hnd : List.NoDup
                  (map Store.fpFingerprint
                     (List.filter q (Store.fingerprints db)))).
  { unfold LedgerSpec.ledgerUnique in Hu.
    induction (Store.fingerprints db) as [|r rows IH]; cbn; [constructor |].
    cbn [map] in Hu. apply List.NoDup_cons_iff in Hu as [Hfresh Hu].
    destruct (q r) eqn:Hq; cbn; [| auto].
    apply List.NoDup_cons; [| auto].
    intros Hin. apply Hfresh. apply in_map_iff in Hin as (r' & Hfp & Hin).
    apply filter_In in Hin as [Hin Hq'].
    apply in_map_iff. exists r'. split; [| assumption].
    unfold q in Hq, Hq'. apply andb_true_iff in Hq as [Hu1 _].
    apply andb_true_iff in Hq' as [Hu2 _].
    apply String.eqb_eq in Hu1, Hu2. unfold LedgerSpec.ledgerKey. congruence. }
  rewrite (LedgerFacts2.fold_recorded _ Hnd), LedgerFacts2.fold_notRecorded.
  rewrite lookup_empty, LedgerFacts2.find_filter_row.
  rewrite (LedgerFacts2.checkFingerprint_unique _ _ _ Hu).
  destruct (existsb (String.eqb fp) fps) eqn:Hfps.
  - assert (Hext : forall r,
               q r && String.eqb (Store.fpFingerprint r) fp
               = FingerprintingService.matchesKey user fp r).
    { intros r. unfold q, FingerprintingService.matchesKey.
      destruct (String.eqb (Store.fpFingerprint r) fp) eqn:Hr.
      - apply String.eqb_eq in Hr. rewrite Hr, Hfps.
        now rewrite !andb_true_r.
      - now rewrite !andb_false_r. }
    rewrite (LedgerFacts2.find_same _ _ _ Hext).
    destruct (List.find _ _); reflexivity.
  - assert (Hnone : forall r,
               q r && String.eqb (Store.fpFingerprint r) fp = false).
    { intros r. unfold q.
      destruct (String.eqb (Store.fpFingerprint r) fp) eqn:Hr.
      - apply String.eqb_eq in Hr. rewrite Hr, Hfps.
        now rewrite !andb_false_r.
      - now rewrite !andb_false_r. }
    rewrite (LedgerFacts2.find_same _ (fun _ => false) _ Hnone).
    assert (Hfind : forall l : list Store.FingerprintRow,
               List.find (fun _ => false) l = None)
      by (induction l; [reflexivity | assumption]).
    now rewrite Hfind.
Qed.

Lemma checkMultipleFingerprints_agrees_with_checkFingerprint_witness :
  FingerprintingMaintenance.checkMultipleFingerprints LedgerSamples.db
    "user_1" ["f00d"; "cafe"] !! "f00d"
  = Some (FingerprintingService.checkFingerprint LedgerSamples.db "user_1"
            "f00d").
Proof.
  exact (checkMultipleFingerprints_agrees_with_checkFingerprint
           LedgerSamples.db "user_1" ["f00d"; "cafe"] "f00d"
           LedgerFacts2.sample_ledger_unique).
Defined.

(** X9. [updateFingerprintAction] changes the action of the rows of one
    opportunity of one user and nothing else.  On a ledger whose keys
    are unique, a check made afterwards, for any user and fingerprint,
    returns what it returned before, except that the action is the new
    one when the check is the user's and names that opportunity; in
    particular no fingerprint starts or stops being known. *)
Theorem updateFingerprintAction_changes_only_the_action
    (db : Store.Db) (user oppId : string) (a : Store.FingerprintAction)
    (user' fp : string) :
  LedgerSpec.ledgerUnique db ->
  oppId <> "" ->
  let before := FingerprintingService.checkFingerprint db user' fp in
  FingerprintingService.checkFingerprint
    (FingerprintingService.updateFingerprintAction db user oppId a) user' fp
  = if String.eqb user' user && LedgerSpec.namesOpportunity before oppId
    then LedgerSpec.withAction before (Some a)
    else before.
Proof.
  intros Hu Hne. cbv zeta.
  assert (Hu' : LedgerSpec.ledgerUnique
                  (FingerprintingService.updateFingerprintAction db user oppId a)).
  { unfold LedgerSpec.ledgerUnique,
      FingerprintingService.updateFingerprintAction.
    cbn [Store.fingerprints]. now rewrite LedgerFacts2.ledgerKey_updated. }
  rewrite (LedgerFacts2.checkFingerprint_unique _ _ _ Hu'),
    (LedgerFacts2.checkFingerprint_unique _ _ _ Hu).
  unfold FingerprintingService.updateFingerprintAction.
  cbn [Store.fingerprints]. rewrite LedgerFacts2.find_updated_row.
  destruct (List.find (FingerprintingService.matchesKey user' fp)
              (Store.fingerprints db)) as [r|] eqn:Hfind; cbn [option_map].
  - apply find_some in Hfind as [_ Hm].
    unfold FingerprintingService.matchesKey in Hm.
    apply andb_true_iff in Hm as [Hm _]. apply String.eqb_eq in Hm.
    unfold LedgerSpec.namesOpportunity, FingerprintingMaintenance.recorded,
      FingerprintingMaintenance.ofOpportunity.
    cbn [FingerprintingService.opportunityId].
    rewrite (LedgerFacts2.orUndefined_names _ _ Hne), Hm.
    destruct (String.eqb user' user
              && match Store.fpOpportunityId r with
                 | Some o => String.eqb o oppId
                 | None => false
                 end); reflexivity.
  - unfold LedgerSpec.namesOpportunity, FingerprintingMaintenance.notRecorded.
    cbn. now rewrite andb_false_r.
Qed.

Lemma updateFingerprintAction_changes_only_the_action_witness :
  FingerprintingService.checkFingerprint
    (FingerprintingService.updateFingerprintAction LedgerSamples.db "user_1"
       "opp_1" Store.not_interested) "user_1" "f00d"
  = FingerprintingService.CheckResult true (Some Store.not_interested)
      (Some 1770000000000) (Some "opp_1").
Proof.
  exact (updateFingerprintAction_changes_only_the_action LedgerSamples.db
           "user_1" "opp_1" Store.not_interested "user_1" "f00d"
           LedgerFacts2.sample_ledger_unique ltac:(discriminate)).
Defined.

(** X10. [removeFingerprintRecord] forgets the fingerprints of one
    opportunity of one user and nothing else.  On a ledger whose keys
    are unique, a check made afterwards returns what it returned before,
    except that a fingerprint of that user which named that opportunity
    is reported as not recorded, so that it can be imported again. *)
Theorem removeFingerprintRecord_forgets_only_that_opportunity
    (db : Store.Db) (user oppId user' fp : string) :
  LedgerSpec.ledgerUnique db ->
  oppId <> "" ->
  let before := FingerprintingService.checkFingerprint db user' fp in
  FingerprintingService.checkFingerprint
    (FingerprintingMaintenance.removeFingerprintRecord db user oppId) user' fp
  = if String.eqb user' user && LedgerSpec.namesOpportunity before oppId
    then FingerprintingMaintenance.notRecorded
    else before.
Proof.
  intros Hu Hne. cbv zeta.
  assert (Hu' : LedgerSpec.ledgerUnique
                  (FingerprintingMaintenance.removeFingerprintRecord db user oppId)).
  { unfold LedgerSpec.ledgerUnique,
      FingerprintingMaintenance.removeFingerprintRecord.
    cbn [Store.fingerprints]. now apply LedgerFacts2.NoDup_map_filter. }
  rewrite (LedgerFacts2.checkFingerprint_unique _ _ _ Hu'),
    (LedgerFacts2.checkFingerprint_unique _ _ _ Hu).
  unfold FingerprintingMaintenance.removeFingerprintRecord.
  cbn [Store.fingerprints]. rewrite LedgerFacts2.find_filter_row.
  unfold LedgerSpec.ledgerUnique in Hu.
  induction (Store.fingerprints db) as [|r rows IH]; cbn [List.find].
  - unfold LedgerSpec.namesOpportunity, FingerprintingMaintenance.notRecorded.
    cbn. now rewrite andb_false_r.
  - cbn [map] in Hu. apply List.NoDup_cons_iff in Hu as [Hfresh Hu].
    destruct (FingerprintingService.matchesKey user' fp r) eqn:Hm.
    + pose proof Hm as Hkey. apply LedgerFacts2.matchesKey_key in Hkey.
      unfold FingerprintingService.matchesKey in Hm.
      apply andb_true_iff in Hm as [Hm _]. apply String.eqb_eq in Hm.
      unfold LedgerSpec.namesOpportunity, FingerprintingMaintenance.recorded.
      cbn [FingerprintingService.opportunityId].
      rewrite (LedgerFacts2.orUndefined_names _ _ Hne).
      unfold FingerprintingMaintenance.ofOpportunity. rewrite Hm.
      destruct (String.eqb user' user
                && match Store.fpOpportunityId r with
                   | Some o => String.eqb o oppId
                   | None => false
                   end); cbn [negb andb]; [| reflexivity].
      destruct (List.find _ rows) as [r'|] eqn:Hfind; [| reflexivity].
      exfalso. apply Hfresh. apply find_some in Hfind as [Hin Hr'].
      apply andb_true_iff in Hr' as [_ Hr'].
      apply LedgerFacts2.matchesKey_key in Hr'.
      rewrite Hkey, <- Hr'. now apply in_map.
    + rewrite andb_false_r. now apply IH.
Qed.

Lemma removeFingerprintRecord_forgets_only_that_opportunity_witness :
  FingerprintingService.checkFingerprint
    (FingerprintingMaintenance.removeFingerprintRecord LedgerSamples.db
       "user_1" "opp_1") "user_1" "f00d"
  = FingerprintingMaintenance.notRecorded
  /\ FingerprintingService.checkFingerprint
       (FingerprintingMaintenance.removeFingerprintRecord LedgerSamples.db
          "user_1" "opp_1") "user_2" "f00d"
     = FingerprintingService.checkFingerprint LedgerSamples.db "user_2" "f00d".
Proof.
  split.
  - exact (removeFingerprintRecord_forgets_only_that_opportunity
             LedgerSamples.db "user_1" "opp_1" "user_1" "f00d"
             LedgerFacts2.sample_ledger_unique ltac:(discriminate)).
  - exact (removeFingerprintRecord_forgets_only_that_opportunity
             LedgerSamples.db "user_1" "opp_1" "user_2" "f00d"
             LedgerFacts2.sample_ledger_unique ltac:(discriminate)).
Defined.

(** ** Child opportunities *)

Module ChildRowsFacts.
Import Store NecoExtractor ChildOpportunitiesService ChildRowsSpec.
Local Open Scope list_scope.

Lemma known_check db user fp :
  FingerprintingService.exists_
    (FingerprintingService.checkFingerprint db user fp)
  = known db user fp.
Proof.
  unfold known, FingerprintingService.checkFingerprint.
  destruct (FingerprintingService.latest _) as [r|] eqn:Hl;
    cbn [FingerprintingService.exists_].
  - symmetry. apply existsb_exists.
    assert (Hin : In r (List.filter
                          (FingerprintingService.matchesKey user fp)
                          (fingerprints db))).
    { revert Hl. unfold FingerprintingService.latest.
      generalize (List.filter (FingerprintingService.matchesKey user fp)
                    (fingerprints db)).
      intros l.
      assert (H : forall acc,
                 fold_left
                   (fun best r0 =>
                      match best with
                      | None => Some r0
                      | Some b =>
                          if fpCreatedAt b <? fpCreatedAt r0
                          then Some r0 else Some b
                      end) l acc = Some r ->
                 In r l \/ acc = Some r).
      { induction l as [|x l IH]; intros acc; cbn; [auto |].
        intros Hf. apply IH in Hf as [Hin | Hacc]; [auto |].
        destruct acc as [b|]; [destruct (fpCreatedAt b <? fpCreatedAt x) |];
          injection Hacc as <-; auto. }
      intros Hl. apply H in Hl as [Hin | Habs]; [assumption | discriminate]. }
    apply filter_In in Hin as [Hin Hm]. eauto.
  - symmetry. apply not_true_is_false. intros Hex.
    apply existsb_exists in Hex as (r & Hin & Hm).
    assert (Hin' : In r (List.filter
                           (FingerprintingService.matchesKey user fp)
                           (fingerprints db)))
      by (apply filter_In; auto).
    destruct (List.filter _ _) as [|x l]; [exact Hin' |].
    revert Hl. unfold FingerprintingService.latest. cbn [fold_left].
    generalize x. clear. induction l as [|y l IH]; intros b; cbn;
      [discriminate |].
    destruct (fpCreatedAt b <? fpCreatedAt y); apply IH.
Qed.

(** One turn of the loop, when it returns. *)
Lemma createChild_turn parent necoData c db li c1 db1 :
  createChild parent necoData (Returned c, db) li = (Returned c1, db1) ->
  let fp := generateChildFingerprint (solicitationNumber parent) li in
  (c1 = c /\ db1 = db /\ known db (Store.userId parent) fp = true)
  \/ (c1 = S c
      /\ known db (Store.userId parent) fp = false
      /\ opportunities db1
         = opportunities db
           ++ [childRow parent necoData li fp (newId (idSeed db))]
      /\ fingerprints db1
         = fingerprints db
           ++ [FpRow (Store.userId parent) fp (Some (newId (idSeed db)))
                 (Some deleted) (clock db)]).
Proof.
  cbv zeta. unfold createChild. rewrite known_check.
  destruct (known db (Store.userId parent) _) eqn:Hk.
  - intros [= <- <-]. auto.
  - unfold createOpportunity.
    destruct (existsb _ (opportunities db)); [discriminate |].
    unfold FingerprintingService.recordFingerprint.
    cbn [fingerprints opportunities idSeed clock writes Store.id childRow].
    fold (known db (Store.userId parent)
            (generateChildFingerprint (solicitationNumber parent) li)).
    rewrite Hk. intros [= <- <-]. right. cbn. auto.
Qed.


Lemma known_app_row db db1 user fp row :
  fingerprints db1 = fingerprints db ++ [row] ->
  known db1 user fp
  = known db user fp || FingerprintingService.matchesKey user fp row.
Proof.
  intros H. unfold known. rewrite H, existsb_app. cbn.
  now rewrite orb_false_r.
Qed.

Lemma childRow_isChildOf parent necoData li fp newId :
  isChildOf parent (childRow parent necoData li fp newId).
Proof. unfold isChildOf, childRow. cbn. repeat split. Qed.

Lemma createChild_returns parent necoData items :
  forall c db c' db',
    fold_left (createChild parent necoData) items (Returned c, db)
    = (Returned c', db') ->
    LoopResult parent necoData items c db c' db'.
Proof.
  induction items as [|li items IH]; intros c db c' db'.
  - cbn. intros [= <- <-]. exists []. rewrite app_nil_r, Nat.add_0_r.
    repeat split; auto; constructor.
  - cbn [fold_left].
    destruct (createChild parent necoData (Returned c, db) li)
      as [[c1 | e] db1] eqn:Hstep;
      [| now rewrite ChildFacts.createChild_raised].
    intros Hrest. apply IH in Hrest.
    destruct Hrest as (children & Hopps & Hcount & Hlen & Hchild & Hmade
                       & Hnew & Hrec & Hnd & Hmono & Hitems).
    apply createChild_turn in Hstep. cbv zeta in Hstep.
    destruct Hstep as [(-> & -> & Hk) | (-> & Hk & Ho1 & Hf1)].
    + exists children. repeat split; auto.
      * cbn [List.length]. lia.
      * eapply List.Forall_impl; [| exact Hmade].
        intros ch (li' & Hin & Hrest). exists li'. split; [now right | auto].
    + set (fp := generateChildFingerprint (solicitationNumber parent) li)
        in *.
      set (child := childRow parent necoData li fp (newId (idSeed db))) in *.
      assert (Hk1 : known db1 (Store.userId parent) fp = true).
      { rewrite (known_app_row _ _ _ _ _ Hf1).
        unfold FingerprintingService.matchesKey.
        cbn [fpUserId fpFingerprint].
        rewrite !String.eqb_refl. apply orb_true_r. }
      assert (Hmono1 : forall u k, known db u k = true -> known db1 u k = true).
      { intros u k H. rewrite (known_app_row _ _ _ _ _ Hf1), H. reflexivity. }
      exists (child :: children). repeat split.
      * rewrite Hopps, Ho1, <- app_assoc. reflexivity.
      * cbn [List.length]. lia.
      * cbn [List.length]. lia.
      * constructor; [apply childRow_isChildOf | assumption].
      * constructor.
        -- exists li. split; [now left |]. unfold child, childRow. cbn. auto.
        -- eapply List.Forall_impl; [| exact Hmade].
           intros ch (li' & Hin & Hrest). exists li'.
           split; [now right | auto].
      * constructor; [exact Hk |].
        eapply List.Forall_impl; [| exact Hnew]. cbn beta. intros ch Hch.
        destruct (known db (Store.userId parent) (fingerprint ch)) eqn:Hd;
          [| reflexivity].
        apply Hmono1 in Hd. congruence.
      * constructor; [now apply Hmono |]. assumption.
      * cbn [map]. apply List.NoDup_cons; [| assumption].
        intros Hin. apply in_map_iff in Hin as (ch & Hfp & Hin).
        rewrite List.Forall_forall in Hnew. specialize (Hnew ch Hin).
        cbn in Hfp. unfold child, childRow in Hfp. cbn in Hfp.
        rewrite Hfp in Hnew. congruence.
      * intros u k H. auto.
      * constructor; [now apply Hmono | assumption].
Qed.


(** The call, once the parent is found: nothing happens, or the loop runs
    and the count is written. *)
Lemma createChildren_cases db parentId necoData parent n db' :
  findUnique db parentId = Some parent ->
  createChildrenFromScraping db parentId necoData = (Returned n, db') ->
  (n = 0%nat /\ db' = db)
  \/ ((1 < List.length (lineItems necoData))%nat
      /\ isFalsy (parentOpportunityId parent) = true
      /\ childrenCount parent = 0%nat
      /\ exists db1,
           fold_left (createChild parent necoData) (lineItems necoData)
             (Returned 0%nat, db)
           = (Returned n, db1)
           /\ fingerprints db' = fingerprints db1
           /\ opportunities db'
              = withCountWritten parentId n (opportunities db1)).
Proof.
  intros Hfind. unfold createChildrenFromScraping. rewrite Hfind.
  destruct (List.length (lineItems necoData) <=? 1)%nat eqn:Hlen;
    [intros [= <- <-]; auto |].
  apply Nat.leb_gt in Hlen.
  destruct (isFalsy (parentOpportunityId parent)) eqn:Hpar; cbn [negb];
    [| intros [= <- <-]; auto].
  destruct (0 <? childrenCount parent)%nat eqn:Hcount;
    [intros [= <- <-]; auto |].
  apply Nat.ltb_ge in Hcount.
  destruct (fold_left _ _ _) as [[created | e] db1] eqn:Hloop;
    [| discriminate].
  unfold withCountWritten.
  destruct (0 <? created)%nat eqn:Hpos.
  - unfold updateChildrenCount.
    destruct (findUnique db1 parentId); [| discriminate].
    intros [= <- <-]. right. repeat split; try assumption; try lia.
    exists db1. rewrite Hpos. cbn. auto.
  - intros [= <- <-]. right. repeat split; try assumption; try lia.
    exists db1. rewrite Hpos. auto.
Qed.

End ChildRowsFacts.

(** X11. What [createChildrenFromScraping] adds to the store when it
    returns [n]: exactly [n] rows, appended after the existing ones, at
    most one for each line item; every one of them points to the parent
    and carries the parent's tenant, email, template, solicitation
    number and closing date, and takes its fingerprint, NSN, part number
    and manufacturer from one of the line items.  No existing row is
    changed, except that the parent's [childrenCount] becomes [n] when
    [n] is positive. *)
Theorem createChildrenFromScraping_appends_children_of_the_parent
    (db : Store.Db) (parentId : string)
    (necoData : NecoExtractor.NecoExtractedData) (parent : Store.Opportunity)
    (n : nat) (db' : Store.Db) :
  Store.findUnique db parentId = Some parent ->
  ChildOpportunitiesService.createChildrenFromScraping db parentId necoData
  = (Store.Returned n, db') ->
  exists children,
    Store.opportunities db'
    = ChildRowsSpec.withCountWritten parentId n
        (Store.opportunities db ++ children)%list
    /\ List.length children = n
    /\ (n <= List.length (NecoExtractor.lineItems necoData))%nat
    /\ Forall (ChildRowsSpec.isChildOf parent) children
    /\ Forall (ChildRowsSpec.madeFrom parent (NecoExtractor.lineItems necoData))
         children.
Proof.
  intros Hfind Hcall.
  destruct (ChildRowsFacts.createChildren_cases _ _ _ _ _ _ Hfind Hcall)
    as [[-> ->] | (_ & _ & _ & db1 & Hloop & _ & Hopps)].
  - exists []. rewrite app_nil_r. repeat split; try constructor. lia.
  - apply ChildRowsFacts.createChild_returns in Hloop.
    destruct Hloop as (children & Ho1 & Hcount & Hlen & Hchild & Hmade & _).
    exists children. rewrite Hopps, Ho1. repeat split; auto; lia.
Qed.


Lemma createChildrenFromScraping_appends_children_of_the_parent_witness :
  exists children,
    Store.opportunities
      (snd (ChildOpportunitiesService.createChildrenFromScraping Samples.db
              "opp_1" Samples.document))
    = ChildRowsSpec.withCountWritten "opp_1" 2
        (Store.opportunities Samples.db ++ children)%list
    /\ List.length children = 2%nat
    /\ (2 <= List.length (NecoExtractor.lineItems Samples.document))%nat
    /\ Forall (ChildRowsSpec.isChildOf Samples.parent) children
    /\ Forall (ChildRowsSpec.madeFrom Samples.parent
                 (NecoExtractor.lineItems Samples.document)) children.
Proof.
  apply (createChildrenFromScraping_appends_children_of_the_parent
           Samples.db "opp_1" Samples.document Samples.parent 2).
  - reflexivity.
  - vm_compute. reflexivity.
Defined.

(** X12. The children created by one call of
    [createChildrenFromScraping] have pairwise distinct fingerprints;
    none of these fingerprints was in the tenant's ledger before the
    call and all of them are in it afterwards, and no fingerprint of any
    tenant leaves the ledger.  So a line item whose fingerprint is
    already recorded, or repeats one met earlier in the same document,
    creates no second child. *)
Theorem createChildrenFromScraping_creates_no_duplicate_fingerprint
    (db : Store.Db) (parentId : string)
    (necoData : NecoExtractor.NecoExtractedData) (parent : Store.Opportunity)
    (n : nat) (db' : Store.Db) :
  Store.findUnique db parentId = Some parent ->
  ChildOpportunitiesService.createChildrenFromScraping db parentId necoData
  = (Store.Returned n, db') ->
  exists children,
    Store.opportunities db'
    = ChildRowsSpec.withCountWritten parentId n
        (Store.opportunities db ++ children)%list
    /\ List.NoDup (map Store.fingerprint children)
    /\ Forall
         (fun child =>
            FingerprintingService.exists_
              (FingerprintingService.checkFingerprint db
                 (Store.userId parent) (Store.fingerprint child)) = false
            /\ FingerprintingService.exists_
                 (FingerprintingService.checkFingerprint db'
                    (Store.userId parent) (Store.fingerprint child)) = true)
         children
    /\ forall user fp,
         FingerprintingService.exists_
           (FingerprintingService.checkFingerprint db user fp) = true ->
         FingerprintingService.exists_
           (FingerprintingService.checkFingerprint db' user fp) = true.
Proof.
  intros Hfind Hcall.
  destruct (ChildRowsFacts.createChildren_cases _ _ _ _ _ _ Hfind Hcall)
    as [[-> ->] | (_ & _ & _ & db1 & Hloop & Hfps & Hopps)].
  - exists []. rewrite app_nil_r. repeat split; try constructor. auto.
  - apply ChildRowsFacts.createChild_returns in Hloop.
    destruct Hloop as (children & Ho1 & _ & _ & _ & _ & Hnew & Hrec & Hnd
                       & Hmono & _).
    assert (Hk : forall u k,
               ChildRowsSpec.known db' u k = ChildRowsSpec.known db1 u k).
    { intros u k. unfold ChildRowsSpec.known. now rewrite Hfps. }
    exists children. rewrite Hopps, Ho1. repeat split; auto.
    + rewrite List.Forall_forall in *. intros ch Hin.
      rewrite !ChildRowsFacts.known_check, Hk. auto.
    + intros user fp. rewrite !ChildRowsFacts.known_check, Hk. auto.
Qed.

Lemma createChildrenFromScraping_creates_no_duplicate_fingerprint_witness :
  exists children,
    Store.opportunities
      (snd (ChildOpportunitiesService.createChildrenFromScraping Samples.db
              "opp_1" Samples.document))
    = ChildRowsSpec.withCountWritten "opp_1" 2
        (Store.opportunities Samples.db ++ children)%list
    /\ List.NoDup (map Store.fingerprint children).
Proof.
  destruct (createChildrenFromScraping_creates_no_duplicate_fingerprint
              Samples.db "opp_1" Samples.document Samples.parent 2
              (snd (ChildOpportunitiesService.createChildrenFromScraping
                      Samples.db "opp_1" Samples.document)))
    as (children & Hopps & Hnd & _).
  - reflexivity.
  - vm_compute. reflexivity.
  - exists children. split; [exact Hopps | exact Hnd].
Defined.

(** X13. When the guard of [createChildrenFromScraping] lets the call
    through (more than one line item, a parent that is no child and has
    no children yet) and the call returns, the fingerprint of every line
    item of the document is in the tenant's ledger afterwards, whether
    the call created its child or found it recorded already. *)
Theorem createChildrenFromScraping_records_every_line_item
    (db : Store.Db) (parentId : string)
    (necoData : NecoExtractor.NecoExtractedData) (parent : Store.Opportunity)
    (n : nat) (db' : Store.Db) :
  Store.findUnique db parentId = Some parent ->
  (1 < List.length (NecoExtractor.lineItems necoData))%nat ->
  NecoExtractor.isFalsy (Store.parentOpportunityId parent) = true ->
  Store.childrenCount parent = 0%nat ->
  ChildOpportunitiesService.createChildrenFromScraping db parentId necoData
  = (Store.Returned n, db') ->
  Forall
    (fun li =>
       FingerprintingService.exists_
         (FingerprintingService.checkFingerprint db' (Store.userId parent)
            (ChildOpportunitiesService.generateChildFingerprint
               (Store.solicitationNumber parent) li)) = true)
    (NecoExtractor.lineItems necoData).
Proof.
  intros Hfind Hlen Hpar Hcount.
  unfold ChildOpportunitiesService.createChildrenFromScraping.
  rewrite Hfind, Hpar, Hcount.
  destruct (List.length (NecoExtractor.lineItems necoData) <=? 1)%nat eqn:Hle;
    [apply Nat.leb_le in Hle; lia |].
  cbn [negb]. change (0 <? 0)%nat with false. cbv iota.
  destruct (fold_left _ _ _) as [[created | e] db1] eqn:Hloop;
    [| discriminate].
  apply ChildRowsFacts.createChild_returns in Hloop.
  destruct Hloop as (children & _ & _ & _ & _ & _ & _ & _ & _ & _ & Hitems).
  assert (Hdone : forall db2,
             Store.fingerprints db2 = Store.fingerprints db1 ->
             Forall
               (fun li =>
                  FingerprintingService.exists_
                    (FingerprintingService.checkFingerprint db2
                       (Store.userId parent)
                       (ChildOpportunitiesService.generateChildFingerprint
                          (Store.solicitationNumber parent) li)) = true)
               (NecoExtractor.lineItems necoData)).
  { intros db2 Hfps. eapply List.Forall_impl; [| exact Hitems].
    cbn beta. intros li Hli. rewrite ChildRowsFacts.known_check.
    unfold ChildRowsSpec.known in *. now rewrite Hfps. }
  destruct (0 <? created)%nat.
  - unfold Store.updateChildrenCount.
    destruct (Store.findUnique db1 parentId); cbv beta iota;
      [| discriminate].
    intros [= <- <-]. now apply Hdone.
  - intros [= <- <-]. now apply Hdone.
Qed.

Lemma createChildrenFromScraping_records_every_line_item_witness :
  Forall
    (fun li =>
       FingerprintingService.exists_
         (FingerprintingService.checkFingerprint
            (snd (ChildOpportunitiesService.createChildrenFromScraping
                    Samples.db "opp_1" Samples.document))
            "user_1"
            (ChildOpportunitiesService.generateChildFingerprint
               (Some "N0010426QAB12") li)) = true)
    (NecoExtractor.lineItems Samples.document).
Proof.
  apply (createChildrenFromScraping_records_every_line_item Samples.db
           "opp_1" Samples.document Samples.parent 2).
  - reflexivity.
  - cbn. lia.
  - reflexivity.
  - reflexivity.
  - vm_compute. reflexivity.
Defined.

(** ** Opportunities: creation, deletion, status and counts *)

Module OpportunityFacts.
Import Store OpportunitiesService OpportunitySpec.
Local Open Scope list_scope.

Lemma known_exists d user fp :
  FingerprintingService.exists_
    (FingerprintingService.checkFingerprint d user fp)
  = existsb (FingerprintingService.matchesKey user fp) (fingerprints d).
Proof. apply LedgerFacts2.checkFingerprint_exists. Qed.

(** What a [create] that returns has done. *)
Lemma create_returned st user dto o st1 :
  create st user dto = (Returned o, st1) ->
  exists closing delivery,
    existsb (FingerprintingService.matchesKey user (dtoFingerprint dto))
      (fingerprints (db st)) = false
    /\ existsb (sameOpportunityKey
                  (newRow user dto closing delivery (newId (idSeed (db st)))))
         (opportunities (db st)) = false
    /\ o = newRow user dto closing delivery (newId (idSeed (db st)))
    /\ opportunities (db st1) = opportunities (db st) ++ [o]
    /\ fingerprints (db st1)
       = fingerprints (db st)
         ++ [FpRow user (dtoFingerprint dto) (Some (id o)) (Some deleted)
               (clock (db st))]
    /\ flows st1 !! id o
       = Some (Flow None false None None None None None None
                 (option_map (calculateDaysUntilClosing (clock (db st)))
                    closing)
                 (match option_map (calculateDaysUntilClosing (clock (db st)))
                          closing with
                  | Some d => if d =? 0 then None
                              else Some (urgencyValue (calculateUrgency d))
                  | None => None
                  end))
    /\ dateValue (dtoClosingDate dto) = Some closing
    /\ dateValue (dtoDeliveryDate dto) = Some delivery.
Proof.
  unfold create. rewrite known_exists.
  destruct (existsb _ (fingerprints (db st))) eqn:Hk; [discriminate |].
  destruct (dateValue (dtoClosingDate dto)) as [closing|] eqn:Hc;
    [| discriminate].
  destruct (dateValue (dtoDeliveryDate dto)) as [delivery|] eqn:Hd;
    [| discriminate].
  unfold createOpportunity.
  destruct (existsb (sameOpportunityKey _) _) eqn:Hdup; [discriminate |].
  unfold FingerprintingService.recordFingerprint.
  cbn [fingerprints db withDb withFlow]. rewrite Hk.
  intros [= <- <-]. exists closing, delivery.
  cbn [db withDb opportunities fingerprints flows id newRow].
  repeat split; try reflexivity; try assumption.
  apply lookup_insert_eq.
Qed.

End OpportunityFacts.

Module OpportunityFacts2.
Import Store OpportunitiesService OpportunitySpec.
Local Open Scope list_scope.

Lemma newId_nonempty seed : JsString.isEmpty (newId seed) = false.
Proof. reflexivity. Qed.

Lemma check_after_create st user dto o st1 :
  create st user dto = (Returned o, st1) ->
  FingerprintingService.checkFingerprint (db st1) user (dtoFingerprint dto)
  = FingerprintingService.CheckResult true (Some deleted)
      (Some (clock (db st))) (Some (id o)).
Proof.
  intros Hc. apply OpportunityFacts.create_returned in Hc.
  destruct Hc as (closing & delivery & Hk & _ & Ho & _ & Hf & _ & _ & _).
  unfold FingerprintingService.checkFingerprint.
  rewrite Hf, List.filter_app, (filter_none_matches _ _ _ Hk).
  cbn [List.filter app]. rewrite matchesKey_refl.
  unfold FingerprintingService.latest.
  cbn [fold_left fpAction fpCreatedAt fpOpportunityId].
  rewrite Ho. cbn [id newRow].
  unfold FingerprintingService.orUndefined. now rewrite newId_nonempty.
Qed.

End OpportunityFacts2.



Module OpportunityFacts3.
Import Store OpportunitiesService OpportunitySpec.
Local Open Scope list_scope.

Lemma find_nothing {A : Type} (p : A -> bool) (l : list A) :
  (forall x, In x l -> p x = false) -> List.find p l = None.
Proof.
  induction l as [|x l IH]; intros H; [reflexivity |]. cbn.
  rewrite (H x) by now left. apply IH. intros y Hy. apply H. now right.
Qed.

Lemma existsb_updated user oppId a u fp rows :
  existsb (FingerprintingService.matchesKey u fp)
    (map (fun r =>
            if String.eqb (fpUserId r) user
               && match fpOpportunityId r with
                  | Some o => String.eqb o oppId
                  | None => false
                  end
            then FpRow (fpUserId r) (fpFingerprint r) (fpOpportunityId r)
                       (Some a) (fpCreatedAt r)
            else r) rows)
  = existsb (FingerprintingService.matchesKey u fp) rows.
Proof.
  induction rows as [|r rows IH]; [reflexivity |]. cbn [map existsb].
  rewrite IH. f_equal. destruct (_ && _); reflexivity.
Qed.

Lemma flowOf_lookup st k w : flows st !! k = Some w -> flowOf st k = w.
Proof. unfold flowOf. now intros ->. Qed.

(** [findOne] changes at most the viewed mark of the row it returns. *)
Lemma findOne_returned st oppId user o st1 :
  findOne st oppId user = (Returned o, st1) ->
  findActive st oppId user = Some o
  /\ db st1 = db st
  /\ alerts st1 = alerts st
  /\ emitted st1 = emitted st
  /\ (forall k, k <> oppId -> flows st1 !! k = flows st !! k)
  /\ deletedAt (flowOf st1 oppId) = deletedAt (flowOf st oppId)
  /\ statusHistory (flowOf st1 oppId) = statusHistory (flowOf st oppId).
Proof.
  unfold findOne. destruct (findActive st oppId user) as [x|]; [| discriminate].
  destruct (isViewed (flowOf st oppId)).
  - intros [= <- <-]. auto 10.
  - intros [= <- <-]. cbn [db alerts emitted flows withFlow].
    repeat split; auto.
    + intros k Hk. now apply lookup_insert_ne.
    + unfold flowOf at 1. cbn [flows withFlow]. now rewrite lookup_insert_eq.
    + unfold flowOf at 1. cbn [flows withFlow]. now rewrite lookup_insert_eq.
Qed.

Lemma softDelete_returned st oppId user st' :
  softDelete st oppId user = (Returned tt, st') ->
  opportunities (db st') = opportunities (db st)
  /\ (exists w, flows st' !! oppId = Some w /\ deletedAt w <> None)
  /\ forall u fp,
       existsb (FingerprintingService.matchesKey u fp) (fingerprints (db st'))
       = existsb (FingerprintingService.matchesKey u fp) (fingerprints (db st)).
Proof.
  unfold softDelete.
  destruct (findOne st oppId user) as [[o | e] st1] eqn:Hfind; [| discriminate].
  apply findOne_returned in Hfind as (_ & Hdb & _).
  intros [= <-]. cbn [db withDb withFlow flows opportunities fingerprints
                        FingerprintingService.updateFingerprintAction].
  rewrite Hdb. split; [reflexivity |]. split.
  - eexists. split; [apply lookup_insert_eq | discriminate].
  - intros u fp. apply existsb_updated.
Qed.

End OpportunityFacts3.

(** X15. A soft delete hides the opportunity and keeps its fingerprint.
    After [softDelete] has returned, [findOne] on the same opportunity
    raises NotFoundException; the rows of the table are those of before;
    every fingerprint of every user is known to the ledger exactly when
    it was known before; so a [create] of a fingerprint the ledger knew
    still raises ConflictException and changes nothing: a deleted
    opportunity is not imported again. *)
Theorem softDelete_hides_the_row_and_keeps_the_fingerprint
    (st : OpportunitiesService.State) (oppId user : string)
    (st' : OpportunitiesService.State) :
  OpportunitiesService.softDelete st oppId user = (Store.Returned tt, st') ->
  OpportunitiesService.findOne st' oppId user
  = (Store.Raised "NotFoundException", st')
  /\ Store.opportunities (OpportunitiesService.db st')
     = Store.opportunities (OpportunitiesService.db st)
  /\ (forall u fp,
        FingerprintingService.exists_
          (FingerprintingService.checkFingerprint
             (OpportunitiesService.db st') u fp)
        = FingerprintingService.exists_
            (FingerprintingService.checkFingerprint
               (OpportunitiesService.db st) u fp))
  /\ forall dto,
       FingerprintingService.exists_
         (FingerprintingService.checkFingerprint
            (OpportunitiesService.db st) user
            (OpportunitiesService.dtoFingerprint dto)) = true ->
       OpportunitiesService.create st' user dto
       = (Store.Raised "ConflictException", st').
Proof.
  intros Hdel.
  destruct (OpportunityFacts3.softDelete_returned _ _ _ _ Hdel)
    as (Hopps & (w & Hw & Hgone) & Hknown).
  assert (Hsame : forall u fp,
             FingerprintingService.exists_
               (FingerprintingService.checkFingerprint
                  (OpportunitiesService.db st') u fp)
             = FingerprintingService.exists_
                 (FingerprintingService.checkFingerprint
                    (OpportunitiesService.db st) u fp)).
  { intros u fp. rewrite !OpportunityFacts.known_exists. apply Hknown. }
  split; [| split; [exact Hopps | split; [exact Hsame |]]].
  - unfold OpportunitiesService.findOne, OpportunitiesService.findActive.
    rewrite OpportunityFacts3.find_nothing; [reflexivity |].
    intros o _.
    destruct (String.eqb (Store.id o) oppId) eqn:Hid; [| reflexivity].
    apply String.eqb_eq in Hid. rewrite Hid.
    rewrite (OpportunityFacts3.flowOf_lookup _ _ _ Hw).
    destruct (OpportunitiesService.deletedAt w); [| congruence].
    cbn [OpportunitiesService.isNull]. apply andb_false_r.
  - intros dto Hk. unfold OpportunitiesService.create.
    now rewrite Hsame, Hk.
Qed.

Module OpportunityFacts4.
Import Store OpportunitiesService OpportunitySpec.
Local Open Scope list_scope.

Lemma cascade_keeps fuel rows : forall gone x,
  In x gone -> In x (cascade fuel rows gone).
Proof.
  induction fuel as [|fuel IH]; intros gone x Hin; [exact Hin |].
  cbn [cascade]. apply IH. apply in_or_app. now left.
Qed.

Lemma inIds_In ids x : inIds ids x = true <-> In x ids.
Proof.
  unfold inIds. rewrite existsb_exists. split.
  - intros (y & Hin & Heq). apply String.eqb_eq in Heq. now subst.
  - intros Hin. exists x. split; [assumption | apply String.eqb_refl].
Qed.

Lemma existsb_filter_false {A : Type} (p q : A -> bool) (l : list A) :
  existsb p l = false -> existsb p (List.filter q l) = false.
Proof.
  induction l as [|x l IH]; [reflexivity |]. cbn.
  intros H. apply orb_false_iff in H as [Hx Hl].
  destruct (q x); cbn; [rewrite Hx |]; auto.
Qed.

Lemma existsb_same {A : Type} (p q : A -> bool) (l : list A) :
  (forall x, p x = q x) -> existsb p l = existsb q l.
Proof.
  intros H. induction l as [|x l IH]; [reflexivity |]. cbn.
  now rewrite H, IH.
Qed.

(** The ledger after the row of a fresh [create] is deleted for good. *)
Lemma ledger_after_delete user fp newId gone old t :
  existsb (FingerprintingService.matchesKey user fp) old = false ->
  existsb (FingerprintingService.matchesKey user fp)
    (map (fun r =>
            match fpOpportunityId r with
            | Some o =>
                if inIds gone o
                then FpRow (fpUserId r) (fpFingerprint r) None (fpAction r)
                       (fpCreatedAt r)
                else r
            | None => r
            end)
       (List.filter
          (fun r => negb (FingerprintingMaintenance.ofOpportunity user newId r))
          (old ++ [FpRow user fp (Some newId) (Some deleted) t])))
  = false.
Proof.
  intros Hold. rewrite List.filter_app. cbn [List.filter].
  unfold FingerprintingMaintenance.ofOpportunity at 2.
  cbn [fpUserId fpOpportunityId]. rewrite !String.eqb_refl. cbn [andb negb].
  rewrite app_nil_r.
  apply (existsb_filter_false _
           (fun r => negb (FingerprintingMaintenance.ofOpportunity user newId r)))
    in Hold.
  revert Hold. generalize (List.filter
    (fun r => negb (FingerprintingMaintenance.ofOpportunity user newId r)) old).
  intros l. induction l as [|r l IH]; [reflexivity |]. cbn [existsb map].
  intros H. apply orb_false_iff in H as [Hr Hl]. rewrite (IH Hl), orb_false_r.
  destruct (fpOpportunityId r) as [x|]; [| exact Hr].
  destruct (inIds gone x); exact Hr.
Qed.

End OpportunityFacts4.

(** X16. A hard delete frees the fingerprint.  When [create] has
    returned an opportunity, [hardDelete] of that opportunity by the same
    user returns; afterwards the opportunity is not in the table, its
    fingerprint is not recorded for the user, and a [create] with the
    same DTO returns again.  (A soft delete, by X15, never frees it.) *)
Theorem hardDelete_frees_the_fingerprint
    (st : OpportunitiesService.State) (user : string)
    (dto : OpportunitiesService.CreateOpportunityDto)
    (o : Store.Opportunity) (st1 : OpportunitiesService.State) :
  OpportunitiesService.create st user dto = (Store.Returned o, st1) ->
  exists st2,
    OpportunitiesService.hardDelete st1 (Store.id o) user
    = (Store.Returned tt, st2)
    /\ Store.findUnique (OpportunitiesService.db st2) (Store.id o) = None
    /\ FingerprintingService.exists_
         (FingerprintingService.checkFingerprint
            (OpportunitiesService.db st2) user
            (OpportunitiesService.dtoFingerprint dto)) = false
    /\ exists o' st3,
         OpportunitiesService.create st2 user dto = (Store.Returned o', st3).
Proof.
  intros Hc.
  destruct (OpportunityFacts.create_returned _ _ _ _ _ Hc)
    as (closing & delivery & Hk & Hdup & Ho & Hopps & Hfps & Hflow & Hclosing
        & Hdelivery).
  (* the row is found *)
  assert (Hfound : exists x,
             OpportunitiesService.findActive st1 (Store.id o) user = Some x).
  { unfold OpportunitiesService.findActive. rewrite Hopps.
    destruct (List.find _ (_ ++ [o])) as [x|] eqn:Hfind; [eauto |].
    exfalso.
    assert (Hin : In o (Store.opportunities (OpportunitiesService.db st)
                        ++ [o])%list) by (apply in_or_app; right; now left).
    apply (find_none _ _ Hfind) in Hin. revert Hin.
    rewrite String.eqb_refl.
    rewrite (OpportunityFacts3.flowOf_lookup _ _ _ Hflow).
    rewrite Ho. cbn. now rewrite String.eqb_refl. }
  destruct Hfound as (x & Hfound).
  unfold OpportunitiesService.hardDelete.
  destruct (OpportunitiesService.findOne st1 (Store.id o) user)
    as [[y | e] st1'] eqn:Hone.
  2: { unfold OpportunitiesService.findOne in Hone. rewrite Hfound in Hone.
       destruct (OpportunitiesService.isViewed _); discriminate. }
  apply OpportunityFacts3.findOne_returned in Hone as (_ & Hdb & _).
  eexists. split; [reflexivity |].
  unfold OpportunitiesService.deleteOpportunity.
  cbn [OpportunitiesService.db OpportunitiesService.withDb
         Store.opportunities Store.fingerprints
         FingerprintingMaintenance.removeFingerprintRecord].
  rewrite Hdb.
  set (gone := OpportunitiesService.cascade _ _ _).
  assert (Hgone : OpportunitiesService.inIds gone (Store.id o) = true).
  { apply OpportunityFacts4.inIds_In. unfold gone.
    apply OpportunityFacts4.cascade_keeps. now left. }
  assert (Hled :
    existsb (FingerprintingService.matchesKey user
               (OpportunitiesService.dtoFingerprint dto))
      (map (fun r =>
              match Store.fpOpportunityId r with
              | Some o0 =>
                  if OpportunitiesService.inIds gone o0
                  then Store.FpRow (Store.fpUserId r) (Store.fpFingerprint r)
                         None (Store.fpAction r) (Store.fpCreatedAt r)
                  else r
              | None => r
              end)
         (List.filter
            (fun r => negb (FingerprintingMaintenance.ofOpportunity user
                              (Store.id o) r))
            (Store.fingerprints (OpportunitiesService.db st1))))
    = false).
  { rewrite Hfps. now apply OpportunityFacts4.ledger_after_delete. }
  split; [| split].
  - unfold Store.findUnique. cbn [Store.opportunities].
    apply OpportunityFacts3.find_nothing. intros r Hin.
    apply filter_In in Hin as [_ Hr].
    destruct (String.eqb (Store.id r) (Store.id o)) eqn:Hid; [| reflexivity].
    apply String.eqb_eq in Hid. rewrite Hid, Hgone in Hr. discriminate.
  - rewrite OpportunityFacts.known_exists. cbn [Store.fingerprints].
    exact Hled.
  - unfold OpportunitiesService.create.
    rewrite OpportunityFacts.known_exists.
    cbn [OpportunitiesService.db Store.fingerprints]. rewrite Hled.
    rewrite Hclosing, Hdelivery.
    unfold Store.createOpportunity.
    cbn [Store.opportunities Store.idSeed].
    rewrite Hopps, List.filter_app. cbn [List.filter].
    rewrite Hgone. cbn [negb]. rewrite app_nil_r.
    rewrite (OpportunityFacts4.existsb_same _
               (Store.sameOpportunityKey
                  (OpportunitiesService.newRow user dto closing delivery
                     (Store.newId (Store.idSeed (OpportunitiesService.db st))))))
      by reflexivity.
    rewrite (OpportunityFacts4.existsb_filter_false _ _ _ Hdup).
    unfold FingerprintingService.recordFingerprint.
    cbn [Store.fingerprints]. rewrite Hled. eauto.
Qed.

Module OpportunityFacts5.
Import Store OpportunitiesService OpportunitySpec.
Local Open Scope list_scope.

Lemma linked_snoc history : forall start current e,
  linked start history current ->
  entryFrom e = current ->
  linked start (history ++ [e]) (entryTo e).
Proof.
  induction history as [|x history IH]; intros start current e; cbn.
  - intros -> ->. auto.
  - intros [Hx Hrest] He. split; [exact Hx | eapply IH; eassumption].
Qed.

Lemma historyAgrees_appended w current e w' :
  historyAgrees w current ->
  entryFrom e = current ->
  statusHistory w' = Some (default [] (statusHistory w) ++ [e]) ->
  historyAgrees w' (entryTo e).
Proof.
  unfold historyAgrees. intros Hw He ->.
  destruct (statusHistory w) as [h|]; cbn [default].
  - destruct Hw as (start & Hl). exists start.
    eapply linked_snoc; eassumption.
  - exists current. cbn. auto.
Qed.

(** An edge of the table, read through the stored strings. *)
Lemma allowed_edge current toStatus :
  inIds (allowedTransitions current) toStatus = true ->
  exists s s',
    statusOf current = Some s /\ In s' (VALID_TRANSITIONS s)
    /\ toStatus = statusValue s' /\ current = statusValue s.
Proof.
  unfold allowedTransitions. intros H. apply OpportunityFacts4.inIds_In in H.
  destruct (statusOf current) as [s|] eqn:Hs; [| destruct H].
  apply in_map_iff in H as (s' & <- & Hin). exists s, s'.
  repeat split; auto.
  unfold statusOf in Hs. apply find_some in Hs as [_ Hs].
  apply String.eqb_eq in Hs. now symmetry.
Qed.

Lemma find_mapped_rows (p : Opportunity -> bool) (f : Opportunity -> Opportunity)
    (rows : list Opportunity) :
  (forall r, p (f r) = p r) ->
  List.find p (map f rows) = option_map f (List.find p rows).
Proof.
  intros Hp. induction rows as [|r rows IH]; [reflexivity |]. cbn.
  rewrite Hp. destruct (p r); [reflexivity | exact IH].
Qed.

(** What a [transitionStatus] that returns has done. *)
Lemma transitionStatus_returned st today oppId user toStatus why o' st' :
  transitionStatus st today oppId user toStatus why = (Returned o', st') ->
  exists o,
    findActive st oppId user = Some o
    /\ inIds (allowedTransitions (status o)) toStatus = true
    /\ o' = withStatus o toStatus
    /\ db st' = setStatus (db st) oppId toStatus
    /\ statusHistory (flowOf st' oppId)
       = Some (default [] (statusHistory (flowOf st oppId))
               ++ [createHistoryEntry (clock (db st)) (status o) toStatus
                     user why])
    /\ deletedAt (flowOf st' oppId) = deletedAt (flowOf st oppId)
    /\ (forall k, k <> oppId -> flows st' !! k = flows st !! k)
    /\ exists alert,
         alerts st' = alerts st ++ [alert]
         /\ alertOpportunityId alert = oppId
         /\ alertUserId alert = userId o
         /\ alertType alert
            = (if String.eqb toStatus "cancelada" then "cancellation"
               else "status_change").
Proof.
  unfold transitionStatus.
  destruct (findActive st oppId user) as [o|]; [| discriminate].
  destruct (inIds (allowedTransitions (status o)) toStatus) eqn:Hal;
    [| discriminate].
  cbn [negb]. intros [= <- <-]. exists o.
  cbn [db flows alerts withDb withFlow].
  repeat split; try reflexivity; try assumption.
  - unfold flowOf at 1. cbn [flows]. rewrite lookup_insert_eq. reflexivity.
  - unfold flowOf at 1. cbn [flows]. rewrite lookup_insert_eq. reflexivity.
  - intros k Hk. now apply lookup_insert_ne.
  - eexists. split; [reflexivity |]. cbn. auto.
Qed.

End OpportunityFacts5.

(** X17. [transitionStatus] moves an opportunity only along the table
    [VALID_TRANSITIONS].  When it returns, the opportunity was active,
    its status was a value of the enum other than 'cancelada', the new
    status is one the table lists for it (never the status it had), the
    row returned and the row stored carry the new status, and exactly
    one alert was added, of type 'cancellation' when the new status is
    'cancelada' and 'status_change' otherwise. *)
Theorem transitionStatus_follows_the_table
    (st : OpportunitiesService.State) (today : Z) (oppId user : string)
    (toStatus : string) (why : option string)
    (o' : Store.Opportunity) (st' : OpportunitiesService.State) :
  OpportunitiesService.transitionStatus st today oppId user toStatus why
  = (Store.Returned o', st') ->
  exists o s s',
    OpportunitiesService.findActive st oppId user = Some o
    /\ Store.status o = OpportunitiesService.statusValue s
    /\ toStatus = OpportunitiesService.statusValue s'
    /\ In s' (OpportunitiesService.VALID_TRANSITIONS s)
    /\ s <> OpportunitiesService.CANCELADA
    /\ s' <> s
    /\ o' = OpportunitiesService.withStatus o toStatus
    /\ OpportunitiesService.findActive st' oppId user = Some o'
    /\ exists alert,
         OpportunitiesService.alerts st'
         = (OpportunitiesService.alerts st ++ [alert])%list
         /\ OpportunitiesService.alertType alert
            = (if String.eqb toStatus "cancelada" then "cancellation"
               else "status_change").
Proof.
  intros Hcall.
  destruct (OpportunityFacts5.transitionStatus_returned _ _ _ _ _ _ _ _ Hcall)
    as (o & Hfind & Hal & Ho' & Hdb & _ & Hdel & Hflows & alert & Halerts
        & _ & _ & Htype).
  destruct (OpportunityFacts5.allowed_edge _ _ Hal)
    as (s & s' & Hs & Hin & Hto & Hcur).
  exists o, s, s'. repeat split; auto.
  - intros ->. destruct Hin.
  - intros ->. destruct s; cbn in Hin;
      repeat (destruct Hin as [Hin | Hin]; [discriminate |]); exact Hin.
  - unfold OpportunitiesService.findActive.
    rewrite (LedgerFacts2.find_same _
               (fun r => String.eqb (Store.id r) oppId
                         && String.eqb (Store.userId r) user
                         && OpportunitiesService.isNull
                              (OpportunitiesService.deletedAt
                                 (OpportunitiesService.flowOf st (Store.id r))))).
    2: { intros r. destruct (String.eqb (Store.id r) oppId) eqn:Hid;
           [| reflexivity].
         apply String.eqb_eq in Hid. now rewrite Hid, Hdel. }
    rewrite Hdb.
    cbn [Store.opportunities OpportunitiesService.setStatus].
    rewrite OpportunityFacts5.find_mapped_rows.
    + unfold OpportunitiesService.findActive in Hfind. rewrite Hfind.
      cbn [option_map]. pose proof Hfind as Hid.
      apply find_some in Hid as [_ Hid].
      apply andb_true_iff in Hid as [Hid _].
      apply andb_true_iff in Hid as [Hid _]. rewrite Hid. now rewrite Ho'.
    + intros r. destruct (String.eqb (Store.id r) oppId) eqn:Hid;
        cbn [Store.id Store.userId OpportunitiesService.withStatus];
        rewrite ?Hid; reflexivity.
  - eauto.
Qed.

Module OpportunityFacts6.
Import Store OpportunitiesService OpportunitySpec ScrapingCancellation.
Local Open Scope list_scope.

Lemma setStatus_rows d oppId s o :
  In o (opportunities (setStatus d oppId s)) ->
  exists r, In r (opportunities d)
            /\ o = (if String.eqb (id r) oppId then withStatus r s else r).
Proof.
  unfold setStatus. cbn [opportunities]. intros Hin.
  apply in_map_iff in Hin as (r & <- & Hr). eauto.
Qed.

Lemma findActive_id st oppId user o :
  findActive st oppId user = Some o ->
  In o (opportunities (db st)) /\ id o = oppId.
Proof.
  unfold findActive. intros H. apply find_some in H as [Hin Hp].
  apply andb_true_iff in Hp as [Hp _]. apply andb_true_iff in Hp as [Hp _].
  apply String.eqb_eq in Hp. auto.
Qed.

Lemma findUnique_id d oppId o :
  findUnique d oppId = Some o -> In o (opportunities d) /\ id o = oppId.
Proof.
  unfold findUnique. intros H. apply find_some in H as [Hin Hp].
  apply String.eqb_eq in Hp. auto.
Qed.

(** A change of the status of [changed], seen from the id [oppId]. *)
Lemma statusRecorded_changed st st' changed oppId o e toStatus :
  statusRecorded st oppId ->
  In o (opportunities (db st)) -> id o = changed ->
  db st' = setStatus (db st) changed toStatus ->
  entryFrom e = status o -> entryTo e = toStatus ->
  statusHistory (flowOf st' changed)
  = Some (default [] (statusHistory (flowOf st changed)) ++ [e]) ->
  (forall k, k <> changed -> flows st' !! k = flows st !! k) ->
  statusRecorded st' oppId.
Proof.
  intros (current & Hrows & Hagree) Hin Hid Hdb Hfrom Hto Hhist Hflows.
  destruct (String.eqb changed oppId) eqn:Hsame.
  - apply String.eqb_eq in Hsame. exists toStatus. split.
    + intros x Hx Hxid. rewrite Hdb in Hx.
      apply setStatus_rows in Hx as (r & Hr & ->).
      destruct (String.eqb (id r) changed) eqn:Hrid; [reflexivity |].
      apply String.eqb_neq in Hrid. congruence.
    + rewrite <- Hto, <- Hsame.
      apply (OpportunityFacts5.historyAgrees_appended (flowOf st changed)
               current); auto.
      * now rewrite Hsame.
      * rewrite Hfrom. apply Hrows; congruence.
  - apply String.eqb_neq in Hsame. exists current. split.
    + intros x Hx Hxid. rewrite Hdb in Hx.
      apply setStatus_rows in Hx as (r & Hr & ->).
      destruct (String.eqb (id r) changed) eqn:Hrid.
      * apply String.eqb_eq in Hrid. cbn in Hxid. congruence.
      * now apply Hrows.
    + unfold flowOf. rewrite Hflows by congruence. exact Hagree.
Qed.

Lemma transitionStatus_raised st today oppId user toStatus why e st' :
  transitionStatus st today oppId user toStatus why = (Raised e, st') ->
  st' = st.
Proof.
  unfold transitionStatus.
  destruct (findActive st oppId user); [| now intros [= _ <-]].
  destruct (negb _); [now intros [= _ <-] | discriminate].
Qed.

Lemma applyChange_keeps st c oppId :
  statusRecorded st oppId -> statusRecorded (applyChange st c) oppId.
Proof.
  intros Hrec. destruct c as [today changed user toStatus why | changed];
    cbn [applyChange].
  - destruct (transitionStatus st today changed user toStatus why)
      as [[o' | e] st'] eqn:Hcall; cbn [snd].
    + apply OpportunityFacts5.transitionStatus_returned in Hcall
        as (o & Hfind & _ & _ & Hdb & Hhist & _ & Hflows & _).
      apply findActive_id in Hfind as [Hin Hid].
      eapply statusRecorded_changed; eauto; reflexivity.
    + apply transitionStatus_raised in Hcall. now subst.
  - unfold handleScrapingCancellation.
    destruct (findUnique (db st) changed) as [o|] eqn:Hfind; [| assumption].
    destruct (String.eqb (status o) "cancelada"); [assumption |].
    apply findUnique_id in Hfind as [Hin Hid].
    eapply (statusRecorded_changed st _ changed oppId o
              (HistoryEntry (status o) "cancelada" (clock (db st)) "system"
                 (Some "Cancelamento detectado automaticamente via scraping da pagina NECO")));
      eauto; try reflexivity.
    + unfold flowOf at 1. cbn [flows]. now rewrite lookup_insert_eq.
    + intros k Hk. cbn [flows]. now apply lookup_insert_ne.
Qed.

End OpportunityFacts6.

(** X18. The status history stays in step with the status.  Suppose the
    history stored for an opportunity links its entries (each starts from
    the status the previous one led to) and ends at the status of the
    row.  Then it still does after any sequence of status changes, made
    on this or any other opportunity by users through [transitionStatus]
    (accepted or refused) or by the scraper through
    [handleScrapingCancellation]. *)
Theorem status_history_stays_linked
    (st : OpportunitiesService.State) (oppId : string)
    (changes : list OpportunitySpec.StatusChange) :
  OpportunitySpec.statusRecorded st oppId ->
  OpportunitySpec.statusRecorded
    (fold_left OpportunitySpec.applyChange changes st) oppId.
Proof.
  revert st. induction changes as [|c changes IH]; intros st Hrec;
    [exact Hrec |].
  cbn [fold_left]. apply IH. now apply OpportunityFacts6.applyChange_keeps.
Qed.

(** X19. Urgency never falls as time passes: for a fixed closing date,
    the urgency level computed from [calculateDaysUntilClosing] and
    [calculateUrgency] at a later time is at least as urgent as the one
    computed earlier (low, medium, high, critical, expired, in that
    order); and it is 'expired' exactly when the closing date lies a
    full day or more in the past. *)
Theorem urgency_never_falls_as_time_passes (closingDate now later : Z) :
  now <= later ->
  OpportunitySpec.urgencyRank (OpportunitySpec.urgencyAt now closingDate)
  <= OpportunitySpec.urgencyRank (OpportunitySpec.urgencyAt later closingDate)
  /\ (OpportunitySpec.urgencyAt now closingDate = OpportunitiesService.EXPIRED
      <-> closingDate + 86400000 <= now).
Proof.
  intros Hle. unfold OpportunitySpec.urgencyAt,
    OpportunitiesService.calculateDaysUntilClosing,
    OpportunitiesService.calculateUrgency, OpportunitiesService.critical,
    OpportunitiesService.high, OpportunitiesService.medium.
  assert (Hdiv : (now - closingDate) / 86400000
                 <= (later - closingDate) / 86400000)
    by (apply Z.div_le_mono; lia).
  split.
  - repeat match goal with
           | |- context [if ?b then _ else _] =>
               let H := fresh in destruct b eqn:H
           end; cbn; try lia;
      repeat match goal with
             | H : (_ <? _) = true |- _ => apply Z.ltb_lt in H
             | H : (_ <? _) = false |- _ => apply Z.ltb_ge in H
             | H : (_ <=? _) = true |- _ => apply Z.leb_le in H
             | H : (_ <=? _) = false |- _ => apply Z.leb_gt in H
             end; lia.
  - pose proof (Z.div_mod (now - closingDate) 86400000 ltac:(lia)) as Hdm.
    pose proof (Z.mod_pos_bound (now - closingDate) 86400000 ltac:(lia)) as Hb.
    destruct (- ((now - closingDate) / 86400000) <? 0) eqn:H0.
    + apply Z.ltb_lt in H0. split; [intros _; lia | reflexivity].
    + apply Z.ltb_ge in H0. split.
      * repeat match goal with
               | |- context [if ?b then _ else _] => destruct b
               end; discriminate.
      * intros H. lia.
Qed.

Lemma urgency_never_falls_as_time_passes_witness :
  OpportunitySpec.urgencyRank
    (OpportunitySpec.urgencyAt 1770000000000 1771286400000)
  <= OpportunitySpec.urgencyRank
       (OpportunitySpec.urgencyAt 1771000000000 1771286400000).
Proof.
  exact (proj1 (urgency_never_falls_as_time_passes 1771286400000
                  1770000000000 1771000000000 ltac:(lia))).
Defined.

(** X20. A cancellation found by the scraper is applied once.
    [handleScrapingCancellation] on an opportunity that is missing or
    already 'cancelada' changes nothing; otherwise it sets the status of
    the row to 'cancelada' (from any status, without consulting
    [VALID_TRANSITIONS]), appends one entry to the history and creates
    one alert; and calling it again on the result changes nothing
    more. *)
Theorem handleScrapingCancellation_applies_once
    (st : OpportunitiesService.State) (oppId : string) :
  let st' := ScrapingCancellation.handleScrapingCancellation st oppId in
  ScrapingCancellation.handleScrapingCancellation st' oppId = st'
  /\ match Store.findUnique (OpportunitiesService.db st) oppId with
     | None => st' = st
     | Some o =>
         if String.eqb (Store.status o) "cancelada" then st' = st
         else
           Store.findUnique (OpportunitiesService.db st') oppId
           = Some (OpportunitiesService.withStatus o "cancelada")
           /\ (exists alert,
                 OpportunitiesService.alerts st'
                 = (OpportunitiesService.alerts st ++ [alert])%list
                 /\ OpportunitiesService.alertType alert = "cancellation"
                 /\ OpportunitiesService.alertUserId alert = Store.userId o)
           /\ exists entry,
                OpportunitiesService.statusHistory
                  (OpportunitiesService.flowOf st' oppId)
                = Some (default []
                          (OpportunitiesService.statusHistory
                             (OpportunitiesService.flowOf st oppId))
                        ++ [entry])%list
                /\ OpportunitiesService.entryFrom entry = Store.status o
                /\ OpportunitiesService.entryTo entry = "cancelada"
                /\ OpportunitiesService.entryBy entry = "system"
     end.
Proof.
  cbv zeta.
  destruct (Store.findUnique (OpportunitiesService.db st) oppId) as [o|]
    eqn:Hfind.
  2: { assert (H : ScrapingCancellation.handleScrapingCancellation st oppId
                   = st)
         by (unfold ScrapingCancellation.handleScrapingCancellation;
             now rewrite Hfind).
       rewrite !H. auto. }
  destruct (String.eqb (Store.status o) "cancelada") eqn:Hst.
  { assert (H : ScrapingCancellation.handleScrapingCancellation st oppId = st)
      by (unfold ScrapingCancellation.handleScrapingCancellation;
          now rewrite Hfind, Hst).
    rewrite !H. auto. }
  assert (Hafter :
    Store.findUnique
      (OpportunitiesService.setStatus (OpportunitiesService.db st) oppId
         "cancelada") oppId
    = Some (OpportunitiesService.withStatus o "cancelada")).
  { unfold Store.findUnique, OpportunitiesService.setStatus.
    cbn [Store.opportunities].
    rewrite OpportunityFacts5.find_mapped_rows.
    - unfold Store.findUnique in Hfind. rewrite Hfind. cbn [option_map].
      apply find_some in Hfind as [_ Hid]. now rewrite Hid.
    - intros r. destruct (String.eqb (Store.id r) oppId) eqn:Hid;
        cbn [Store.id OpportunitiesService.withStatus]; rewrite ?Hid;
        reflexivity. }
  remember (ScrapingCancellation.handleScrapingCancellation st oppId) as st'
    eqn:Hst'.
  unfold ScrapingCancellation.handleScrapingCancellation in Hst'.
  rewrite Hfind, Hst in Hst'. cbv zeta in Hst'.
  assert (Hdb : OpportunitiesService.db st'
                = OpportunitiesService.setStatus (OpportunitiesService.db st)
                    oppId "cancelada") by now rewrite Hst'.
  split.
  - unfold ScrapingCancellation.handleScrapingCancellation.
    rewrite Hdb, Hafter.
    cbn [Store.status OpportunitiesService.withStatus]. reflexivity.
  - rewrite Hdb. split; [exact Hafter |]. rewrite Hst'. split.
    + eexists. split; [reflexivity |]. cbn. auto.
    + eexists. split.
      * unfold OpportunitiesService.flowOf at 1.
        cbn [OpportunitiesService.flows]. rewrite lookup_insert_eq.
        reflexivity.
      * cbn. auto.
Qed.

Lemma softDelete_hides_the_row_and_keeps_the_fingerprint_witness :
  let st1 :=
    snd (OpportunitiesService.create OpportunitySpec.sampleState "user_2"
           OpportunitySpec.sampleDto) in
  let st2 := snd (OpportunitiesService.softDelete st1 "opp_2" "user_2") in
  OpportunitiesService.findOne st2 "opp_2" "user_2"
  = (Store.Raised "NotFoundException", st2)
  /\ OpportunitiesService.create st2 "user_2" OpportunitySpec.sampleDto
     = (Store.Raised "ConflictException", st2).
Proof.
  intros st1 st2.
  destruct (softDelete_hides_the_row_and_keeps_the_fingerprint st1 "opp_2"
              "user_2" st2) as (Hgone & _ & _ & Hblocked).
  - vm_compute. reflexivity.
  - split; [exact Hgone |]. apply Hblocked. vm_compute. reflexivity.
Defined.

Lemma hardDelete_frees_the_fingerprint_witness :
  let st1 :=
    snd (OpportunitiesService.create OpportunitySpec.sampleState "user_2"
           OpportunitySpec.sampleDto) in
  exists st2,
    OpportunitiesService.hardDelete st1 "opp_2" "user_2"
    = (Store.Returned tt, st2)
    /\ exists o' st3,
         OpportunitiesService.create st2 "user_2" OpportunitySpec.sampleDto
         = (Store.Returned o', st3).
Proof.
  intros st1.
  destruct (hardDelete_frees_the_fingerprint OpportunitySpec.sampleState
              "user_2" OpportunitySpec.sampleDto
              (OpportunitiesService.newRow "user_2" OpportunitySpec.sampleDto
                 (Some 1771286400000) None "opp_2")
              st1) as (st2 & Hdel & _ & _ & Hagain).
  - vm_compute. reflexivity.
  - exists st2. split; [exact Hdel | exact Hagain].
Defined.

Lemma transitionStatus_follows_the_table_witness :
  let st1 :=
    snd (OpportunitiesService.create OpportunitySpec.sampleState "user_2"
           OpportunitySpec.sampleDto) in
  exists o,
    OpportunitiesService.findActive
      (snd (OpportunitiesService.transitionStatus st1 0 "opp_2" "user_2"
              "analisada" None)) "opp_2" "user_2" = Some o
    /\ Store.status o = "analisada".
Proof.
  intros st1.
  destruct (transitionStatus_follows_the_table st1 0 "opp_2" "user_2"
              "analisada" None
              (OpportunitiesService.withStatus
                 (OpportunitiesService.newRow "user_2"
                    OpportunitySpec.sampleDto (Some 1771286400000) None
                    "opp_2") "analisada")
              (snd (OpportunitiesService.transitionStatus st1 0 "opp_2"
                      "user_2" "analisada" None)))
    as (o & s & s' & _ & _ & _ & _ & _ & _ & Ho' & Hfound & _).
  - vm_compute. reflexivity.
  - eexists. split; [exact Hfound |]. reflexivity.
Defined.

Lemma status_history_stays_linked_witness :
  let st1 :=
    snd (OpportunitiesService.create OpportunitySpec.sampleState "user_2"
           OpportunitySpec.sampleDto) in
  OpportunitySpec.statusRecorded
    (fold_left OpportunitySpec.applyChange
       [OpportunitySpec.ByUser 0 "opp_2" "user_2" "analisada" None;
        OpportunitySpec.ByUser 0 "opp_2" "user_2" "vencedora_bid" None;
        OpportunitySpec.ByScraper "opp_2"] st1) "opp_2".
Proof.
  intros st1. apply status_history_stays_linked.
  exists "nao_analisada". split.
  - intros o Hin Hid. vm_compute in Hin.
    destruct Hin as [<- | [<- | []]]; [discriminate Hid | reflexivity].
  - vm_compute. exact I.
Defined.

Module CountsFacts.
Import Store OpportunitiesService CountsSpec.

Lemma In_distinct (l : list string) (x : string) :
  In x (distinct l) <-> In x l.
Proof.
  induction l as [|y l IH]; cbn [distinct]; [tauto |].
  cbn [In]. rewrite filter_In, IH.
  destruct (String.eqb_spec x y) as [-> | Hne]; cbn; [tauto |].
  intuition congruence.
Qed.

Lemma fold_zero (keys : list string) (m : gmap string Z) (k : string) :
  fold_left (fun acc s => <[s := 0]> acc) keys m !! k
  = if existsb (String.eqb k) keys then Some 0 else m !! k.
Proof.
  revert m. induction keys as [|s keys IH]; intros m; [reflexivity |].
  cbn [fold_left existsb]. rewrite IH.
  destruct (existsb (String.eqb k) keys); [now rewrite orb_true_r |].
  rewrite orb_false_r.
  destruct (String.eqb_spec k s) as [-> | Hne].
  - now rewrite lookup_insert_eq.
  - now rewrite lookup_insert_ne by congruence.
Qed.

Lemma fold_counts (f : string -> Z) (keys : list string)
    (m : gmap string Z) (k : string) :
  fold_left (fun acc item => <[fst item := snd item]> acc)
    (map (fun s => (s, f s)) keys) m !! k
  = if existsb (String.eqb k) keys then Some (f k) else m !! k.
Proof.
  revert m. induction keys as [|s keys IH]; intros m; [reflexivity |].
  cbn [map fold_left existsb fst snd]. rewrite IH.
  destruct (existsb (String.eqb k) keys); [now rewrite orb_true_r |].
  rewrite orb_false_r.
  destruct (String.eqb_spec k s) as [-> | Hne].
  - now rewrite lookup_insert_eq.
  - now rewrite lookup_insert_ne by congruence.
Qed.

Lemma existsb_In (keys : list string) (k : string) :
  existsb (String.eqb k) keys = true <-> In k keys.
Proof.
  rewrite existsb_exists. split.
  - intros [x [Hin Heq]]. apply String.eqb_eq in Heq. now subst.
  - intros Hin. exists k. split; [assumption | apply String.eqb_refl].
Qed.

Lemma countStatus_absent (s : string) (rows : list Opportunity) :
  ~ In s (map status rows) -> countStatus s rows = 0.
Proof.
  intros Hnot. unfold countStatus.
  replace (List.filter (fun o => String.eqb (status o) s) rows)
    with (@nil Opportunity); [reflexivity |].
  symmetry. induction rows as [|o rows IH]; [reflexivity |].
  cbn [List.filter].
  destruct (String.eqb_spec (status o) s) as [Heq | Hne].
  - exfalso. apply Hnot. left. exact Heq.
  - apply IH. intros Hin. apply Hnot. now right.
Qed.

End CountsFacts.

(** X21. The badges of [countsByStatus] count each listed row once. Of
    the rows of the user that are neither deleted nor children, those
    closing before today are counted under [expirada], whatever their
    status, and the others under their status; every status of the
    workflow has a badge, zero when no row carries it. *)
Theorem countsByStatus_counts_each_listed_row_once
    (st : OpportunitiesService.State) (today : Z) (user : string) :
  let result := OpportunitiesService.countsByStatus st today user in
  result !! "expirada"
  = Some (CountsSpec.listedCount st user
            (OpportunitiesService.isExpired today))
  /\ (forall s, s <> "expirada" ->
        default 0 (result !! s)
        = CountsSpec.listedCount st user
            (fun o => negb (OpportunitiesService.isExpired today o)
                      && String.eqb (Store.status o) s))
  /\ (forall s, In s OpportunitiesService.statusValues ->
        result !! s <> None).
Proof.
  cbv zeta. unfold OpportunitiesService.countsByStatus.
  set (rows := List.filter
                 (fun o => OpportunitiesService.isListed st user o
                           && negb (OpportunitiesService.isExpired today o))
                 (Store.opportunities (OpportunitiesService.db st))).
  set (zeros := fold_left (fun acc s => <[s := 0]> acc)
                  OpportunitiesService.statusValues ∅).
  unfold OpportunitiesService.groupByStatus.
  split; [| split].
  - now rewrite lookup_insert_eq.
  - intros s Hs. rewrite lookup_insert_ne by congruence.
    rewrite CountsFacts.fold_counts.
    assert (Hcount : OpportunitiesService.countStatus s rows
                     = CountsSpec.listedCount st user
                         (fun o =>
                            negb (OpportunitiesService.isExpired today o)
                            && String.eqb (Store.status o) s)).
    { unfold OpportunitiesService.countStatus, CountsSpec.listedCount.
      subst rows. rewrite QueueFacts.filter_twice.
      do 2 f_equal. apply List.filter_ext. intros o.
      symmetry. apply andb_assoc. }
    destruct (existsb (String.eqb s) _) eqn:Hex; [exact Hcount |].
    rewrite <- Hcount, CountsFacts.countStatus_absent.
    + subst zeros. rewrite CountsFacts.fold_zero, lookup_empty.
      destruct (existsb (String.eqb s) OpportunitiesService.statusValues);
        reflexivity.
    + intros Hin. apply CountsFacts.In_distinct in Hin.
      apply CountsFacts.existsb_In in Hin. congruence.
  - intros s Hin.
    destruct (String.eqb_spec s "expirada") as [-> | Hne].
    + now rewrite lookup_insert_eq.
    + rewrite lookup_insert_ne by congruence.
      rewrite CountsFacts.fold_counts.
      destruct (existsb (String.eqb s) _); [discriminate |].
      subst zeros. rewrite CountsFacts.fold_zero.
      apply CountsFacts.existsb_In in Hin. now rewrite Hin.
Qed.

Module FamilyFacts.
Import Store OpportunitiesService.

(** A child of the deleted row goes with it. *)
Lemma cascade_child (rows : list Opportunity) (parent : string)
    (child : Opportunity) :
  In child rows ->
  parentOpportunityId child = Some parent ->
  In (id child) (cascade (List.length rows) rows [parent]).
Proof.
  intros Hin Hparent.
  destruct rows as [|x rows']; [destruct Hin |].
  set (all := x :: rows') in *.
  change (List.length all) with (S (List.length rows')).
  cbn [cascade]. apply OpportunityFacts4.cascade_keeps.
  destruct (String.eqb_spec (id child) parent) as [Heq | Hne].
  - apply in_or_app. left. left. now symmetry.
  - apply in_or_app. right. apply in_map. apply filter_In.
    split; [assumption |].
    rewrite Hparent. unfold inIds. cbn [existsb].
    rewrite String.eqb_refl, !orb_false_r.
    destruct (String.eqb_spec (id child) parent); [contradiction |].
    reflexivity.
Qed.

End FamilyFacts.

(** X22. A hard delete of a parent takes its children with it but leaves
    their fingerprints in the ledger. After [hardDelete] of the parent
    has returned, a child of that parent is no longer in the table, while
    the fingerprint recorded for the child is still known for its user:
    the same line item is a duplicate from then on. *)
Theorem hardDelete_of_a_parent_keeps_the_children_known
    (st st' : OpportunitiesService.State) (parent user : string)
    (child : Store.Opportunity) (r : Store.FingerprintRow) :
  OpportunitiesService.hardDelete st parent user = (Store.Returned tt, st') ->
  In child (Store.opportunities (OpportunitiesService.db st)) ->
  Store.parentOpportunityId child = Some parent ->
  Store.id child <> parent ->
  In r (Store.fingerprints (OpportunitiesService.db st)) ->
  Store.fpOpportunityId r = Some (Store.id child) ->
  Store.findUnique (OpportunitiesService.db st') (Store.id child) = None
  /\ FingerprintingService.exists_
       (FingerprintingService.checkFingerprint (OpportunitiesService.db st')
          (Store.fpUserId r) (Store.fpFingerprint r)) = true.
Proof.
  intros Hdel Hchild Hparent Hne Hr Hnames.
  unfold OpportunitiesService.hardDelete in Hdel.
  destruct (OpportunitiesService.findOne st parent user) as [[o | e] st1]
    eqn:Hfind; [| discriminate].
  injection Hdel as <-.
  apply OpportunityFacts3.findOne_returned in Hfind
    as (_ & Hdb & _).
  unfold OpportunitiesService.deleteOpportunity.
  cbn [OpportunitiesService.db OpportunitiesService.withDb
       FingerprintingMaintenance.removeFingerprintRecord
       Store.opportunities Store.fingerprints].
  rewrite Hdb.
  set (rows := Store.opportunities (OpportunitiesService.db st)).
  set (gone := OpportunitiesService.cascade (List.length rows) rows [parent]).
  assert (Hgone : In (Store.id child) gone)
    by now apply FamilyFacts.cascade_child.
  split.
  - unfold Store.findUnique. cbn [Store.opportunities].
    apply OpportunityFacts3.find_nothing. intros x Hx.
    apply filter_In in Hx as [_ Hkept].
    destruct (String.eqb_spec (Store.id x) (Store.id child)) as [Heq |];
      [| reflexivity].
    rewrite Heq in Hkept.
    apply OpportunityFacts4.inIds_In in Hgone. rewrite Hgone in Hkept.
    discriminate.
  - rewrite LedgerFacts2.checkFingerprint_exists.
    cbn [Store.fingerprints]. apply existsb_exists.
    exists (Store.FpRow (Store.fpUserId r) (Store.fpFingerprint r) None
              (Store.fpAction r) (Store.fpCreatedAt r)).
    split; [| apply matchesKey_refl].
    apply in_map_iff. exists r. split.
    + rewrite Hnames.
      apply OpportunityFacts4.inIds_In in Hgone. now rewrite Hgone.
    + apply filter_In. split; [assumption |].
      unfold FingerprintingMaintenance.ofOpportunity. rewrite Hnames.
      destruct (String.eqb_spec (Store.id child) parent); [contradiction |].
      now rewrite andb_false_r.
Qed.

Lemma hardDelete_of_a_parent_keeps_the_children_known_witness :
  Store.findUnique
    (OpportunitiesService.db
       (snd (OpportunitiesService.hardDelete FamilySpec.familyState "opp_1"
               "user_1")))
    (Store.id FamilySpec.firstChild) = None
  /\ FingerprintingService.exists_
       (FingerprintingService.checkFingerprint
          (OpportunitiesService.db
             (snd (OpportunitiesService.hardDelete FamilySpec.familyState
                     "opp_1" "user_1")))
          (Store.fpUserId FamilySpec.firstChildRecord)
          (Store.fpFingerprint FamilySpec.firstChildRecord)) = true.
Proof.
  apply (hardDelete_of_a_parent_keeps_the_children_known
           FamilySpec.familyState _ "opp_1" "user_1" FamilySpec.firstChild
           FamilySpec.firstChildRecord).
  - vm_compute. reflexivity.
  - apply nth_In. vm_compute. lia.
  - vm_compute. reflexivity.
  - vm_compute. discriminate.
  - apply nth_In. vm_compute. lia.
  - vm_compute. reflexivity.
Defined.

Module CancellationFacts.
Import Store OpportunitiesService CancellationSpec.

Lemma find_head {A : Type} (p : A -> bool) (l : list A) :
  List.find p l = head (List.filter p l).
Proof.
  induction l as [|x l IH]; [reflexivity |].
  cbn [List.find List.filter]. now destruct (p x).
Qed.

Lemma live_after (st st' : State) (number oppId : string)
    (rows : list Opportunity) :
  (forall k, k <> oppId -> flows st' !! k = flows st !! k) ->
  List.filter (EmailCancellation.isLive st' number)
    (map (fun o => if String.eqb (id o) oppId
                   then withStatus o "cancelada" else o) rows)
  = List.filter (fun o => negb (String.eqb (id o) oppId))
      (List.filter (EmailCancellation.isLive st number) rows).
Proof.
  intros Hflows. induction rows as [|o rows IH]; [reflexivity |].
  cbn [map List.filter].
  destruct (String.eqb_spec (id o) oppId) as [Heq | Hne].
  - replace (EmailCancellation.isLive st' number (withStatus o "cancelada"))
      with false.
    2:{ unfold EmailCancellation.isLive. cbn [status withStatus].
        now rewrite andb_false_r. }
    destruct (EmailCancellation.isLive st number o); [| exact IH].
    cbn [List.filter]. rewrite Heq, String.eqb_refl. exact IH.
  - replace (EmailCancellation.isLive st' number o)
      with (EmailCancellation.isLive st number o).
    2:{ unfold EmailCancellation.isLive, flowOf.
        now rewrite (Hflows (id o) Hne). }
    destruct (EmailCancellation.isLive st number o); [| exact IH].
    cbn [List.filter].
    destruct (String.eqb_spec (id o) oppId); [contradiction |].
    cbn [negb]. now rewrite IH.
Qed.

End CancellationFacts.


(** ** Enrichment and domain policy *)

Module EnrichmentFacts.
Import ScrapingEnrichment EnrichmentSpec.

Lemma nonEmpty_text (x : option string) (s : string) :
  nonEmpty x = Some s -> s <> "" /\ x = Some s.
Proof.
  unfold nonEmpty, FingerprintingService.orUndefined.
  destruct x as [v|]; [| discriminate].
  destruct v; cbn; [discriminate |].
  intros [= <-]. split; [discriminate | reflexivity].
Qed.

Lemma nonZero_number (x : option Z) (q : Z) :
  nonZero x = Some q -> q <> 0 /\ x = Some q.
Proof.
  unfold nonZero. destruct x as [n|]; [| discriminate].
  destruct (Z.eqb_spec n 0); [discriminate |].
  intros [= <-]. now split.
Qed.

Lemma orKeep_text (w old : option string) :
  (forall s, w = Some s -> s <> "") -> keptOrFilled old (orKeep w old).
Proof.
  intros Hw. destruct w as [s|]; cbn.
  - right. exists s. split; [now apply Hw | reflexivity].
  - now left.
Qed.

Lemma unitOfSubs_text (subs : list NecoSubLineItem) (s : string) :
  unitOfSubs subs = Some s -> s <> "".
Proof.
  unfold unitOfSubs.
  destruct (find _ subs) as [sub|]; [| discriminate].
  intros H. now apply nonEmpty_text in H.
Qed.

End EnrichmentFacts.

Module DomainFacts.
Import ScrapingDomains DomainSpec.

Lemma dots_app (a b : string) : dots (a ++ b) = (dots a + dots b)%nat.
Proof.
  induction a as [|c a IH]; [reflexivity |].
  change (String c a ++ b) with (String c (a ++ b)).
  cbn [dots]. rewrite IH. lia.
Qed.

Lemma splitDots_dotless (s : string) :
  List.Forall (fun part => dots part = 0%nat) (splitDots s).
Proof.
  induction s as [|c s IH]; cbn.
  - now constructor.
  - destruct (Ascii.eqb c ".") eqn:Hc.
    + now constructor.
    + destruct (splitDots s) as [|part parts]; cbn.
      * constructor; [| constructor]. cbn. now rewrite Hc.
      * inversion IH as [|? ? Hp Hps]; subst.
        constructor; [| assumption]. cbn. now rewrite Hc, Hp.
Qed.

(** The parent of a host name has exactly one dot. *)
Lemma parentDomain_dots (domain parent : string) :
  parentDomain domain = Some parent -> dots parent = 1%nat.
Proof.
  unfold parentDomain.
  pose proof (splitDots_dotless domain) as Hall.
  set (parts := splitDots domain) in *.
  destruct (Nat.ltb_spec 2 (List.length parts)) as [Hlen|]; [| discriminate].
  intros [= <-].
  assert (Hlast : List.Forall (fun part => dots part = 0%nat)
                    (skipn (List.length parts - 2) parts)).
  { now apply Forall_drop. }
  assert (Hn : List.length (skipn (List.length parts - 2) parts) = 2%nat).
  { rewrite List.length_skipn. lia. }
  destruct (skipn (List.length parts - 2) parts) as [|a [|b [|c l]]];
    try discriminate.
  inversion Hlast as [|? ? Ha Hb']; subst.
  inversion Hb' as [|? ? Hb _]; subst.
  cbn [JsString.join]. rewrite !dots_app, Ha, Hb. reflexivity.
Qed.

Lemma getDefault_neco (domain : string) (c : Resolved) :
  getDefault domain = Some c -> domain = "neco.navy.mil".
Proof.
  unfold getDefault, defaultDomainConfigs. cbn [find fst].
  destruct (String.eqb_spec "neco.navy.mil" domain); [auto | discriminate].
Qed.

Lemma getDefault_parent (domain parent : string) :
  parentDomain domain = Some parent -> getDefault parent = None.
Proof.
  intros Hp. destruct (getDefault parent) as [c|] eqn:Hd; [| reflexivity].
  apply getDefault_neco in Hd. apply parentDomain_dots in Hp.
  subst parent. discriminate.
Qed.

Lemma findFirst_row (rows : list DomainRow) (userId domain : string)
    (r : DomainRow) :
  findFirst rows userId domain = Some r ->
  In r rows /\ rowUserId r = userId /\ rowDomain r = domain.
Proof.
  unfold findFirst. intros H. apply find_some in H as [Hin Hk].
  unfold isRowOf in Hk. apply andb_prop in Hk as [Hu Hd].
  apply String.eqb_eq in Hu, Hd. auto.
Qed.

(** Without an enabled policy, or with one that asks for authentication,
    [scrapeOpportunity] refuses before any request. *)
Lemma scrapeOpportunity_gate (env : ScrapingService.Env) :
  ScrapingService.enabled (ScrapingService.domainConfig env) = false
  \/ (ScrapingService.requiresAuth (ScrapingService.domainConfig env) = true
      /\ ScrapingService.hasCredentials (ScrapingService.domainConfig env)
         = false) ->
  ScrapingSpec.fetches (snd (ScrapingService.scrapeOpportunity env)) = []
  /\ ScrapingService.success (fst (ScrapingService.scrapeOpportunity env))
     = false.
Proof.
  intros H. unfold ScrapingService.scrapeOpportunity.
  destruct (ScrapingService.sourceUrlOf env) as [url|]; [| now cbn].
  destruct (NecoExtractor.isFalsy url); [now cbn |].
  destruct (ScrapingService.enabled (ScrapingService.domainConfig env));
    cbn [negb]; [| now cbn].
  destruct H as [H | [Ha Hc]]; [discriminate |].
  rewrite Ha, Hc. now cbn.
Qed.

Lemma isRowOf_written (userId domain : string) (r : DomainRow)
    (config : DomainSettings) :
  isRowOf userId domain (written r config) = isRowOf userId domain r.
Proof. reflexivity. Qed.

Lemma isRowOf_key (userId domain : string) (r : DomainRow) :
  isRowOf userId domain r = true <-> keyOf r = (userId, domain).
Proof.
  unfold isRowOf, keyOf. rewrite andb_true_iff, !String.eqb_eq.
  split; [intros [-> ->]; reflexivity | intros [= -> ->]; auto].
Qed.

(** A lookup under another key does not see the row an upsert writes. *)
Lemma findFirst_upsert_other (rows : list DomainRow)
    (freshId userId domain : string) (config : DomainSettings)
    (u d : string) :
  (u, d) <> (userId, domain) ->
  findFirst (upsertDomainConfig rows freshId userId domain config) u d
  = findFirst rows u d.
Proof.
  intros Hne. unfold upsertDomainConfig, findFirst.
  assert (Hoff : forall r, isRowOf userId domain r = true ->
                           isRowOf u d r = false).
  { intros r Hr. apply isRowOf_key in Hr.
    destruct (isRowOf u d r) eqn:Hk; [| reflexivity].
    apply isRowOf_key in Hk. congruence. }
  destruct (existsb (isRowOf userId domain) rows).
  - induction rows as [|r rows IH]; [reflexivity |].
    cbn [map find].
    destruct (isRowOf userId domain r) eqn:Hr.
    + rewrite isRowOf_written, (Hoff r Hr). exact IH.
    + destruct (isRowOf u d r); [reflexivity | exact IH].
  - induction rows as [|r rows IH]; cbn [app find].
    + rewrite isRowOf_written.
      rewrite (Hoff (Row freshId userId domain true false None 30000));
        [reflexivity |].
      apply isRowOf_key. reflexivity.
    + destruct (isRowOf u d r); [reflexivity | exact IH].
Qed.

(** A lookup under the key of an upsert finds the row it writes. *)
Lemma findFirst_upsert_same (rows : list DomainRow)
    (freshId userId domain : string) (config : DomainSettings) :
  exists r,
    findFirst (upsertDomainConfig rows freshId userId domain config)
      userId domain = Some (written r config)
    /\ rowUserId r = userId /\ rowDomain r = domain.
Proof.
  unfold upsertDomainConfig, findFirst.
  destruct (existsb (isRowOf userId domain) rows) eqn:Hex.
  - induction rows as [|r rows IH]; [discriminate |].
    cbn [map find existsb] in *.
    destruct (isRowOf userId domain r) eqn:Hr.
    + rewrite isRowOf_written, Hr. exists r.
      apply isRowOf_key in Hr. injection Hr as Hu Hd. auto.
    + rewrite Hr. cbn [orb] in Hex. now apply IH.
  - exists (Row freshId userId domain true false None 30000).
    split; [| split; reflexivity].
    induction rows as [|r rows IH]; cbn [app find existsb] in *.
    + rewrite isRowOf_written.
      replace (isRowOf userId domain
                 (Row freshId userId domain true false None 30000))
        with true; [reflexivity |].
      symmetry. apply isRowOf_key. reflexivity.
    + apply orb_false_elim in Hex as [Hr Hrest]. rewrite Hr. now apply IH.
Qed.

Lemma keys_upsert_mapped (rows : list DomainRow) (userId domain : string)
    (config : DomainSettings) :
  map keyOf
    (map (fun r => if isRowOf userId domain r then written r config else r)
       rows)
  = map keyOf rows.
Proof.
  rewrite map_map. apply map_ext. intros r.
  now destruct (isRowOf userId domain r).
Qed.

Lemma existsb_key (rows : list DomainRow) (userId domain : string) :
  existsb (isRowOf userId domain) rows = false ->
  ~ In (userId, domain) (map keyOf rows).
Proof.
  intros Hex Hin. apply in_map_iff in Hin as [r [Hk Hin]].
  apply isRowOf_key in Hk.
  assert (existsb (isRowOf userId domain) rows = true)
    by (apply existsb_exists; eauto).
  congruence.
Qed.

End DomainFacts.

(** X24. The update of a successful scrape never blanks a column: part
    number, manufacturer, condition, unit and description are left as they
    were or receive a text that is not empty, the quantity is left or
    receives a number that is not zero, and the identity, status and
    closing date of the row are untouched. *)
Theorem enrichFromScrape_never_blanks_a_column
    (subsOf : NecoExtractor.NecoLineItem
              -> list ScrapingEnrichment.NecoSubLineItem)
    (neco : option NecoExtractor.NecoExtractedData)
    (o : Store.Opportunity) :
  let o' := ScrapingEnrichment.enrichFromScrape subsOf neco o in
  EnrichmentSpec.keptOrFilled (Store.partNumber o) (Store.partNumber o')
  /\ EnrichmentSpec.keptOrFilled (Store.manufacturer o)
       (Store.manufacturer o')
  /\ EnrichmentSpec.keptOrFilled (Store.condition o) (Store.condition o')
  /\ EnrichmentSpec.keptOrFilled (Store.unit o) (Store.unit o')
  /\ EnrichmentSpec.keptOrFilled (Store.description o)
       (Store.description o')
  /\ EnrichmentSpec.keptOrCounted (Store.quantity o) (Store.quantity o')
  /\ EnrichmentSpec.sameIdentity o o'.
Proof.
  cbv zeta.
  unfold ScrapingEnrichment.enrichFromScrape, ScrapingEnrichment.enrich.
  cbn [Store.partNumber Store.manufacturer Store.condition Store.unit
       Store.description Store.quantity].
  set (e := ScrapingEnrichment.buildEnrichmentData subsOf neco
              (Store.description o)).
  assert (Htexts :
    (forall s, ScrapingEnrichment.enPartNumber e = Some s -> s <> "")
    /\ (forall s, ScrapingEnrichment.enManufacturer e = Some s -> s <> "")
    /\ (forall s, ScrapingEnrichment.enCondition e = Some s -> s <> "")
    /\ (forall s, ScrapingEnrichment.enUnit e = Some s -> s <> "")
    /\ (forall s, ScrapingEnrichment.enDescription e = Some s -> s <> "")
    /\ (forall q, ScrapingEnrichment.enQuantity e = Some q -> q <> 0)).
  { subst e. unfold ScrapingEnrichment.buildEnrichmentData.
    destruct neco as [doc|]; [| cbn; repeat split; discriminate].
    destruct (NecoExtractor.lineItems doc) as [|first rest];
      [cbn; repeat split; discriminate |].
    cbn [ScrapingEnrichment.enPartNumber ScrapingEnrichment.enManufacturer
         ScrapingEnrichment.enCondition ScrapingEnrichment.enUnit
         ScrapingEnrichment.enDescription ScrapingEnrichment.enQuantity].
    repeat split.
    - intros s H. now apply EnrichmentFacts.nonEmpty_text in H.
    - intros s H. now apply EnrichmentFacts.nonEmpty_text in H.
    - intros s H. now apply EnrichmentFacts.nonEmpty_text in H.
    - intros s.
      destruct (ScrapingEnrichment.nonZero (NecoExtractor.quantity first)).
      + cbn [snd]. intros H. now apply EnrichmentFacts.nonEmpty_text in H.
      + destruct (0 <? _); cbn [snd]; [| discriminate].
        apply EnrichmentFacts.unitOfSubs_text.
    - intros s.
      destruct (ScrapingEnrichment.nonEmpty (NecoExtractor.nomenclature first))
        as [name|] eqn:Hname; [| discriminate].
      apply EnrichmentFacts.nonEmpty_text in Hname as [Hne _].
      destruct (ScrapingEnrichment.nonEmpty (Store.description o))
        as [current|].
      + destruct (ScrapingEnrichment.isLineItemText current);
          [| discriminate].
        now intros [= <-].
      + now intros [= <-].
    - intros q.
      destruct (ScrapingEnrichment.nonZero (NecoExtractor.quantity first))
        as [n|] eqn:Hn.
      + cbn [fst]. intros [= <-].
        now apply EnrichmentFacts.nonZero_number in Hn.
      + destruct (Z.ltb_spec 0
                    (ScrapingEnrichment.quantityOfSubs (subsOf first)));
          cbn [fst]; [| discriminate].
        intros [= <-]. lia. }
  destruct Htexts as (Hp & Hm & Hc & Hu & Hd & Hq).
  repeat split; try (now apply EnrichmentFacts.orKeep_text).
  unfold EnrichmentSpec.keptOrCounted.
  destruct (ScrapingEnrichment.enQuantity e) as [q|]; cbn.
  - right. exists q. split; [now apply Hq | reflexivity].
  - now left.
Qed.

(** X25. What an enrichment may write. A unit is written only together
    with a quantity; a description is written only when the stored one is
    missing, empty or begins with LINE ITEM in any case, and is then the
    nomenclature of the first line item; whereas a part number found on
    the first line item replaces the stored one whatever it was. Without a
    first line item nothing is written. *)
Theorem buildEnrichmentData_writes
    (subsOf : NecoExtractor.NecoLineItem
              -> list ScrapingEnrichment.NecoSubLineItem)
    (neco : option NecoExtractor.NecoExtractedData)
    (current : option string) :
  let e := ScrapingEnrichment.buildEnrichmentData subsOf neco current in
  (ScrapingEnrichment.enUnit e <> None ->
   ScrapingEnrichment.enQuantity e <> None)
  /\ (forall name, ScrapingEnrichment.enDescription e = Some name ->
        (exists first, EnrichmentSpec.firstItem neco = Some first
                       /\ NecoExtractor.nomenclature first = Some name)
        /\ (NecoExtractor.isFalsy current = true
            \/ exists text, current = Some text
                 /\ String.prefix "line item" (JsString.toLowerCase text)
                    = true))
  /\ (forall first part,
        EnrichmentSpec.firstItem neco = Some first ->
        NecoExtractor.vendorPartNumber first = Some part ->
        part <> "" ->
        ScrapingEnrichment.enPartNumber e = Some part)
  /\ (EnrichmentSpec.firstItem neco = None ->
      e = ScrapingEnrichment.Enrich None None None None None None).
Proof.
  cbv zeta. unfold ScrapingEnrichment.buildEnrichmentData,
    EnrichmentSpec.firstItem.
  destruct neco as [doc|];
    [| cbn; repeat split; intros; try discriminate; congruence].
  destruct (NecoExtractor.lineItems doc) as [|first rest];
    [cbn; repeat split; intros; try discriminate; congruence |].
  cbn [head ScrapingEnrichment.enUnit ScrapingEnrichment.enQuantity
       ScrapingEnrichment.enDescription ScrapingEnrichment.enPartNumber].
  split; [| split; [| split; [| discriminate]]].
  - destruct (ScrapingEnrichment.nonZero (NecoExtractor.quantity first));
      cbn [fst snd]; [discriminate |].
    destruct (0 <? _); cbn [fst snd]; [discriminate | auto].
  - intros name.
    destruct (ScrapingEnrichment.nonEmpty (NecoExtractor.nomenclature first))
      as [n|] eqn:Hn; [| discriminate].
    apply EnrichmentFacts.nonEmpty_text in Hn as [_ Hn].
    unfold ScrapingEnrichment.nonEmpty, FingerprintingService.orUndefined,
      NecoExtractor.isFalsy.
    destruct current as [text|].
    + destruct (JsString.isEmpty text).
      * intros [= <-]. split; [eauto | now left].
      * unfold ScrapingEnrichment.isLineItemText.
        destruct (String.prefix _ _) eqn:Hpre; [| discriminate].
        intros [= <-]. split; [eauto | right; eauto].
    + intros [= <-]. split; [eauto | now left].
  - intros item part [= <-] Hpart Hne.
    rewrite Hpart. unfold ScrapingEnrichment.nonEmpty.
    now apply orUndefined_nonempty.
Qed.





(** ** The mapping of extracted fields *)

Module MappingFacts.
Import FieldMapping MappingSpec.

Lemma prefix_refl (s : string) : String.prefix s s = true.
Proof.
  induction s as [|c s IH]; [reflexivity |].
  cbn. destruct (ascii_dec c c); [exact IH | congruence].
Qed.

Lemma includes_refl (s : string) : JsString.includes s s = true.
Proof. destruct s; cbn [JsString.includes]; now rewrite prefix_refl. Qed.

Lemma substring_all (s : string) :
  String.substring 0 (String.length s) s = s.
Proof. induction s as [|c s IH]; cbn; [reflexivity | now rewrite IH]. Qed.

Lemma includes_tail (s : string) (k : nat) :
  (k <= String.length s)%nat ->
  JsString.includes s (String.substring k (String.length s - k) s) = true.
Proof.
  revert k. induction s as [|c s IH]; intros k Hk.
  - cbn in Hk. assert (k = 0%nat) as -> by lia. reflexivity.
  - destruct k as [|k].
    + rewrite Nat.sub_0_r, substring_all. apply includes_refl.
    + cbn [String.length Nat.sub String.substring JsString.includes].
      rewrite IH by (cbn in Hk; lia). apply orb_true_r.
Qed.

Lemma endsWith_includes (s suffix : string) :
  JsText.endsWith s suffix = true -> JsString.includes s suffix = true.
Proof.
  unfold JsText.endsWith. intros H.
  apply andb_prop in H as [Hlen Heq].
  apply Nat.leb_le in Hlen. apply String.eqb_eq in Heq.
  rewrite <- Heq.
  replace (String.length suffix)
    with (String.length s - (String.length s - String.length suffix))%nat
    at 2 by lia.
  apply includes_tail. lia.
Qed.

(** The three tests of the inner loop come to the last one. *)
Lemma namesField_contains (dtoField extractedKey : string) :
  namesField (JsString.toLowerCase dtoField) extractedKey
  = contains extractedKey dtoField.
Proof.
  unfold namesField, contains.
  destruct (String.eqb_spec (JsString.toLowerCase extractedKey)
              (JsString.toLowerCase dtoField)) as [-> |].
  - now rewrite includes_refl, orb_true_r.
  - cbn [orb].
    destruct (JsText.endsWith _ _) eqn:He; [| reflexivity].
    now rewrite (endsWith_includes _ _ He).
Qed.

Lemma valueOf_In (data : Entries JsVal) (key : string) :
  JsValue.notNullish (valueOf data key) = true ->
  In (key, valueOf data key) data.
Proof.
  unfold valueOf.
  destruct (find _ data) as [[k v]|] eqn:Hf; [| discriminate].
  intros _. apply find_some in Hf as [Hin Hk].
  apply String.eqb_eq in Hk. cbn in *. now subst.
Qed.

Lemma mapKnown_other (data : Entries JsVal) (m : gmap string JsVal)
    (f g : string) :
  f <> g -> mapKnown data m f !! g = m !! g.
Proof.
  intros Hne. unfold mapKnown.
  destruct (JsValue.notNullish _); [reflexivity |].
  destruct (find _ data); [| reflexivity].
  now rewrite lookup_insert_ne.
Qed.

Lemma mapKnown_same (data : Entries JsVal) (m : gmap string JsVal)
    (f : string) :
  mapKnown data m f !! f
  = if JsValue.notNullish (default VUndefined (m !! f)) then m !! f
    else match containedValue data f with
         | Some v => Some v
         | None => m !! f
         end.
Proof.
  unfold mapKnown, containedValue, JsValue.get.
  destruct (JsValue.notNullish _); [reflexivity |].
  rewrite (LedgerFacts2.find_same _
             (fun entry => JsValue.notNullish (snd entry)
                           && contains (fst entry) f)).
  2:{ intros e. now rewrite namesField_contains. }
  destruct (find _ data); cbn [option_map]; [| reflexivity].
  now rewrite lookup_insert_eq.
Qed.

Lemma fold_mapKnown_other (data : Entries JsVal) (fields : list string)
    (m : gmap string JsVal) (g : string) :
  ~ In g fields -> fold_left (mapKnown data) fields m !! g = m !! g.
Proof.
  revert m. induction fields as [|f fields IH]; intros m Hnot;
    [reflexivity |].
  cbn [fold_left]. rewrite IH by (intros H; apply Hnot; now right).
  apply mapKnown_other. intros ->. apply Hnot. now left.
Qed.

Lemma fold_mapKnown_same (data : Entries JsVal) (fields : list string)
    (m : gmap string JsVal) (g : string) :
  List.NoDup fields -> In g fields ->
  fold_left (mapKnown data) fields m !! g = mapKnown data m g !! g.
Proof.
  revert m. induction fields as [|f fields IH]; intros m Hnd Hin;
    [destruct Hin |].
  apply List.NoDup_cons_iff in Hnd as [Hnot Hnd].
  cbn [fold_left].
  destruct (String.eqb_spec f g) as [-> | Hne].
  - now apply fold_mapKnown_other.
  - destruct Hin as [-> | Hin]; [congruence |].
    rewrite IH by assumption.
    rewrite !mapKnown_same, (mapKnown_other data m f g Hne). reflexivity.
Qed.

Lemma knownDtoFields_distinct : List.NoDup knownDtoFields.
Proof.
  unfold knownDtoFields.
  repeat (apply List.NoDup_cons; [cbn; intuition discriminate |]).
  constructor.
Qed.

Lemma isKnown_In (f : string) : isKnown f = true <-> In f knownDtoFields.
Proof.
  unfold isKnown. rewrite existsb_exists. split.
  - intros [g [Hin Heq]]. apply String.eqb_eq in Heq. now subst.
  - intros Hin. exists f. split; [assumption | apply String.eqb_refl].
Qed.

Lemma mapListed_other (data : Entries JsVal) (m : gmap string JsVal)
    (item : string * string) (g : string) :
  fst item <> g -> mapListed data m item !! g = m !! g.
Proof.
  intros Hne. unfold mapListed.
  destruct (JsValue.notNullish _); [| reflexivity].
  now rewrite lookup_insert_ne.
Qed.

Lemma find_unlisted (fieldMapping : Entries string) (g : string) :
  ~ In g (map fst fieldMapping) ->
  find (fun item => String.eqb (fst item) g) fieldMapping = None.
Proof.
  intros Hnot. destruct (find _ fieldMapping) as [item|] eqn:Hf;
    [| reflexivity].
  apply find_some in Hf as [Hin Heq]. apply String.eqb_eq in Heq.
  exfalso. apply Hnot. rewrite <- Heq. now apply in_map.
Qed.

(** The first loop, on a mapping that lists each field once. *)
Lemma fold_mapListed (data : Entries JsVal) (fieldMapping : Entries string)
    (m : gmap string JsVal) (g : string) :
  List.NoDup (map fst fieldMapping) ->
  fold_left (mapListed data) fieldMapping m !! g
  = match listedValue data fieldMapping g with
    | Some v => Some v
    | None => m !! g
    end.
Proof.
  revert m. induction fieldMapping as [|[f k] rest IH]; intros m Hnd;
    [reflexivity |].
  cbn [map fst] in Hnd. apply List.NoDup_cons_iff in Hnd as [Hnot Hnd].
  cbn [fold_left]. rewrite IH by assumption.
  unfold listedValue. cbn [find fst snd].
  destruct (String.eqb_spec f g) as [-> | Hne].
  - rewrite (find_unlisted rest g Hnot).
    unfold mapListed. cbn [fst snd].
    destruct (JsValue.notNullish (valueOf data k)); [| reflexivity].
    now rewrite lookup_insert_eq.
  - rewrite (mapListed_other data m (f, k) g Hne). reflexivity.
Qed.

End MappingFacts.

Module MappingFacts2.
Import FieldMapping MappingSpec.

Lemma justified_mapListed (data : Entries JsVal)
    (fieldMapping : Entries string) (m : gmap string JsVal)
    (item : string * string) :
  In item fieldMapping -> justified data fieldMapping m ->
  justified data fieldMapping (mapListed data m item).
Proof.
  intros Hin Hm f v. unfold mapListed.
  destruct (JsValue.notNullish (valueOf data (snd item))) eqn:Hv;
    [| apply Hm].
  destruct (String.eqb_spec (fst item) f) as [<- | Hne].
  - rewrite lookup_insert_eq. intros [= <-]. split; [assumption |].
    exists (snd item). split; [now apply MappingFacts.valueOf_In |].
    left. now destruct item.
  - rewrite lookup_insert_ne by assumption. apply Hm.
Qed.

Lemma justified_mapKnown (data : Entries JsVal)
    (fieldMapping : Entries string) (m : gmap string JsVal) (g : string) :
  In g knownDtoFields -> justified data fieldMapping m ->
  justified data fieldMapping (mapKnown data m g).
Proof.
  intros Hin Hm f v. unfold mapKnown.
  destruct (JsValue.notNullish (JsValue.get m g)); [apply Hm |].
  destruct (find _ data) as [[key w]|] eqn:Hf; [| apply Hm].
  apply find_some in Hf as [Hdata Htest]. cbn [fst snd] in *.
  apply andb_prop in Htest as [Hw Hname].
  rewrite MappingFacts.namesField_contains in Hname.
  destruct (String.eqb_spec g f) as [<- | Hne].
  - rewrite lookup_insert_eq. intros [= <-]. split; [assumption |].
    exists key. auto.
  - rewrite lookup_insert_ne by assumption. apply Hm.
Qed.

Lemma justified_result (data : Entries JsVal)
    (fieldMapping : Entries string) :
  justified data fieldMapping (mapExtractedFields data fieldMapping).
Proof.
  unfold mapExtractedFields.
  assert (Hlisted : forall items m,
            incl items fieldMapping -> justified data fieldMapping m ->
            justified data fieldMapping
              (fold_left (mapListed data) items m)).
  { induction items as [|item items IH]; intros m Hincl Hm; [exact Hm |].
    cbn [fold_left]. apply IH.
    - intros x Hx. apply Hincl. now right.
    - apply justified_mapListed; [apply Hincl; now left | exact Hm]. }
  assert (Hknown : forall fields m,
            incl fields knownDtoFields -> justified data fieldMapping m ->
            justified data fieldMapping
              (fold_left (mapKnown data) fields m)).
  { induction fields as [|g fields IH]; intros m Hincl Hm; [exact Hm |].
    cbn [fold_left]. apply IH.
    - intros x Hx. apply Hincl. now right.
    - apply justified_mapKnown; [apply Hincl; now left | exact Hm]. }
  apply Hknown; [apply incl_refl |].
  apply Hlisted; [apply incl_refl |].
  intros f v. rewrite lookup_empty. discriminate.
Qed.

End MappingFacts2.





(** ** Line endings *)

Module LineEndingFacts.
Import EmailParsing LineEndingSpec.

Lemma replaceCr_crFree (s : string) : crFree (replaceCr s) = true.
Proof.
  induction s as [|c s IH]; [reflexivity |].
  cbn [replaceCr crFree]. rewrite IH, andb_true_r.
  destruct (Ascii.eqb c CR) eqn:Hc; [reflexivity |].
  now rewrite Hc.
Qed.

Lemma normalize_crFree (s : string) :
  crFree s = true -> normalizeLineEndings s = s.
Proof.
  unfold normalizeLineEndings.
  induction s as [|c s IH]; [reflexivity |].
  cbn [crFree]. intros H. apply andb_prop in H as [Hc Hs].
  apply negb_true_iff in Hc.
  cbn [replaceCrLf]. rewrite Hc. cbn [replaceCr]. rewrite Hc.
  now rewrite IH.
Qed.

Lemma normalize_withCrLf (s : string) :
  crFree s = true -> normalizeLineEndings (withCrLf s) = s.
Proof.
  unfold normalizeLineEndings.
  induction s as [|c s IH]; [reflexivity |].
  cbn [crFree]. intros H. apply andb_prop in H as [Hc Hs].
  apply negb_true_iff in Hc.
  cbn [withCrLf]. destruct (Ascii.eqb c LF) eqn:Hlf.
  - apply Ascii.eqb_eq in Hlf. subst c.
    cbn [replaceCrLf]. rewrite !Ascii.eqb_refl.
    cbn [replaceCr]. rewrite Hc. now rewrite IH.
  - cbn [replaceCrLf]. rewrite Hc. cbn [replaceCr]. rewrite Hc.
    now rewrite IH.
Qed.

Lemma normalize_withCr (s : string) :
  crFree s = true -> normalizeLineEndings (withCr s) = s.
Proof.
  unfold normalizeLineEndings.
  induction s as [|c s IH]; [reflexivity |].
  cbn [crFree]. intros H. apply andb_prop in H as [Hc Hs].
  apply negb_true_iff in Hc. specialize (IH Hs).
  cbn [withCr]. destruct (Ascii.eqb c LF) eqn:Hlf.
  - apply Ascii.eqb_eq in Hlf. subst c.
    cbn [replaceCrLf]. rewrite Ascii.eqb_refl.
    destruct s as [|d s'].
    + reflexivity.
    + cbn [withCr] in *.
      assert (Hd : Ascii.eqb (if Ascii.eqb d LF then CR else d) LF = false).
      { destruct (Ascii.eqb d LF) eqn:Hd; [reflexivity | exact Hd]. }
      rewrite Hd. cbn [replaceCr]. rewrite Ascii.eqb_refl.
      now rewrite IH.
  - cbn [replaceCrLf]. rewrite Hc. cbn [replaceCr]. rewrite Hc.
    now rewrite IH.
Qed.

End LineEndingFacts.

(** X30. [parseEmail] does not depend on the line-ending convention of
    the message. The body it works on holds no carriage return; and for
    every email, the same message with its lines ended by carriage return
    and line feed, by a lone carriage return, or by a line feed gives the
    same result: the same items, the same data and the same
    fingerprints. *)
Theorem parseEmail_ignores_the_line_ending_convention
    (dateToString : JsDate.Date -> string)
    (transformValue : string -> string -> JsVal)
    (parseTabular : string -> EmailParsing.ParsingTemplate
                    -> list EmailParsing.ParsedOpportunity)
    (email : EmailParsing.ParsedEmail)
    (template : EmailParsing.ParsingTemplate) :
  let parse := EmailParsing.parseEmail dateToString transformValue
                 parseTabular in
  let text := EmailParsing.normalizeLineEndings (EmailParsing.body email) in
  LineEndingSpec.crFree text = true
  /\ parse (LineEndingSpec.withBody email text) template
     = parse email template
  /\ parse (LineEndingSpec.withBody email (LineEndingSpec.withCrLf text))
       template
     = parse email template
  /\ parse (LineEndingSpec.withBody email (LineEndingSpec.withCr text))
       template
     = parse email template.
Proof.
  cbv zeta.
  assert (Hfree : LineEndingSpec.crFree
                    (EmailParsing.normalizeLineEndings
                       (EmailParsing.body email)) = true)
    by apply LineEndingFacts.replaceCr_crFree.
  split; [exact Hfree |].
  unfold EmailParsing.parseEmail, LineEndingSpec.withBody.
  cbn [EmailParsing.body].
  rewrite (LineEndingFacts.normalize_crFree _ Hfree),
    (LineEndingFacts.normalize_withCrLf _ Hfree),
    (LineEndingFacts.normalize_withCr _ Hfree).
  repeat split.
Qed.
